(** * Batch-scoped records of the coaching backend: model and properties

    A shallow embedding of the Express handlers of [src/routes/admin.js] and
    of the user router ([src/unnamed/part_000]) over the Mongoose documents
    of [src/Models/batch.js], [src/Models/adminUser.js] and the attendance
    schema.

    - A collection is the list of its documents, oldest first.
    - A handler is a function from the database, the environment and the
      request to the database after the request and the response.  A handler
      writes at one point only ([save], [create], [findByIdAndDelete]), so
      every early [return res.status(..)] and every exception leaves the
      database as it was.
    - What the platform supplies is read from an [Env]: the clock, the
      identifier of a document about to be created, [jwt.verify] and
      [mongoose.Types.ObjectId.isValid].
    - An [ObjectId] is the string the server prints for it: its
      hexadecimal digits, in lower case.  A request may write an identifier
      in either case.  Where a handler stores an identifier of the request
      body or hands a list of them to a query ([POST
      /batches/:batchId/students], the marks of [PUT
      /batches/:batchId/tests/:testId]) the identifier is cast, [castId];
      a comparison the handler makes on strings ([includes],
      [toString() ===]) takes the identifier as the request wrote it.  A
      query by one [_id] is modelled for an identifier in printed form.
    - JSON numbers are binary64 floats, except timetable hours, which are
      integers ([parseInt] on the route).
    - An answer is its status, its message and, for the routes that read,
      its data; the copy of the saved document that a writing route sends
      back is left out.
    - Mongoose casting is modelled where a handler depends on it: a query
      by an [_id] that is no identifier throws, and a document that its
      schema refuses is not saved. *)

From Stdlib Require Import List String Ascii Bool Arith ZArith NArith Lia.
From Stdlib Require Import Floats Uint63 Sorting.Sorted Sorting.Permutation.
Import ListNotations.

Set Implicit Arguments.
Local Open Scope string_scope.
Local Open Scope list_scope.

(** ** JavaScript values *)

(** An [ObjectId] is handled as the string the server prints for it. *)
Abbreviation ObjectId := string.

(** [!s] is false exactly for a present, non-empty string. *)
Definition truthy (s : option string) : bool :=
  match s with
  | Some EmptyString => false
  | Some _ => true
  | None => false
  end.

Definition isSome {A} (x : option A) : bool :=
  match x with
  | Some _ => true
  | None => false
  end.

(** [s || ''] *)
Definition orEmpty (s : option string) : string :=
  match s with
  | Some r => r
  | None => EmptyString
  end.

Definition upper_ascii (c : ascii) : ascii :=
  let n := nat_of_ascii c in
  if (97 <=? n)%nat && (n <=? 122)%nat then ascii_of_nat (n - 32) else c.

Definition lower_ascii (c : ascii) : ascii :=
  let n := nat_of_ascii c in
  if (65 <=? n)%nat && (n <=? 90)%nat then ascii_of_nat (n + 32) else c.

Fixpoint map_string (f : ascii -> ascii) (s : string) : string :=
  match s with
  | EmptyString => EmptyString
  | String c r => String (f c) (map_string f r)
  end.

(** [String.prototype.toUpperCase] and [toLowerCase] on ASCII text.  Where
    a handler puts a text of the request in upper case, the handler is
    written for any function [up] in the place of
    [String.prototype.toUpperCase], and the router runs it with this
    one. *)
Definition toUpperCase : string -> string := map_string upper_ascii.
Definition toLowerCase : string -> string := map_string lower_ascii.

(** The [ObjectId] that an identifier of a request, twenty-four
    hexadecimal digits in either case, is cast to, as the server prints
    it: the digits in lower case. *)
Definition castId (id : string) : ObjectId := toLowerCase id.

(** [s.split(' ')] *)
Fixpoint split_space (s : string) : list string :=
  match s with
  | EmptyString => [EmptyString]
  | String c r =>
      if Ascii.eqb c " "%char then EmptyString :: split_space r
      else match split_space r with
           | [] => [String c EmptyString]
           | h :: t => String c h :: t
           end
  end.

Definition startsWith (p s : string) : bool := String.prefix p s.

Definition includes (x : string) (l : list string) : bool :=
  existsb (String.eqb x) l.

(** [Array.prototype.findIndex]: [None] stands for -1. *)
Fixpoint findIndex {A} (p : A -> bool) (l : list A) : option nat :=
  match l with
  | [] => None
  | x :: r => if p x then Some 0%nat else option_map S (findIndex p r)
  end.

(** [l[i] = f(l[i])] *)
Fixpoint update_at {A} (i : nat) (f : A -> A) (l : list A) : list A :=
  match l, i with
  | [], _ => []
  | x :: r, O => f x :: r
  | x :: r, S j => x :: update_at j f r
  end.

(** [l.splice(i, 1)] *)
Fixpoint remove_at {A} (i : nat) (l : list A) : list A :=
  match l, i with
  | [], _ => []
  | _ :: r, O => r
  | x :: r, S j => x :: remove_at j r
  end.

(** ** Numbers *)

Definition Z_to_float (r : Z) : float :=
  if (r <? 0)%Z then PrimFloat.opp (PrimFloat.of_uint63 (Uint63.of_Z (- r)))
  else PrimFloat.of_uint63 (Uint63.of_Z r).

(** The number of elements of an array, as a JavaScript number. *)
Definition length_num {A} (l : list A) : float :=
  Z_to_float (Z.of_nat (List.length l)).

(** [Math.round]: the integer nearest to [x], the larger one at a tie.  A
    finite float is [m * 2^e]; for [e >= 0] it is an integer already. *)
Definition Math_round (x : float) : float :=
  match Prim2SF x with
  | S754_finite s m e =>
      if (0 <=? e)%Z then x
      else
        let v := if s then Z.neg m else Z.pos m in
        let r := ((2 * v + 2 ^ (- e)) / 2 ^ (1 - e))%Z in
        if (r =? 0)%Z && s then (-0)%float else Z_to_float r
  | _ => x
  end.

Definition is_zero (x : float) : bool := PrimFloat.eqb x 0%float.

(** ** Documents *)

Record AdminUser := {
  admin_id : ObjectId;
  admin_name : string;
  admin_email : string
}.

(** The user schema is not among the sources; these are the fields the
    routers read. *)
Record User := {
  user_id : ObjectId;
  user_name : string;
  user_email : string;
  role : string;
  parentEmail : option string
}.

Record FeesPayment := {
  fee_student : ObjectId;
  amount : float;
  paymentDate : Z;
  paymentMethod : string;
  fee_status : string;
  fee_remarks : string
}.

Record Announcement := {
  ann_id : ObjectId;
  title : string;
  content : string;
  ann_teacher_id : ObjectId;
  ann_createdAt : Z
}.

Record TimetableEntry := {
  hour : Z;
  subject : string;
  teacher : option string;
  startTime : option string;
  endTime : option string
}.

Inductive Day := monday | tuesday | wednesday | thursday | friday | saturday.

Record Timetable := {
  tt_monday : list TimetableEntry;
  tt_tuesday : list TimetableEntry;
  tt_wednesday : list TimetableEntry;
  tt_thursday : list TimetableEntry;
  tt_friday : list TimetableEntry;
  tt_saturday : list TimetableEntry
}.

Record StudentMark := {
  mark_student : ObjectId;
  marks : float;
  mark_remarks : string
}.

Record TestResult := {
  test_id : ObjectId;
  examName : string;
  test_date : Z;
  maximumMarks : float;
  test_subject : string;
  createdBy : ObjectId;
  studentMarks : list StudentMark
}.

Record Batch := {
  batch_id : ObjectId;
  batch_name : string;
  batch_code : string;
  class : string;
  teacher_id : ObjectId;
  students : list ObjectId;
  feesPayments : list FeesPayment;
  announcements : list Announcement;
  timetable : Timetable;
  testResults : list TestResult;
  createdAt : Z;
  updatedAt : Z
}.

Record AttendanceRecord := {
  student_id : ObjectId;
  att_status : string;
  att_remarks : option string
}.

Record Attendance := {
  att_id : ObjectId;
  att_batch_id : ObjectId;
  date : Z;
  records : list AttendanceRecord;
  marked_by : ObjectId
}.

Record DB := {
  admins : list AdminUser;
  users : list User;
  batches : list Batch;
  attendances : list Attendance
}.

Record Env := {
  now : Z;
  newObjectId : ObjectId;
  jwt_verify : string -> option ObjectId;
  isValid : string -> bool
}.

(** ** Responses and the control flow of a handler *)

Record Ref := {
  ref_id : ObjectId;
  ref_name : string;
  ref_email : string
}.

Record AnnouncementView := {
  av_announcement : Announcement;
  av_teacher : option Ref
}.

Record FeesView := {
  fv_payment : FeesPayment;
  fv_student : option Ref
}.

Record BatchView := {
  bv_id : ObjectId;
  bv_name : string;
  bv_batch_code : string;
  bv_class : string;
  bv_teacher : option Ref;
  bv_students : list Ref;
  bv_createdAt : Z;
  bv_announcements : list Announcement;
  bv_timetable : Timetable
}.

Record FormattedRecord := {
  fr_date : Z;
  fr_status : string;
  fr_remarks : string;
  fr_marked_by : option string
}.

Record Statistics := {
  totalClasses : nat;
  present : nat;
  absent : nat;
  attendancePercentage : float
}.

Inductive Payload :=
| NoData
| BatchData (b : BatchView)
| AnnouncementsData (l : list AnnouncementView)
| TimetableData (t : Timetable)
| FeesPaymentsData (l : list FeesView)
| FeesPaymentData (f : option FeesView)
| TestsData (l : list TestResult)
| AttendanceData (l : list FormattedRecord) (s : Statistics).

Record Response := {
  status : N;
  message : string;
  data : Payload
}.

Definition json (code : N) (msg : string) : Response :=
  {| status := code; message := msg; data := NoData |}.

Definition ok (d : Payload) : Response :=
  {| status := 200; message := ""; data := d |}.

Inductive Exn := CastError | ValidationError | ZodError | JsonWebTokenError | TypeError.

(** A handler body either answers early, throws into the enclosing
    [catch], or goes on with a value. *)
Inductive M (A : Type) : Type :=
| Respond (r : Response)
| Throw (e : Exn)
| Pure (a : A).

Arguments Respond {A} r.
Arguments Throw {A} e.
Arguments Pure {A} a.

Definition bind {A B} (m : M A) (k : A -> M B) : M B :=
  match m with
  | Respond r => Respond r
  | Throw e => Throw e
  | Pure a => k a
  end.

Declare Scope handler_scope.
Delimit Scope handler_scope with handler.
Notation "x <- m ;; k" := (bind m (fun x => k))
  (at level 61, m at next level, right associativity) : handler_scope.
Notation "m ;;; k" := (bind m (fun _ => k))
  (at level 61, right associativity) : handler_scope.
Local Open Scope handler_scope.

(** [if (c) return res.status(code).json({message})] *)
Definition rejectIf (c : bool) (code : N) (msg : string) : M unit :=
  if c then Respond (json code msg) else Pure tt.

(** [if (!x) return res.status(code).json({message})] *)
Definition orReject {A} (x : option A) (code : N) (msg : string) : M A :=
  match x with
  | Some a => Pure a
  | None => Respond (json code msg)
  end.

(** [if (c) throw e] *)
Definition throwIf (c : bool) (e : Exn) : M unit :=
  if c then Throw e else Pure tt.

(** [try { body } catch (error) { res.status(500).json({message}) }]: the
    database is the one the body saved, or the old one. *)
Definition handler (db : DB) (msg500 : string) (body : M (DB * Response))
  : DB * Response :=
  match body with
  | Respond r => (db, r)
  | Throw _ => (db, json 500 msg500)
  | Pure out => out
  end.

(** An inner [try { body } catch (e) { return res.status(code).json(..) }]. *)
Definition tryCatch {A} (body : M A) (code : N) (msg : string) : M A :=
  match body with
  | Throw _ => Respond (json code msg)
  | other => other
  end.

(** ** The bearer header *)

(** [!authHeader || !authHeader.startsWith('Bearer ')] *)
Definition noBearer (authHeader : option string) : bool :=
  match authHeader with
  | Some h => negb (startsWith "Bearer " h)
  | None => true
  end.

(** [authHeader.split(' ')[1]] *)
Definition bearerToken (authHeader : option string) : option string :=
  match authHeader with
  | Some h => nth_error (split_space h) 1
  | None => None
  end.

(** The common opening of the guarded handlers: the header must start with
    [Bearer ]; its second word is the token. *)
Definition requireBearer (authHeader : option string) (msg : string) : M string :=
  rejectIf (noBearer authHeader) 401 msg ;;;
  match bearerToken authHeader with
  | Some t => Pure t
  | None => Throw TypeError
  end.

(** [jwt.verify(token, secret).userId]; a token that does not verify
    throws. *)
Definition verify (env : Env) (token : option string) : M ObjectId :=
  match token with
  | Some t =>
      match jwt_verify env t with
      | Some uid => Pure uid
      | None => Throw JsonWebTokenError
      end
  | None => Throw JsonWebTokenError
  end.

(** ** Queries *)

(** A string that is no identifier makes a query by [_id] throw; an
    identifier is looked up in the form the request wrote it. *)
Definition cast (env : Env) (id : string) : M ObjectId :=
  if isValid env id then Pure id else Throw CastError.

Definition AdminUser_findById (env : Env) (db : DB) (id : string)
  : M (option AdminUser) :=
  i <- cast env id ;;
  Pure (find (fun a => String.eqb (admin_id a) i) (admins db)).

Definition User_findById (env : Env) (db : DB) (id : string) : M (option User) :=
  i <- cast env id ;;
  Pure (find (fun u => String.eqb (user_id u) i) (users db)).

Definition Batch_findById (env : Env) (db : DB) (id : string) : M (option Batch) :=
  i <- cast env id ;;
  Pure (find (fun b => String.eqb (batch_id b) i) (batches db)).

Definition Attendance_findById (env : Env) (db : DB) (id : string)
  : M (option Attendance) :=
  i <- cast env id ;;
  Pure (find (fun a => String.eqb (att_id a) i) (attendances db)).

(** [Batch.findOne({ batch_code })] *)
Definition Batch_findByCode (db : DB) (code : string) : option Batch :=
  find (fun b => String.eqb (batch_code b) code) (batches db).

(** [.populate(path, 'name email')]: the referenced account, or [null]. *)
Definition populate_admin (db : DB) (id : ObjectId) : option Ref :=
  option_map
    (fun a => {| ref_id := admin_id a; ref_name := admin_name a;
                 ref_email := admin_email a |})
    (find (fun a => String.eqb (admin_id a) id) (admins db)).

Definition populate_user (db : DB) (id : ObjectId) : option Ref :=
  option_map
    (fun u => {| ref_id := user_id u; ref_name := user_name u;
                 ref_email := user_email u |})
    (find (fun u => String.eqb (user_id u) id) (users db)).

(** Populating an array of references leaves out those that resolve to no
    document. *)
Fixpoint populate_users (db : DB) (ids : list ObjectId) : list Ref :=
  match ids with
  | [] => []
  | i :: r =>
      match populate_user db i with
      | Some u => u :: populate_users db r
      | None => populate_users db r
      end
  end.

(** ** Writing documents *)

Definition set_students (b : Batch) (l : list ObjectId) : Batch :=
  {| batch_id := batch_id b; batch_name := batch_name b;
     batch_code := batch_code b; class := class b; teacher_id := teacher_id b;
     students := l; feesPayments := feesPayments b;
     announcements := announcements b; timetable := timetable b;
     testResults := testResults b; createdAt := createdAt b;
     updatedAt := updatedAt b |}.

Definition set_feesPayments (b : Batch) (l : list FeesPayment) : Batch :=
  {| batch_id := batch_id b; batch_name := batch_name b;
     batch_code := batch_code b; class := class b; teacher_id := teacher_id b;
     students := students b; feesPayments := l;
     announcements := announcements b; timetable := timetable b;
     testResults := testResults b; createdAt := createdAt b;
     updatedAt := updatedAt b |}.

Definition set_announcements (b : Batch) (l : list Announcement) : Batch :=
  {| batch_id := batch_id b; batch_name := batch_name b;
     batch_code := batch_code b; class := class b; teacher_id := teacher_id b;
     students := students b; feesPayments := feesPayments b;
     announcements := l; timetable := timetable b;
     testResults := testResults b; createdAt := createdAt b;
     updatedAt := updatedAt b |}.

Definition set_timetable (b : Batch) (t : Timetable) : Batch :=
  {| batch_id := batch_id b; batch_name := batch_name b;
     batch_code := batch_code b; class := class b; teacher_id := teacher_id b;
     students := students b; feesPayments := feesPayments b;
     announcements := announcements b; timetable := t;
     testResults := testResults b; createdAt := createdAt b;
     updatedAt := updatedAt b |}.

Definition set_testResults (b : Batch) (l : list TestResult) : Batch :=
  {| batch_id := batch_id b; batch_name := batch_name b;
     batch_code := batch_code b; class := class b; teacher_id := teacher_id b;
     students := students b; feesPayments := feesPayments b;
     announcements := announcements b; timetable := timetable b;
     testResults := l; createdAt := createdAt b;
     updatedAt := updatedAt b |}.

Definition set_name (b : Batch) (n : string) : Batch :=
  {| batch_id := batch_id b; batch_name := n;
     batch_code := batch_code b; class := class b; teacher_id := teacher_id b;
     students := students b; feesPayments := feesPayments b;
     announcements := announcements b; timetable := timetable b;
     testResults := testResults b; createdAt := createdAt b;
     updatedAt := updatedAt b |}.

Definition set_class (b : Batch) (c : string) : Batch :=
  {| batch_id := batch_id b; batch_name := batch_name b;
     batch_code := batch_code b; class := c; teacher_id := teacher_id b;
     students := students b; feesPayments := feesPayments b;
     announcements := announcements b; timetable := timetable b;
     testResults := testResults b; createdAt := createdAt b;
     updatedAt := updatedAt b |}.

Definition set_updatedAt (b : Batch) (t : Z) : Batch :=
  {| batch_id := batch_id b; batch_name := batch_name b;
     batch_code := batch_code b; class := class b; teacher_id := teacher_id b;
     students := students b; feesPayments := feesPayments b;
     announcements := announcements b; timetable := timetable b;
     testResults := testResults b; createdAt := createdAt b;
     updatedAt := t |}.

Definition set_batches (db : DB) (l : list Batch) : DB :=
  {| admins := admins db; users := users db; batches := l;
     attendances := attendances db |}.

Definition set_attendances (db : DB) (l : list Attendance) : DB :=
  {| admins := admins db; users := users db; batches := batches db;
     attendances := l |}.

(** The first document the test accepts is replaced. *)
Fixpoint replace_first {A} (p : A -> bool) (y : A) (l : list A) : list A :=
  match l with
  | [] => []
  | x :: r => if p x then y :: r else x :: replace_first p y r
  end.

(** The first document the test accepts is dropped. *)
Fixpoint delete_first {A} (p : A -> bool) (l : list A) : list A :=
  match l with
  | [] => []
  | x :: r => if p x then r else x :: delete_first p r
  end.

(** [await batch.save()]: the document of that [_id] is overwritten, and
    [timestamps: true] stamps it. *)
Definition Batch_save (env : Env) (db : DB) (b : Batch) : DB :=
  set_batches db
    (replace_first (fun x => String.eqb (batch_id x) (batch_id b))
       (set_updatedAt b (now env)) (batches db)).

Definition Batch_findByIdAndDelete (db : DB) (id : ObjectId) : DB :=
  set_batches db (delete_first (fun x => String.eqb (batch_id x) id) (batches db)).

Definition emptyTimetable : Timetable :=
  {| tt_monday := []; tt_tuesday := []; tt_wednesday := [];
     tt_thursday := []; tt_friday := []; tt_saturday := [] |}.

(** [Batch.create({ batch_code, name, class, teacher_id, students: [] })]:
    the schema's [uppercase: true] setter runs [up] on [batch_code], the
    arrays start empty. *)
Definition Batch_createWith (up : string -> string) (env : Env) (db : DB)
    (code name cls : string) (teacher : ObjectId) : DB :=
  set_batches db
    (batches db ++
     [{| batch_id := newObjectId env; batch_name := name;
         batch_code := up code; class := cls; teacher_id := teacher;
         students := []; feesPayments := []; announcements := [];
         timetable := emptyTimetable; testResults := [];
         createdAt := now env; updatedAt := now env |}]).

Definition Batch_create (env : Env) (db : DB) (code name cls : string)
    (teacher : ObjectId) : DB :=
  Batch_createWith toUpperCase env db code name cls teacher.

Definition Attendance_save (db : DB) (a : Attendance) : DB :=
  set_attendances db
    (replace_first (fun x => String.eqb (att_id x) (att_id a)) a (attendances db)).

Definition Attendance_findByIdAndDelete (db : DB) (id : ObjectId) : DB :=
  set_attendances db
    (delete_first (fun x => String.eqb (att_id x) id) (attendances db)).

(** ** Shared steps of the admin router *)

(** The header names a teacher: [AdminUser.findById(teacherId)] must find
    one. *)
Definition authTeacher (env : Env) (db : DB) (authHeader : option string)
    (msg401 : string) : M ObjectId :=
  teacherId <- requireBearer authHeader msg401 ;;
  teacher <- AdminUser_findById env db teacherId ;;
  orReject teacher 401 "Invalid teacher credentials" ;;;
  Pure teacherId.

Definition findBatch (env : Env) (db : DB) (batchId : string) : M Batch :=
  batch <- Batch_findById env db batchId ;;
  orReject batch 404 "Batch not found".

(** [if (batch.teacher_id.toString() !== teacherId) return 403] *)
Definition requireOwner (batch : Batch) (teacherId : string) (msg : string)
  : M unit :=
  rejectIf (negb (String.eqb (teacher_id batch) teacherId)) 403 msg.

(** ** Batches: [POST /batches], [PUT] and [DELETE /batches/:batchId] *)

(** [POST /batches], with [up] for [toUpperCase()]: the handler puts the
    code in upper case for the lookup and for the creation. *)
Definition createBatchWith (up : string -> string) (env : Env) (db : DB)
    (code name cls teacher : option string) : DB * Response :=
  handler db "Error creating batch" (
    throwIf (negb (truthy code && truthy name && truthy cls && truthy teacher))
      ZodError ;;;
    admin <- AdminUser_findById env db (orEmpty teacher) ;;
    admin <- orReject admin 404 "Teacher not found" ;;
    rejectIf (isSome (Batch_findByCode db (up (orEmpty code))))
      409 "Batch code already exists" ;;;
    Pure (Batch_createWith up env db (up (orEmpty code)) (orEmpty name)
            (orEmpty cls) (admin_id admin),
          json 201 "Batch created successfully")).

Definition createBatch (env : Env) (db : DB)
    (code name cls teacher : option string) : DB * Response :=
  createBatchWith toUpperCase env db code name cls teacher.

Definition updateBatch (env : Env) (db : DB) (authHeader : option string)
    (batchId : string) (name cls : option string) : DB * Response :=
  handler db "Error updating batch" (
    teacherId <- authTeacher env db authHeader "Authentication required" ;;
    batch <- findBatch env db batchId ;;
    requireOwner batch teacherId "Unauthorized to update this batch" ;;;
    let batch := if truthy name then set_name batch (orEmpty name) else batch in
    let batch := if truthy cls then set_class batch (orEmpty cls) else batch in
    Pure (Batch_save env db batch, json 200 "Batch updated successfully")).

Definition deleteBatch (env : Env) (db : DB) (authHeader : option string)
    (batchId : string) : DB * Response :=
  handler db "Error deleting batch" (
    teacherId <- requireBearer authHeader "Authorization header is required" ;;
    batch <- findBatch env db batchId ;;
    requireOwner batch teacherId "Unauthorized to delete this batch" ;;;
    Pure (Batch_findByIdAndDelete db batchId,
          json 200 "Batch deleted successfully")).

(** ** Students of a batch *)

(** [User.find({ _id: { $in: studentIds }, role: 'student' })]: the
    identifiers of the list are cast, and an account is found when its
    [_id] is one of them. *)
Definition User_findStudentsIn (db : DB) (ids : list string) : list User :=
  filter
    (fun u => includes (user_id u) (map castId ids) &&
              String.eqb (role u) "student")
    (users db).

(** [POST /batches/:batchId/students]; [None] is a body whose
    [studentIds] is no array.  [batch.students.includes(id)] compares the
    printed identifiers of the batch with [id] as the request wrote it;
    [push] casts what it stores. *)
Definition addStudents (env : Env) (db : DB) (authHeader : option string)
    (batchId : string) (studentIds : option (list string)) : DB * Response :=
  handler db "Error adding students" (
    studentIds <- orReject studentIds 400 "Invalid student IDs" ;;
    rejectIf (Nat.eqb (List.length studentIds) 0) 400 "Invalid student IDs" ;;;
    batch <- findBatch env db batchId ;;
    throwIf (negb (forallb (isValid env) studentIds)) CastError ;;;
    let found := User_findStudentsIn db studentIds in
    rejectIf (negb (Nat.eqb (List.length found) (List.length studentIds)))
      400 "One or more invalid student IDs" ;;;
    let newStudentIds :=
      filter (fun id => negb (includes id (students batch))) studentIds in
    let batch :=
      set_students batch (students batch ++ map castId newStudentIds) in
    Pure (Batch_save env db batch, json 200 "Students added successfully")).

(** [DELETE /batches/:batchId/students/:studentId] *)
Definition removeStudent (env : Env) (db : DB) (authHeader : option string)
    (batchId studentId : string) : DB * Response :=
  handler db "Error removing student from batch" (
    teacherId <- authTeacher env db authHeader "Authentication required" ;;
    batch <- findBatch env db batchId ;;
    requireOwner batch teacherId
      "Unauthorized to modify students for this batch" ;;;
    rejectIf (negb (includes studentId (students batch)))
      404 "Student not found in this batch" ;;;
    let batch :=
      set_students batch
        (filter (fun id => negb (String.eqb id studentId)) (students batch)) in
    Pure (Batch_save env db batch,
          json 200 "Student removed from batch successfully")).

(** The [try] block of [POST /join-batch] of the user router. *)
Definition joinBatchBody (env : Env) (db : DB) (authHeader : option string)
    (code : option string) : M (DB * Response) :=
  rejectIf (negb (truthy code) || negb (truthy authHeader)) 400
    "Batch code and authorization header are required" ;;;
  decoded <- verify env (bearerToken authHeader) ;;
  student <- User_findById env db decoded ;;
  student <-
    orReject
      (match student with
       | Some u => if String.eqb (role u) "student" then Some u else None
       | None => None
       end) 403 "Only students can join batches" ;;
  batch <- orReject (Batch_findByCode db (toUpperCase (orEmpty code))) 404
             "Batch not found. Please check the batch code" ;;
  rejectIf (includes (user_id student) (students batch)) 409
    "You are already enrolled in this batch" ;;;
  let batch := set_students batch (students batch ++ [user_id student]) in
  Pure (Batch_save env db batch, json 200 "Successfully joined batch").

(** [POST /join-batch]: its [catch] answers 401 to a token error and 500 to
    any other. *)
Definition joinBatch (env : Env) (db : DB) (authHeader : option string)
    (code : option string) : DB * Response :=
  match joinBatchBody env db authHeader code with
  | Respond r => (db, r)
  | Throw JsonWebTokenError => (db, json 401 "Invalid or expired token")
  | Throw _ => (db, json 500 "Error joining batch")
  | Pure out => out
  end.

(** ** Announcements *)

(** [POST /batches/:batchId/announcements]: the new announcement goes to the
    front; the schema requires a title and a content. *)
Definition createAnnouncement (env : Env) (db : DB) (authHeader : option string)
    (batchId : string) (ttl cnt : option string) : DB * Response :=
  handler db "Error creating announcement" (
    tokenTeacherId <- authTeacher env db authHeader "Invalid authorization header" ;;
    batch <- findBatch env db batchId ;;
    requireOwner batch tokenTeacherId
      "Unauthorized to create announcement for this batch" ;;;
    throwIf (negb (truthy ttl && truthy cnt)) ValidationError ;;;
    let a := {| ann_id := newObjectId env; title := orEmpty ttl;
                content := orEmpty cnt; ann_teacher_id := tokenTeacherId;
                ann_createdAt := now env |} in
    let batch := set_announcements batch (a :: announcements batch) in
    Pure (Batch_save env db batch, json 201 "Announcement created successfully")).

Definition set_title (a : Announcement) (t : string) : Announcement :=
  {| ann_id := ann_id a; title := t; content := content a;
     ann_teacher_id := ann_teacher_id a; ann_createdAt := ann_createdAt a |}.

Definition set_content (a : Announcement) (c : string) : Announcement :=
  {| ann_id := ann_id a; title := title a; content := c;
     ann_teacher_id := ann_teacher_id a; ann_createdAt := ann_createdAt a |}.

(** [PUT /batches/:batchId/announcements/:announcementId]; the handler also
    sets an [updatedAt] the schema does not have, which is not stored. *)
Definition updateAnnouncement (env : Env) (db : DB) (authHeader : option string)
    (batchId announcementId : string) (ttl cnt : option string)
  : DB * Response :=
  handler db "Error updating announcement" (
    teacherId <- authTeacher env db authHeader "Authentication required" ;;
    batch <- findBatch env db batchId ;;
    requireOwner batch teacherId
      "Unauthorized to update announcements for this batch" ;;;
    announcementIndex <-
      orReject
        (findIndex (fun a => String.eqb (ann_id a) announcementId)
           (announcements batch))
        404 "Announcement not found" ;;
    let upd a :=
      let a := if truthy ttl then set_title a (orEmpty ttl) else a in
      if truthy cnt then set_content a (orEmpty cnt) else a in
    let batch :=
      set_announcements batch
        (update_at announcementIndex upd (announcements batch)) in
    Pure (Batch_save env db batch, json 200 "Announcement updated successfully")).

(** [DELETE /batches/:batchId/announcements/:announcementId] *)
Definition deleteAnnouncement (env : Env) (db : DB) (authHeader : option string)
    (batchId announcementId : string) : DB * Response :=
  handler db "Error deleting announcement" (
    teacherId <- authTeacher env db authHeader "Authentication required" ;;
    batch <- findBatch env db batchId ;;
    requireOwner batch teacherId
      "Unauthorized to delete announcements for this batch" ;;;
    announcementIndex <-
      orReject
        (findIndex (fun a => String.eqb (ann_id a) announcementId)
           (announcements batch))
        404 "Announcement not found" ;;
    let batch :=
      set_announcements batch (remove_at announcementIndex (announcements batch)) in
    Pure (Batch_save env db batch, json 200 "Announcement deleted successfully")).

(** ** Attendance *)

(** What the attendance schema accepts as [records]: every [student_id] an
    identifier, every [status] one of the two of the enum. *)
Definition validRecords (env : Env) (l : list AttendanceRecord) : bool :=
  forallb
    (fun r => isValid env (student_id r) &&
              (String.eqb (att_status r) "present" ||
               String.eqb (att_status r) "absent")) l.

(** [Attendance.findOne({ batch_id: batchId, date: new Date(date) })]; a
    date of a request is the instant [new Date(date)] makes of it. *)
Definition Attendance_findOne (db : DB) (batchId : ObjectId) (d : Z)
  : option Attendance :=
  find (fun a => String.eqb (att_batch_id a) batchId && Z.eqb (date a) d)
    (attendances db).

(** [POST /batches/:batchId/attendance] *)
Definition markAttendance (env : Env) (db : DB) (authHeader : option string)
    (batchId : string) (d : Z) (recs : option (list AttendanceRecord))
  : DB * Response :=
  handler db "Error marking attendance" (
    teacherId <- authTeacher env db authHeader "Authentication required" ;;
    batchId <- cast env batchId ;;
    rejectIf (isSome (Attendance_findOne db batchId d)) 400
      "Attendance already marked for this date" ;;;
    let recs := match recs with Some l => l | None => [] end in
    throwIf (negb (validRecords env recs)) ValidationError ;;;
    let attendance :=
      {| att_id := newObjectId env; att_batch_id := batchId; date := d;
         records := recs; marked_by := teacherId |} in
    Pure (set_attendances db (attendances db ++ [attendance]),
          json 201 "Attendance marked successfully")).

Definition set_records (a : Attendance) (l : list AttendanceRecord) : Attendance :=
  {| att_id := att_id a; att_batch_id := att_batch_id a; date := date a;
     records := l; marked_by := marked_by a |}.

(** [PUT /batches/:batchId/attendance/:attendanceId]; [None] is a body
    without an array of records. *)
Definition updateAttendance (env : Env) (db : DB) (authHeader : option string)
    (batchId attendanceId : string) (recs : option (list AttendanceRecord))
  : DB * Response :=
  handler db "Error updating attendance" (
    teacherId <- authTeacher env db authHeader "Authentication required" ;;
    batch <- findBatch env db batchId ;;
    requireOwner batch teacherId
      "Unauthorized to update attendance for this batch" ;;;
    attendance <- Attendance_findById env db attendanceId ;;
    attendance <- orReject attendance 404 "Attendance record not found" ;;
    rejectIf (negb (String.eqb (att_batch_id attendance) batchId)) 400
      "Attendance record does not belong to this batch" ;;;
    attendance <-
      match recs with
      | Some l =>
          throwIf (negb (validRecords env l)) ValidationError ;;;
          Pure (set_records attendance l)
      | None => Pure attendance
      end ;;
    Pure (Attendance_save db attendance,
          json 200 "Attendance updated successfully")).

(** [DELETE /batches/:batchId/attendance/:attendanceId] *)
Definition deleteAttendance (env : Env) (db : DB) (authHeader : option string)
    (batchId attendanceId : string) : DB * Response :=
  handler db "Error deleting attendance" (
    teacherId <- authTeacher env db authHeader "Authentication required" ;;
    batch <- findBatch env db batchId ;;
    requireOwner batch teacherId
      "Unauthorized to delete attendance for this batch" ;;;
    attendance <- Attendance_findById env db attendanceId ;;
    attendance <- orReject attendance 404 "Attendance record not found" ;;
    rejectIf (negb (String.eqb (att_batch_id attendance) batchId)) 400
      "Attendance record does not belong to this batch" ;;;
    Pure (Attendance_findByIdAndDelete db attendanceId,
          json 200 "Attendance record deleted successfully")).

(** ** Timetable *)

Definition validDays : list string :=
  ["monday"; "tuesday"; "wednesday"; "thursday"; "friday"; "saturday"].

(** The field of [batch.timetable] that [day.toLowerCase()] names. *)
Definition dayOf (day : string) : option Day :=
  let d := toLowerCase day in
  if String.eqb d "monday" then Some monday
  else if String.eqb d "tuesday" then Some tuesday
  else if String.eqb d "wednesday" then Some wednesday
  else if String.eqb d "thursday" then Some thursday
  else if String.eqb d "friday" then Some friday
  else if String.eqb d "saturday" then Some saturday
  else None.

Definition invalidDayMsg : string :=
  "Invalid day. Must be one of: monday, tuesday, wednesday, thursday, friday, saturday".

(** [if (!validDays.includes(day.toLowerCase())) return 400] *)
Definition requireDay (day : string) : M Day :=
  rejectIf (negb (includes (toLowerCase day) validDays)) 400 invalidDayMsg ;;;
  match dayOf day with
  | Some d => Pure d
  | None => Throw TypeError
  end.

Definition getDay (t : Timetable) (d : Day) : list TimetableEntry :=
  match d with
  | monday => tt_monday t
  | tuesday => tt_tuesday t
  | wednesday => tt_wednesday t
  | thursday => tt_thursday t
  | friday => tt_friday t
  | saturday => tt_saturday t
  end.

Definition setDayList (t : Timetable) (d : Day) (l : list TimetableEntry)
  : Timetable :=
  {| tt_monday := if d is monday then l else tt_monday t;
     tt_tuesday := if d is tuesday then l else tt_tuesday t;
     tt_wednesday := if d is wednesday then l else tt_wednesday t;
     tt_thursday := if d is thursday then l else tt_thursday t;
     tt_friday := if d is friday then l else tt_friday t;
     tt_saturday := if d is saturday then l else tt_saturday t |}.

(** An element of [timetableEntries] as the body gives it. *)
Record EntryInput := {
  in_hour : option Z;
  in_subject : option string;
  in_teacher : option string;
  in_startTime : option string;
  in_endTime : option string
}.

Definition hourOf (e : EntryInput) : Z :=
  match in_hour e with
  | Some h => h
  | None => 0
  end.

(** The loop over [timetableEntries]: the first entry that fails a test
    ends the request. *)
Fixpoint validateEntries (l : list EntryInput) : M unit :=
  match l with
  | [] => Pure tt
  | entry :: rest =>
      rejectIf (Z.eqb (hourOf entry) 0 || negb (truthy (in_subject entry)))
        400 "Each timetable entry must have hour and subject" ;;;
      rejectIf ((hourOf entry <? 1)%Z || (8 <? hourOf entry)%Z)
        400 "Hour must be between 1 and 8" ;;;
      validateEntries rest
  end.

Definition storeEntry (e : EntryInput) : TimetableEntry :=
  {| hour := hourOf e; subject := orEmpty (in_subject e);
     teacher := in_teacher e; startTime := in_startTime e;
     endTime := in_endTime e |}.

(** [POST /batches/:batchId/timetable]: the day's list is replaced by the
    entries of the body.  A mongoose document always has its [timetable],
    so the branch that initialises it is never taken. *)
Definition setDay (env : Env) (db : DB) (authHeader : option string)
    (batchId : string) (day : option string)
    (timetableEntries : option (list EntryInput)) : DB * Response :=
  handler db "Error updating timetable" (
    day <- match day with Some d => Pure d | None => Throw TypeError end ;;
    day <- requireDay day ;;
    timetableEntries <-
      orReject timetableEntries 400 "timetableEntries must be an array" ;;
    validateEntries timetableEntries ;;;
    batch <- findBatch env db batchId ;;
    let batch :=
      set_timetable batch
        (setDayList (timetable batch) day (map storeEntry timetableEntries)) in
    Pure (Batch_save env db batch, json 200 "Timetable updated successfully")).

(** [isNaN(hourNum) || hourNum < lo || hourNum > hi]; [None] is [NaN]. *)
Definition hourOutside (hourNum : option Z) (lo : Z) (hi : option Z) : bool :=
  match hourNum with
  | None => true
  | Some h =>
      (h <? lo)%Z || match hi with Some u => (u <? h)%Z | None => false end
  end.

(** [DELETE /batches/:batchId/timetable/:day/:hour]; [hourNum] is
    [parseInt(hour)]. *)
Definition deleteEntry (env : Env) (db : DB) (authHeader : option string)
    (batchId day : string) (hourNum : option Z) : DB * Response :=
  handler db "Error deleting timetable entry" (
    teacherId <- authTeacher env db authHeader "Authentication required" ;;
    day <- requireDay day ;;
    rejectIf (hourOutside hourNum 1 (Some 8%Z)) 400
      "Hour must be a number between 1 and 8" ;;;
    batch <- findBatch env db batchId ;;
    requireOwner batch teacherId
      "Unauthorized to modify timetable for this batch" ;;;
    let daySchedule := getDay (timetable batch) day in
    entryIndex <-
      orReject
        (findIndex (fun e => Z.eqb (hour e) (match hourNum with Some h => h | None => 0 end))
           daySchedule)
        404 "Timetable entry not found for this hour" ;;
    let batch :=
      set_timetable batch
        (setDayList (timetable batch) day (remove_at entryIndex daySchedule)) in
    Pure (Batch_save env db batch, json 200 "Timetable entry deleted successfully")).

(** [list.sort((a, b) => a.hour - b.hour)]: a stable sort by hour. *)
Fixpoint insertByHour (e : TimetableEntry) (l : list TimetableEntry)
  : list TimetableEntry :=
  match l with
  | [] => [e]
  | x :: r =>
      if (hour e <=? hour x)%Z then e :: x :: r else x :: insertByHour e r
  end.

Definition sortByHour (l : list TimetableEntry) : list TimetableEntry :=
  fold_right insertByHour [] l.

(** The update of the entry found: the subject always, the other fields
    when the body has them. *)
Definition updateEntry (subj : string) (tch st en : option string)
    (e : TimetableEntry) : TimetableEntry :=
  {| hour := hour e; subject := subj;
     teacher := match tch with Some _ => tch | None => teacher e end;
     startTime := match st with Some _ => st | None => startTime e end;
     endTime := match en with Some _ => en | None => endTime e end |}.

(** The day's list after the upsert at [h]: update in place or push, then
    sort. *)
Definition upsertDay (h : Z) (subj : string) (tch st en : option string)
    (daySchedule : list TimetableEntry) : list TimetableEntry :=
  sortByHour
    match findIndex (fun e => Z.eqb (hour e) h) daySchedule with
    | None =>
        daySchedule ++
        [{| hour := h; subject := subj; teacher := tch; startTime := st;
            endTime := en |}]
    | Some entryIndex => update_at entryIndex (updateEntry subj tch st en) daySchedule
    end.

(** [PUT /batches/:batchId/timetable/:day/:hour] *)
Definition upsertEntry (env : Env) (db : DB) (authHeader : option string)
    (batchId day : string) (hourNum : option Z)
    (subj tch st en : option string) : DB * Response :=
  handler db "Error updating timetable entry" (
    teacherId <- authTeacher env db authHeader "Authentication required" ;;
    rejectIf (negb (truthy subj)) 400 "Subject is required" ;;;
    day <- requireDay day ;;
    rejectIf (hourOutside hourNum 1 None) 400 "Hour must be a positive number" ;;;
    batch <- findBatch env db batchId ;;
    requireOwner batch teacherId
      "Unauthorized to modify timetable for this batch" ;;;
    let h := match hourNum with Some h => h | None => 0%Z end in
    let batch :=
      set_timetable batch
        (setDayList (timetable batch) day
           (upsertDay h (orEmpty subj) tch st en (getDay (timetable batch) day))) in
    Pure (Batch_save env db batch, json 200 "Timetable entry updated successfully")).

(** [DELETE /batches/:batchId/timetable/:day] *)
Definition clearDay (env : Env) (db : DB) (authHeader : option string)
    (batchId day : string) : DB * Response :=
  handler db "Error clearing timetable entries" (
    teacherId <- authTeacher env db authHeader "Authentication required" ;;
    d <- requireDay day ;;
    batch <- findBatch env db batchId ;;
    requireOwner batch teacherId
      "Unauthorized to modify timetable for this batch" ;;;
    let batch := set_timetable batch (setDayList (timetable batch) d []) in
    Pure (Batch_save env db batch,
          json 200 ("Timetable entries for " ++ day ++ " cleared successfully")%string)).

(** ** Test results *)

(** [!x] for a number of the body: absent, zero or [NaN]. *)
Definition falsyNum (x : option float) : bool :=
  match x with
  | Some v => is_zero v || PrimFloat.is_nan v
  | None => true
  end.

Definition numOr0 (x : option float) : float :=
  match x with
  | Some v => v
  | None => 0%float
  end.

(** [POST /batches/:batchId/tests]: no account is looked up, the token is
    compared with the owner as it is.  The schema requires the three
    fields. *)
Definition createTest (env : Env) (db : DB) (authHeader : option string)
    (batchId : string) (name : option string) (maxMarks : option float)
    (subj : option string) : DB * Response :=
  handler db "Error creating test" (
    teacherId <- requireBearer authHeader "Authorization header is required" ;;
    batch <- findBatch env db batchId ;;
    requireOwner batch teacherId "Unauthorized to add test to this batch" ;;;
    throwIf (negb (truthy name && isSome maxMarks && truthy subj))
      ValidationError ;;;
    let newTest :=
      {| test_id := newObjectId env; examName := orEmpty name;
         test_date := now env; maximumMarks := numOr0 maxMarks;
         test_subject := orEmpty subj; createdBy := teacherId;
         studentMarks := [] |} in
    let batch := set_testResults batch (testResults batch ++ [newTest]) in
    Pure (Batch_save env db batch, json 201 "Test created successfully")).

(** An element of [studentMarks] as the body gives it. *)
Record MarkInput := {
  in_student : string;
  in_marks : option float;
  in_remarks : option string
}.

(** One turn of the loop over [studentMarks]: the row whose printed
    student is [mark.student] as the request wrote it is updated, or a row
    is pushed, with the student cast. *)
Definition recordMark (rows : list StudentMark) (mark : MarkInput)
  : list StudentMark :=
  match findIndex (fun sm => String.eqb (mark_student sm) (in_student mark)) rows with
  | Some existingMarkIndex =>
      update_at existingMarkIndex
        (fun sm =>
           {| mark_student := mark_student sm; marks := numOr0 (in_marks mark);
              mark_remarks :=
                if truthy (in_remarks mark) then orEmpty (in_remarks mark)
                else mark_remarks sm |})
        rows
  | None =>
      rows ++
      [{| mark_student := castId (in_student mark);
          marks := numOr0 (in_marks mark);
          mark_remarks := orEmpty (in_remarks mark) |}]
  end.

Definition updateTestFields (name : option string) (maxMarks : option float)
    (subj : option string) (sm : option (list MarkInput)) (t : TestResult)
  : TestResult :=
  {| test_id := test_id t;
     examName := if truthy name then orEmpty name else examName t;
     test_date := test_date t;
     maximumMarks := if falsyNum maxMarks then maximumMarks t else numOr0 maxMarks;
     test_subject := if truthy subj then orEmpty subj else test_subject t;
     createdBy := createdBy t;
     studentMarks :=
       match sm with
       | Some l => fold_left recordMark l (studentMarks t)
       | None => studentMarks t
       end |}.

(** [PUT /batches/:batchId/tests/:testId]; the marks schema requires a
    student identifier and a number. *)
Definition updateTest (env : Env) (db : DB) (authHeader : option string)
    (batchId testId : string) (name : option string) (maxMarks : option float)
    (subj : option string) (sm : option (list MarkInput)) : DB * Response :=
  handler db "Error updating test" (
    teacherId <- requireBearer authHeader "Authorization header is required" ;;
    batch <- findBatch env db batchId ;;
    requireOwner batch teacherId "Unauthorized to update test for this batch" ;;;
    testIndex <-
      orReject
        (findIndex (fun t => String.eqb (test_id t) testId) (testResults batch))
        404 "Test not found" ;;
    throwIf
      (negb (forallb (fun m => isValid env (in_student m) && isSome (in_marks m))
               (match sm with Some l => l | None => [] end)))
      ValidationError ;;;
    let batch :=
      set_testResults batch
        (update_at testIndex (updateTestFields name maxMarks subj sm)
           (testResults batch)) in
    Pure (Batch_save env db batch, json 200 "Test updated successfully")).

(** [DELETE /batches/:batchId/tests/:testId] *)
Definition deleteTest (env : Env) (db : DB) (authHeader : option string)
    (batchId testId : string) : DB * Response :=
  handler db "Error deleting test" (
    teacherId <- requireBearer authHeader "Authorization header is required" ;;
    batch <- findBatch env db batchId ;;
    requireOwner batch teacherId "Unauthorized to delete test for this batch" ;;;
    testIndex <-
      orReject
        (findIndex (fun t => String.eqb (test_id t) testId) (testResults batch))
        404 "Test not found" ;;
    let batch := set_testResults batch (remove_at testIndex (testResults batch)) in
    Pure (Batch_save env db batch, json 200 "Test deleted successfully")).

(** ** Fee payments *)

(** [!amount || isNaN(amount) || Number(amount) <= 0] *)
Definition invalidAmount (amt : option float) : bool :=
  match amt with
  | Some a => is_zero a || PrimFloat.is_nan a || PrimFloat.leb a 0%float
  | None => true
  end.

(** [!x || !allowed.includes(x)] *)
Definition notOneOf (x : option string) (allowed : list string) : bool :=
  negb (truthy x) || negb (includes (orEmpty x) allowed).

(** [!id || !mongoose.Types.ObjectId.isValid(id)] *)
Definition invalidId (env : Env) (id : option string) : bool :=
  negb (truthy id) || negb (isValid env (orEmpty id)).

(** The record the upsert writes: all of its fields come from the request
    and the clock. *)
Definition paymentData (env : Env) (studentId : string) (amt : option float)
    (method stat remarks : option string) : FeesPayment :=
  {| fee_student := studentId; amount := numOr0 amt; paymentDate := now env;
     paymentMethod := orEmpty method; fee_status := orEmpty stat;
     fee_remarks := orEmpty remarks |}.

(** The fee list after the upsert: the first record of the student is
    overwritten, or the record is pushed. *)
Definition upsertPayment (p : FeesPayment) (l : list FeesPayment)
  : list FeesPayment :=
  match findIndex (fun q => String.eqb (fee_student q) (fee_student p)) l with
  | Some existingPaymentIndex => update_at existingPaymentIndex (fun _ => p) l
  | None => l ++ [p]
  end.

(** [POST /batches/:batchId/fees] *)
Definition upsertFees (env : Env) (db : DB) (authHeader : option string)
    (batchId : string) (studentId : option string) (amt : option float)
    (method stat remarks : option string) : DB * Response :=
  handler db "Error updating fees payment record" (
    rejectIf (invalidId env (Some batchId)) 400 "Invalid batch ID" ;;;
    rejectIf (invalidId env studentId) 400 "Invalid student ID" ;;;
    rejectIf (invalidAmount amt) 400 "Invalid amount" ;;;
    rejectIf (notOneOf method ["online"; "offline"]) 400 "Invalid payment method" ;;;
    rejectIf (notOneOf stat ["paid"; "pending"; "overdue"]) 400
      "Invalid payment status" ;;;
    batch <- findBatch env db batchId ;;
    rejectIf (negb (includes (orEmpty studentId) (students batch))) 404
      "Student not found in this batch" ;;;
    let p := paymentData env (orEmpty studentId) amt method stat remarks in
    let batch := set_feesPayments batch (upsertPayment p (feesPayments batch)) in
    Pure (Batch_save env db batch,
          json 200 "Fees payment record updated successfully")).

(** ** Reading a batch: details, announcements, timetable, fee list

    These four handlers of the admin router never look at the request's
    headers; [authHeader] is the header the request came with. *)

Definition viewBatch (db : DB) (b : Batch) : BatchView :=
  {| bv_id := batch_id b; bv_name := batch_name b;
     bv_batch_code := batch_code b; bv_class := class b;
     bv_teacher := populate_admin db (teacher_id b);
     bv_students := populate_users db (students b);
     bv_createdAt := createdAt b; bv_announcements := announcements b;
     bv_timetable := timetable b |}.

(** [GET /batches/:batchId] *)
Definition getBatch (env : Env) (db : DB) (authHeader : option string)
    (batchId : string) : DB * Response :=
  handler db "Error fetching batch details" (
    batch <- findBatch env db batchId ;;
    Pure (db, ok (BatchData (viewBatch db batch)))).

(** [GET /batches/:batchId/announcements] *)
Definition getAnnouncements (env : Env) (db : DB) (authHeader : option string)
    (batchId : string) : DB * Response :=
  handler db "Error fetching announcements" (
    batch <- findBatch env db batchId ;;
    Pure (db,
          ok (AnnouncementsData
                (map (fun a => {| av_announcement := a;
                                  av_teacher := populate_admin db (ann_teacher_id a) |})
                   (announcements batch))))).

(** [GET /batches/:batchId/timetable] *)
Definition getTimetable (env : Env) (db : DB) (authHeader : option string)
    (batchId : string) : DB * Response :=
  handler db "Error fetching timetable" (
    batch <- findBatch env db batchId ;;
    Pure (db, ok (TimetableData (timetable batch)))).

Definition viewPayment (db : DB) (p : FeesPayment) : FeesView :=
  {| fv_payment := p; fv_student := populate_user db (fee_student p) |}.

(** [GET /batches/:batchId/fees] *)
Definition getFees (env : Env) (db : DB) (authHeader : option string)
    (batchId : string) : DB * Response :=
  handler db "Error fetching fees payment data" (
    rejectIf (invalidId env (Some batchId)) 400 "Invalid batch ID" ;;;
    batch <- findBatch env db batchId ;;
    Pure (db, ok (FeesPaymentsData (map (viewPayment db) (feesPayments batch))))).

(** ** Attendance of one student *)

Fixpoint mapM {A B} (f : A -> M B) (l : list A) : M (list B) :=
  match l with
  | [] => Pure []
  | x :: r => y <- f x ;; ys <- mapM f r ;; Pure (y :: ys)
  end.

(** [.sort({ date: -1 })] *)
Fixpoint insertByDateDesc (a : Attendance) (l : list Attendance) : list Attendance :=
  match l with
  | [] => [a]
  | x :: r =>
      if (date x <=? date a)%Z then a :: x :: r else x :: insertByDateDesc a r
  end.

Definition sortByDateDesc (l : list Attendance) : list Attendance :=
  fold_right insertByDateDesc [] l.

(** [if (startDate && endDate) query.date = { $gte, $lte }] *)
Definition inRange (startDate endDate : option Z) (a : Attendance) : bool :=
  match startDate, endDate with
  | Some s, Some e => (s <=? date a)%Z && (date a <=? e)%Z
  | _, _ => true
  end.

(** [Attendance.find(query).sort({ date: -1 })]; the query names the batch
    and, when [studentId] is given, a record of that student. *)
Definition Attendance_find (env : Env) (db : DB) (batchId : string)
    (studentId : option string) (startDate endDate : option Z)
  : M (list Attendance) :=
  b <- cast env batchId ;;
  match studentId with Some s => cast env s | None => Pure b end ;;;
  Pure
    (sortByDateDesc
       (filter
          (fun a =>
             String.eqb (att_batch_id a) b &&
             match studentId with
             | Some s => existsb (fun r => String.eqb (student_id r) s) (records a)
             | None => true
             end &&
             inRange startDate endDate a)
          (attendances db))).

(** The statistics every attendance view ends with. *)
Definition statisticsOf (formattedRecords : list FormattedRecord) : Statistics :=
  let total := List.length formattedRecords in
  let pres :=
    List.length
      (filter (fun r => String.eqb (fr_status r) "present") formattedRecords) in
  let percentage :=
    if (0 <? total)%nat
    then PrimFloat.mul
           (PrimFloat.div (Z_to_float (Z.of_nat pres)) (Z_to_float (Z.of_nat total)))
           100%float
    else 0%float in
  {| totalClasses := total; present := pres; absent := total - pres;
     attendancePercentage :=
       PrimFloat.div (Math_round (PrimFloat.mul percentage 100%float)) 100%float |}.

Definition recordOf (studentId : string) (a : Attendance) : option AttendanceRecord :=
  find (fun r => String.eqb (student_id r) studentId) (records a).

(** [record.marked_by.name] after [.populate('marked_by', 'name')] *)
Definition markedByName (db : DB) (a : Attendance) : M string :=
  match find (fun t => String.eqb (admin_id t) (marked_by a)) (admins db) with
  | Some t => Pure (admin_name t)
  | None => Throw TypeError
  end.


(** [.map(..).filter(Boolean)] of the student's view: the days without a
    record of the student are left out. *)
Fixpoint formatOwn (db : DB) (userId : string) (l : list Attendance)
  : M (list FormattedRecord) :=
  match l with
  | [] => Pure []
  | record :: rest =>
      match recordOf userId record with
      | Some studentRecord =>
          name <- markedByName db record ;;
          others <- formatOwn db userId rest ;;
          Pure ({| fr_date := date record;
                   fr_status := att_status studentRecord;
                   fr_remarks := orEmpty (att_remarks studentRecord);
                   fr_marked_by := Some name |} :: others)
      | None => formatOwn db userId rest
      end
  end.


(** ** The parent's views *)

(** [student.parentEmail !== parent.email] *)
Definition notLinked (student parent : User) : bool :=
  match parentEmail student with
  | Some e => negb (String.eqb e (user_email parent))
  | None => true
  end.

(** [!parent || parent.role !== 'parent'] and [!student ||
    student.parentEmail !== parent.email], as two of the three parent
    routes test them. *)
Definition requireParentOf (parent student : option User) (msg : string)
  : M (User * User) :=
  parent <-
    orReject
      (match parent with
       | Some p => if String.eqb (role p) "parent" then Some p else None
       | None => None
       end) 403 "Parent access required" ;;
  student <-
    orReject
      (match student with
       | Some s => if notLinked s parent then None else Some s
       | None => None
       end) 403 msg ;;
  Pure (parent, student).


(** [batch.students.some(id => id.toString() === studentId)] *)
Definition isEnrolled (batch : Batch) (studentId : string) : bool :=
  existsb (fun id => String.eqb id studentId) (students batch).


(** [User.findById(id)] for an identifier of the query string, which may be
    missing: then no account is found. *)
Definition User_findByQueryId (env : Env) (db : DB) (id : option string)
  : M (option User) :=
  match id with
  | Some i => User_findById env db i
  | None => Pure None
  end.

(** [batch.feesPayments.find(payment => payment.student._id.toString() ===
    studentId || ..)] over the populated list: a payment whose student
    resolves to no account makes the test throw. *)
Fixpoint findPayment (db : DB) (studentId : string) (l : list FeesPayment)
  : M (option FeesView) :=
  match l with
  | [] => Pure None
  | payment :: rest =>
      match populate_user db (fee_student payment) with
      | Some r =>
          if String.eqb (ref_id r) studentId then Pure (Some (viewPayment db payment))
          else findPayment db studentId rest
      | None => Throw TypeError
      end
  end.

(** [GET /parent/batches/:batchId/fees]: the parent is named by the query
    string, no header is read. *)
Definition parentFees (env : Env) (db : DB) (authHeader : option string)
    (batchId : string) (parentId studentId : option string) : DB * Response :=
  handler db "Error fetching fees payment information" (
    rejectIf (invalidId env (Some batchId)) 400 "Invalid batch ID" ;;;
    rejectIf (invalidId env studentId) 400 "Invalid student ID" ;;;
    let studentId := orEmpty studentId in
    parent <- User_findByQueryId env db parentId ;;
    student <- User_findById env db studentId ;;
    requireParentOf parent student "Invalid student access" ;;;
    batch <- findBatch env db batchId ;;
    rejectIf (negb (isEnrolled batch studentId)) 403
      "Student not enrolled in this batch" ;;;
    feesPayment <- findPayment db studentId (feesPayments batch) ;;
    Pure (db, ok (FeesPaymentData feesPayment))).

(** ** The requests that write, and the states they reach *)

Inductive Request :=
| CreateBatch (code name cls teacher : option string)
| UpdateBatch (batchId : string) (name cls : option string)
| DeleteBatch (batchId : string)
| AddStudents (batchId : string) (studentIds : option (list string))
| RemoveStudent (batchId studentId : string)
| JoinBatch (code : option string)
| CreateAnnouncement (batchId : string) (ttl cnt : option string)
| UpdateAnnouncement (batchId announcementId : string) (ttl cnt : option string)
| DeleteAnnouncement (batchId announcementId : string)
| MarkAttendance (batchId : string) (d : Z) (recs : option (list AttendanceRecord))
| UpdateAttendance (batchId attendanceId : string)
    (recs : option (list AttendanceRecord))
| DeleteAttendance (batchId attendanceId : string)
| SetDay (batchId : string) (day : option string)
    (timetableEntries : option (list EntryInput))
| DeleteEntry (batchId day : string) (hourNum : option Z)
| UpsertEntry (batchId day : string) (hourNum : option Z)
    (subj tch st en : option string)
| ClearDay (batchId day : string)
| CreateTest (batchId : string) (name : option string) (maxMarks : option float)
    (subj : option string)
| UpdateTest (batchId testId : string) (name : option string)
    (maxMarks : option float) (subj : option string)
    (sm : option (list MarkInput))
| DeleteTest (batchId testId : string)
| UpsertFees (batchId : string) (studentId : option string) (amt : option float)
    (method stat remarks : option string).

(** The router: the handler of the request, given the [Authorization]
    header it came with. *)
Definition route (env : Env) (db : DB) (authHeader : option string)
    (req : Request) : DB * Response :=
  match req with
  | CreateBatch code name cls teacher => createBatch env db code name cls teacher
  | UpdateBatch batchId name cls => updateBatch env db authHeader batchId name cls
  | DeleteBatch batchId => deleteBatch env db authHeader batchId
  | AddStudents batchId ids => addStudents env db authHeader batchId ids
  | RemoveStudent batchId studentId =>
      removeStudent env db authHeader batchId studentId
  | JoinBatch code => joinBatch env db authHeader code
  | CreateAnnouncement batchId ttl cnt =>
      createAnnouncement env db authHeader batchId ttl cnt
  | UpdateAnnouncement batchId aid ttl cnt =>
      updateAnnouncement env db authHeader batchId aid ttl cnt
  | DeleteAnnouncement batchId aid => deleteAnnouncement env db authHeader batchId aid
  | MarkAttendance batchId d recs => markAttendance env db authHeader batchId d recs
  | UpdateAttendance batchId aid recs =>
      updateAttendance env db authHeader batchId aid recs
  | DeleteAttendance batchId aid => deleteAttendance env db authHeader batchId aid
  | SetDay batchId day entries => setDay env db authHeader batchId day entries
  | DeleteEntry batchId day hourNum => deleteEntry env db authHeader batchId day hourNum
  | UpsertEntry batchId day hourNum subj tch st en =>
      upsertEntry env db authHeader batchId day hourNum subj tch st en
  | ClearDay batchId day => clearDay env db authHeader batchId day
  | CreateTest batchId name maxMarks subj =>
      createTest env db authHeader batchId name maxMarks subj
  | UpdateTest batchId testId name maxMarks subj sm =>
      updateTest env db authHeader batchId testId name maxMarks subj sm
  | DeleteTest batchId testId => deleteTest env db authHeader batchId testId
  | UpsertFees batchId studentId amt method stat remarks =>
      upsertFees env db authHeader batchId studentId amt method stat remarks
  end.

(** The states of the system: accounts are given (their [_id]s differ, as
    in any collection), batches and attendance start empty and change by
    requests only. *)
Inductive reachable : DB -> Prop :=
| reach_init (a : list AdminUser) (u : list User) :
    NoDup (map user_id u) ->
    reachable {| admins := a; users := u; batches := []; attendances := [] |}
| reach_step (env : Env) (db : DB) (authHeader : option string) (req : Request) :
    reachable db -> reachable (fst (route env db authHeader req)).

(** The request carries [Bearer tok]. *)
Definition presents (authHeader : option string) (tok : string) : Prop :=
  noBearer authHeader = false /\ bearerToken authHeader = Some tok.

(** The header names the teacher account [t]. *)
Definition teacherCalls (env : Env) (db : DB) (authHeader : option string)
    (t : AdminUser) : Prop :=
  presents authHeader (admin_id t) /\
  AdminUser_findById env db (admin_id t) = Pure (Some t).

(** [batchId] names the batch [b] of the database. *)
Definition batchAt (env : Env) (db : DB) (batchId : string) (b : Batch) : Prop :=
  Batch_findById env db batchId = Pure (Some b).

(** The request writes the identifier [id] as the server prints it. *)
Definition printed (id : string) : Prop := castId id = id.

(** The calendar day, in UTC, of an instant: days since the epoch, the
    instant being in milliseconds as [Date] holds it. *)
Definition calendarDate (d : Z) : Z := (d / 86400000)%Z.

(** ** Invariants *)

Definition attendanceKey (a : Attendance) : ObjectId * Z :=
  (att_batch_id a, date a).

Definition allEntries (t : Timetable) : list TimetableEntry :=
  tt_monday t ++ tt_tuesday t ++ tt_wednesday t ++ tt_thursday t ++
  tt_friday t ++ tt_saturday t.

Record BatchInv (b : Batch) : Prop := {
  inv_fees : NoDup (map fee_student (feesPayments b));
  inv_hours : Forall (fun e => (1 <= hour e)%Z) (allEntries (timetable b));
  inv_code : toUpperCase (batch_code b) = batch_code b
}.

Record Inv (db : DB) : Prop := {
  inv_users : NoDup (map user_id (users db));
  inv_batches : Forall BatchInv (batches db);
  inv_attendance : NoDup (map attendanceKey (attendances db))
}.

(** The entries of a day's list at hour [h]. *)
Definition atHour (h : Z) (l : list TimetableEntry) : list TimetableEntry :=
  filter (fun e => Z.eqb (hour e) h) l.

(** The fee records of a student. *)
Definition paymentsOf (studentId : string) (l : list FeesPayment)
  : list FeesPayment :=
  filter (fun q => String.eqb (fee_student q) studentId) l.

Definition sortedByHour (l : list TimetableEntry) : Prop :=
  StronglySorted (fun a b => (hour a <= hour b)%Z) l.

(** [id] is the [_id] of an account with role [student]. *)
Definition isStudentId (db : DB) (id : string) : Prop :=
  exists u, In u (users db) /\ user_id u = id /\ role u = "student".


(** [present / totalClasses * 100] on JavaScript numbers. *)
Definition ratio100 (pres total : nat) : float :=
  PrimFloat.mul
    (PrimFloat.div (Z_to_float (Z.of_nat pres)) (Z_to_float (Z.of_nat total)))
    100%float.

(** ** A small institute, for the examples *)

(** A hexadecimal digit, in either case. *)
Definition isHexDigit (c : ascii) : bool :=
  let n := nat_of_ascii c in
  ((48 <=? n) && (n <=? 57) || (65 <=? n) && (n <=? 70) ||
   (97 <=? n) && (n <=? 102))%nat.

Fixpoint allHex (s : string) : bool :=
  match s with
  | EmptyString => true
  | String c r => isHexDigit c && allHex r
  end.

(** Twenty-four hexadecimal digits. *)
Definition isHex24 (s : string) : bool :=
  Nat.eqb (String.length s) 24 && allHex s.

Definition idT1 : ObjectId := "aaaaaaaaaaaaaaaaaaaaaaa1".
Definition idT2 : ObjectId := "aaaaaaaaaaaaaaaaaaaaaaa2".
Definition idS1 : ObjectId := "cccccccccccccccccccccc01".
Definition idS2 : ObjectId := "cccccccccccccccccccccc02".
Definition idP1 : ObjectId := "dddddddddddddddddddddd01".
Definition idP2 : ObjectId := "dddddddddddddddddddddd02".
Definition idB1 : ObjectId := "bbbbbbbbbbbbbbbbbbbbbbb1".
Definition idB2 : ObjectId := "bbbbbbbbbbbbbbbbbbbbbbb2".
Definition idA1 : ObjectId := "eeeeeeeeeeeeeeeeeeeeeee1".
Definition idA2 : ObjectId := "eeeeeeeeeeeeeeeeeeeeeee2".

Definition teacher1 : AdminUser :=
  {| admin_id := idT1; admin_name := "Asha"; admin_email := "asha@school.test" |}.
Definition teacher2 : AdminUser :=
  {| admin_id := idT2; admin_name := "Ravi"; admin_email := "ravi@school.test" |}.

Definition student1 : User :=
  {| user_id := idS1; user_name := "Meena"; user_email := "meena@home.test";
     role := "student"; parentEmail := Some "lata@home.test" |}.
Definition student2 : User :=
  {| user_id := idS2; user_name := "Arun"; user_email := "arun@home.test";
     role := "student"; parentEmail := None |}.
Definition parent1 : User :=
  {| user_id := idP1; user_name := "Lata"; user_email := "lata@home.test";
     role := "parent"; parentEmail := None |}.
Definition parent2 : User :=
  {| user_id := idP2; user_name := "Kiran"; user_email := "kiran@home.test";
     role := "parent"; parentEmail := None |}.

(** The token [jwt-x] verifies as the account [x]. *)
Definition verifyExample (t : string) : option ObjectId :=
  if String.eqb t "jwt-parent1" then Some idP1
  else if String.eqb t "jwt-parent2" then Some idP2
  else if String.eqb t "jwt-student1" then Some idS1
  else None.

Definition envAt (t : Z) (fresh : ObjectId) : Env :=
  {| now := t; newObjectId := fresh; jwt_verify := verifyExample;
     isValid := isHex24 |}.

Definition env1 : Env := envAt 1000 idB1.
Definition env2 : Env := envAt 2000 idB2.
Definition env3 : Env := envAt 3000 idA1.
Definition env4 : Env := envAt 4000 idA2.

Definition bearer (tok : string) : option string := Some ("Bearer " ++ tok)%string.

Definition db0 : DB :=
  {| admins := [teacher1; teacher2];
     users := [student1; student2; parent1; parent2];
     batches := []; attendances := [] |}.

(** Teacher 1 opens a batch. *)
Definition reqCreate : Request :=
  CreateBatch (Some "math-10a") (Some "Maths") (Some "10") (Some idT1).

Definition db1 : DB := fst (route env1 db0 None reqCreate).

Definition batch1 : Batch :=
  {| batch_id := idB1; batch_name := "Maths"; batch_code := "MATH-10A";
     class := "10"; teacher_id := idT1; students := []; feesPayments := [];
     announcements := []; timetable := emptyTimetable; testResults := [];
     createdAt := 1000; updatedAt := 1000 |}.

Definition entryIn (h : Z) (s : string) : EntryInput :=
  {| in_hour := Some h; in_subject := Some s; in_teacher := None;
     in_startTime := None; in_endTime := None |}.

Definition entry (h : Z) (s : string) : TimetableEntry :=
  {| hour := h; subject := s; teacher := None; startTime := None;
     endTime := None |}.

(** Student 1 is enrolled by a caller who is not the owner. *)
Definition reqAdd : Request := AddStudents idB1 (Some [idS1]).

Definition db2 : DB := fst (route env2 db1 (bearer idT2) reqAdd).

(** Monday is set, with hour 3 twice, by a request without a header. *)
Definition reqMonday : Request :=
  SetDay idB1 (Some "Monday") (Some [entryIn 3 "Algebra"; entryIn 3 "Geometry"]).

Definition db3 : DB := fst (route env2 db2 None reqMonday).

Definition presentRecord (s : ObjectId) : AttendanceRecord :=
  {| student_id := s; att_status := "present"; att_remarks := None |}.

Definition absentRecord (s : ObjectId) : AttendanceRecord :=
  {| student_id := s; att_status := "absent"; att_remarks := Some "fever" |}.

Definition idA3 : ObjectId := "eeeeeeeeeeeeeeeeeeeeeee3".
Definition idA4 : ObjectId := "eeeeeeeeeeeeeeeeeeeeeee4".

(** Four days of attendance: student 1 is present on three of them. *)
Definition db4 : DB :=
  let mark env d r db :=
    fst (route env db (bearer idT1) (MarkAttendance idB1 d (Some [r]))) in
  mark (envAt 4000 idA4) 86400000%Z (presentRecord idS1)
    (mark (envAt 3000 idA3) 172800000%Z (absentRecord idS1)
       (mark (envAt 2000 idA2) 259200000%Z (presentRecord idS1)
          (mark (envAt 1000 idA1) 345600000%Z (presentRecord idS1) db2))).

(** An answer that reports a failure: a status from 400 on, and no data. *)
Definition failing (r : Response) : Prop :=
  (400 <= status r)%N /\ data r = NoData.

(** Every early answer of a handler body reports a failure. *)
Definition plain {A} (m : M A) : Prop :=
  forall r, m = Respond r -> failing r.

(** Teacher 1 opens a second batch. *)
Definition reqCreate2 : Request :=
  CreateBatch (Some "phy-10a") (Some "Physics") (Some "10") (Some idT1).

Definition db5 : DB := fst (route env2 db4 None reqCreate2).

(** [records || []] of a mark request. *)
Definition recordsOrNone (recs : option (list AttendanceRecord))
  : list AttendanceRecord :=
  match recs with
  | Some l => l
  | None => []
  end.

(** The fields of a fee request pass the handler's validation. *)
Definition feeRequestOk (env : Env) (batchId : string) (studentId : option string)
    (amt : option float) (method stat : option string) : bool :=
  negb (invalidId env (Some batchId)) && negb (invalidId env studentId) &&
  negb (invalidAmount amt) && negb (notOneOf method ["online"; "offline"]) &&
  negb (notOneOf stat ["paid"; "pending"; "overdue"]).

(** An entry that [POST /batches/:batchId/timetable] refuses. *)
Definition rejectedEntry (e : EntryInput) : bool :=
  (hourOf e <? 1)%Z || (8 <? hourOf e)%Z || negb (truthy (in_subject e)).

(** The batch a request is about when its handler compares the caller
    with the owner of the batch; [None] for the handlers that do not. *)
Definition ownerChecked (req : Request) : option string :=
  match req with
  | UpdateBatch batchId _ _ | DeleteBatch batchId | RemoveStudent batchId _
  | CreateAnnouncement batchId _ _ | UpdateAnnouncement batchId _ _ _
  | DeleteAnnouncement batchId _ | UpdateAttendance batchId _ _
  | DeleteAttendance batchId _ | DeleteEntry batchId _ _
  | UpsertEntry batchId _ _ _ _ _ _ | ClearDay batchId _
  | CreateTest batchId _ _ _ | UpdateTest batchId _ _ _ _ _
  | DeleteTest batchId _ => Some batchId
  | CreateBatch _ _ _ _ | AddStudents _ _ | JoinBatch _ | MarkAttendance _ _ _
  | SetDay _ _ _ | UpsertFees _ _ _ _ _ _ => None
  end.

(** What the three handlers of a timetable slot or day test before they
    load the batch. *)
Definition slotWellFormed (req : Request) : bool :=
  match req with
  | DeleteEntry _ day hourNum =>
      isSome (dayOf day) && negb (hourOutside hourNum 1 (Some 8%Z))
  | UpsertEntry _ day hourNum subj _ _ _ =>
      truthy subj && isSome (dayOf day) && negb (hourOutside hourNum 1 None)
  | ClearDay _ day => isSome (dayOf day)
  | _ => true
  end.

(** An answer that reports success. *)
Definition succeeded (r : Response) : Prop :=
  status r = 200%N \/ status r = 201%N.

(** The integer a finite float with no fractional part stands for. *)
Definition float_to_Z (x : float) : option Z :=
  match Prim2SF x with
  | S754_zero _ => Some 0%Z
  | S754_finite s m e =>
      if (0 <=? e)%Z
      then Some ((if s then Z.neg m else Z.pos m) * 2 ^ e)%Z
      else if ((Z.pos m) mod 2 ^ (- e) =? 0)%Z
           then Some ((if s then Z.neg m else Z.pos m) / 2 ^ (- e))%Z
           else None
  | _ => None
  end.

(** [attendancePercentage] for [pres] present of [total]. *)
Definition percentageOf (pres total : nat) : float :=
  PrimFloat.div
    (Math_round
       (PrimFloat.mul
          (if (0 <? total)%nat then ratio100 pres total else 0%float) 100%float))
    100%float.

(** The hundredths [Math.round] yields for [pres] of [total] are an integer
    nearest to [10000 * pres / total], and the percentage is that integer
    divided by 100. *)
Definition roundsWell (pres total : nat) : bool :=
  match
    float_to_Z
      (Math_round
         (PrimFloat.mul
            (if (0 <? total)%nat then ratio100 pres total else 0%float) 100%float))
  with
  | Some r =>
      (Z.abs (2 * r * Z.of_nat total - 20000 * Z.of_nat pres) <=? Z.of_nat total)%Z &&
      PrimFloat.eqb (percentageOf pres total) (PrimFloat.div (Z_to_float r) 100%float)
  | None => false
  end.

(** [roundsWell] for every count of classes up to [n]. *)
Definition roundsWellUpTo (n : nat) : bool :=
  forallb
    (fun total => forallb (fun pres => roundsWell pres total) (seq 0 (S total)))
    (seq 0 (S n)).

(** ** The other routes that read

    A route that only reads either refuses with an answer or sends its
    data. *)

Inductive Reply (A : Type) : Type :=
| Refused (r : Response)
| Sent (a : A).

Arguments Refused {A} r.
Arguments Sent {A} a.

(** [try { body; res.json(data) } catch (error) { res.status(500).json(..) }] *)
Definition reading {A} (msg500 : string) (body : M A) : Reply A :=
  match body with
  | Respond r => Refused r
  | Throw _ => Refused (json 500 msg500)
  | Pure a => Sent a
  end.

(** *** [validateLogin] of the admin router

    [validateLogin] is handed the parsed body of the request, whose fields
    are JSON values of any kind.  A string is the list of its UTF-16 code
    units, which is what a regular expression without the [u] flag runs
    over. *)

#[local] Unset Elimination Schemes.

Inductive Json :=
| JNull
| JBool (b : bool)
| JNumber (x : float)
| JString (s : list N)
| JArray (l : list Json)
| JObject (fields : list (list N * Json)).

#[local] Set Elimination Schemes.

(** The code units of an ASCII text. *)
Definition units (s : string) : list N :=
  map N_of_ascii (list_ascii_of_string s).

(** [!v] is false; [None] is a field the body does not have
    ([undefined]). *)
Definition isTruthy (v : option Json) : bool :=
  match v with
  | None => false
  | Some JNull => false
  | Some (JBool b) => b
  | Some (JNumber x) => negb (is_zero x || PrimFloat.is_nan x)
  | Some (JString s) => match s with [] => false | _ :: _ => true end
  | Some (JArray _) => true
  | Some (JObject _) => true
  end.

(** [Array.prototype.join(',')] on the texts of the elements. *)
Fixpoint joinComma (l : list (list N)) : list N :=
  match l with
  | [] => []
  | [x] => x
  | x :: r => x ++ 44%N :: joinComma r
  end.

(** [String(v)], which [RegExp.prototype.test] applies to its argument.
    [numberText] is [Number.prototype.toString], which is none of the
    sources.  An array is its elements joined by commas, [null] among them
    as the empty text. *)
Fixpoint textOf (numberText : float -> list N) (v : Json) : list N :=
  match v with
  | JNull => units "null"
  | JBool true => units "true"
  | JBool false => units "false"
  | JNumber x => numberText x
  | JString s => s
  | JArray l =>
      joinComma
        (map (fun e => match e with
                       | JNull => []
                       | _ => textOf numberText e
                       end) l)
  | JObject _ => units "[object Object]"
  end.

Definition textOfField (numberText : float -> list N) (v : option Json)
  : list N :=
  match v with
  | Some x => textOf numberText x
  | None => units "undefined"
  end.

(** What [\s] matches: the white space and the line terminators of
    ECMAScript, by code unit. *)
Definition isWhiteSpace (c : N) : bool :=
  ((9 <=? c) && (c <=? 13) || (c =? 32) || (c =? 160) || (c =? 5760) ||
   (8192 <=? c) && (c <=? 8202) || (c =? 8232) || (c =? 8233) ||
   (c =? 8239) || (c =? 8287) || (c =? 12288) || (c =? 65279))%N.

(** The pieces of the pattern [/^\S+@\S+\.\S+$/]: a literal character, or
    [\S+]. *)
Inductive Item :=
| Lit (c : N)
| NonSpaces.

(** [/^items$/.test(s)]: [\S+] takes one code unit that is no white space
    and then either goes on taking or hands over to the rest of the
    pattern. *)
Fixpoint matches (items : list Item) (s : list N) {struct s} : bool :=
  match items, s with
  | [], [] => true
  | [], _ :: _ => false
  | _ :: _, [] => false
  | Lit c :: rest, x :: s' => N.eqb x c && matches rest s'
  | NonSpaces :: rest, x :: s' =>
      negb (isWhiteSpace x) && (matches (NonSpaces :: rest) s' || matches rest s')
  end.

(** [@] is code unit 64 and [.] is 46. *)
Definition emailPattern : list Item :=
  [NonSpaces; Lit 64%N; NonSpaces; Lit 46%N; NonSpaces].

(** The two fields of the body that [validateLogin] reads. *)
Record LoginData := {
  login_email : option Json;
  login_password : option Json
}.

Record LoginErrors := {
  err_email : option string;
  err_password : option string
}.

Record Validation := {
  v_isValid : bool;
  v_errors : LoginErrors
}.

Definition validateLogin (numberText : float -> list N) (data : LoginData)
  : Validation :=
  let errors :=
    {| err_email :=
         if negb (isTruthy (login_email data)) ||
            negb (matches emailPattern
                    (textOfField numberText (login_email data)))
         then Some "Invalid email format" else None;
       err_password :=
         if negb (isTruthy (login_password data)) then Some "Password is required"
         else None |} in
  {| v_isValid := negb (isSome (err_email errors)) && negb (isSome (err_password errors));
     v_errors := errors |}.

(** *** [authMiddleware] *)

(** What the middleware leaves in [req.user] before it calls [next()]. *)
Record ReqUser := {
  ru_userId : ObjectId;
  ru_email : string;
  ru_role : string
}.

(** The token is the second word of the header, whatever the first one is;
    every exception is answered 401. *)
Definition authMiddleware (env : Env) (db : DB) (authHeader : option string)
  : Reply ReqUser :=
  match
    rejectIf (negb (truthy (bearerToken authHeader))) 401
      "Authentication token required" ;;;
    decoded <- verify env (bearerToken authHeader) ;;
    user <- User_findById env db decoded ;;
    user <- orReject user 404 "User not found" ;;
    Pure {| ru_userId := user_id user; ru_email := user_email user;
            ru_role := role user |}
  with
  | Respond r => Refused r
  | Throw _ => Refused (json 401 "Invalid or expired token")
  | Pure u => Sent u
  end.

(** *** Lists of the admin router *)

(** [.sort({ createdAt: -1 })] *)
Fixpoint insertByCreatedDesc (b : Batch) (l : list Batch) : list Batch :=
  match l with
  | [] => [b]
  | x :: r =>
      if (createdAt x <=? createdAt b)%Z then b :: x :: r
      else x :: insertByCreatedDesc b r
  end.

Definition sortByCreatedDesc (l : list Batch) : list Batch :=
  fold_right insertByCreatedDesc [] l.

(** A batch document with its teacher and its students populated. *)
Record BatchDoc := {
  doc : Batch;
  doc_teacher : option Ref;
  doc_students : list Ref
}.

(** [GET /batches] *)
Definition getBatches (env : Env) (db : DB) (authHeader : option string)
  : Reply (list BatchDoc) :=
  reading "Error fetching batches" (
    Pure (map (fun batch =>
                 {| doc := batch;
                    doc_teacher := populate_admin db (teacher_id batch);
                    doc_students := populate_users db (students batch) |})
            (sortByCreatedDesc (batches db)))).

(** [GET /batches/:batchId/attendance]: the records are sent with their
    references as stored. *)
Definition listAttendance (env : Env) (db : DB) (authHeader : option string)
    (batchId : string) (startDate endDate : option Z) : Reply (list Attendance) :=
  reading "Error fetching attendance" (
    Attendance_find env db batchId None startDate endDate).

(** [GET /batches/:batchId/tests]: the token is compared with the owner as
    it is; the tests are sent with their references as stored. *)
Definition getTests (env : Env) (db : DB) (authHeader : option string)
    (batchId : string) : Reply (list TestResult) :=
  reading "Error fetching tests" (
    teacherId <- requireBearer authHeader "Authorization header is required" ;;
    batch <- findBatch env db batchId ;;
    requireOwner batch teacherId "Unauthorized to view tests for this batch" ;;;
    Pure (testResults batch)).

(** [GET /batches/:batchId/tests/:testId] *)
Definition getTest (env : Env) (db : DB) (authHeader : option string)
    (batchId testId : string) : Reply TestResult :=
  reading "Error fetching test" (
    teacherId <- requireBearer authHeader "Authorization header is required" ;;
    batch <- findBatch env db batchId ;;
    requireOwner batch teacherId "Unauthorized to view this test" ;;;
    orReject (find (fun t => String.eqb (test_id t) testId) (testResults batch))
      404 "Test not found").

(** *** Reads of the user router *)

Record BatchSummary := {
  bs_id : ObjectId;
  bs_name : string;
  bs_batch_code : string;
  bs_class : string;
  bs_teacher_name : string;
  bs_teacher_email : option string;
  bs_studentsCount : nat;
  bs_createdAt : Z
}.

(** [batch.teacher_id?.name || 'Not Assigned'] *)
Definition teacherName (t : option Ref) : string :=
  match t with
  | Some r => if truthy (Some (ref_name r)) then ref_name r else "Not Assigned"
  | None => "Not Assigned"
  end.

Definition summaryOf (db : DB) (batch : Batch) : BatchSummary :=
  let t := populate_admin db (teacher_id batch) in
  {| bs_id := batch_id batch; bs_name := batch_name batch;
     bs_batch_code := batch_code batch; bs_class := class batch;
     bs_teacher_name := teacherName t;
     bs_teacher_email := option_map ref_email t;
     bs_studentsCount := List.length (students batch);
     bs_createdAt := createdAt batch |}.

(** [GET /my-batches]: [Batch.find({ students: student_id })], newest
    first. *)
Definition myBatches (env : Env) (db : DB) (authHeader : option string)
    (student_id : option string) : Reply (list BatchSummary) :=
  reading "Error fetching batches" (
    rejectIf (negb (truthy student_id)) 400 "Student ID is required" ;;;
    s <- cast env (orEmpty student_id) ;;
    Pure (map (summaryOf db)
            (sortByCreatedDesc
               (filter (fun b => includes s (students b)) (batches db))))).

Record StudentBatchView := {
  sb_id : ObjectId;
  sb_name : string;
  sb_batch_code : string;
  sb_class : string;
  sb_teacher : option Ref;
  sb_studentsCount : nat;
  sb_students : list Ref;
  sb_announcements : list Announcement;
  sb_createdAt : Z
}.

(** [batch.students.some(student => student._id.toString() === id)] over
    the populated list. *)
Definition amongPopulated (db : DB) (batch : Batch) (id : string) : bool :=
  existsb (fun s => String.eqb (ref_id s) id) (populate_users db (students batch)).

(** [decoded.userId !== userId], where [userId] comes from the query
    string and may be missing. *)
Definition differs (decoded : ObjectId) (userId : option string) : bool :=
  match userId with
  | Some u => negb (String.eqb decoded u)
  | None => true
  end.

(** [GET /student/batches/:batchId]: whatever the inner [try] throws is
    answered 401. *)
Definition studentBatch (env : Env) (db : DB) (authHeader : option string)
    (batchId : string) (userId : option string) : Reply StudentBatchView :=
  reading "Error fetching batch details" (
    token <- requireBearer authHeader "Authentication required" ;;
    tryCatch (
      decoded <- verify env (Some token) ;;
      rejectIf (differs decoded userId) 403 "User ID mismatch" ;;;
      batch <- findBatch env db batchId ;;
      rejectIf (negb (amongPopulated db batch (orEmpty userId))) 403
        "You are not enrolled in this batch" ;;;
      Pure {| sb_id := batch_id batch; sb_name := batch_name batch;
              sb_batch_code := batch_code batch; sb_class := class batch;
              sb_teacher := populate_admin db (teacher_id batch);
              sb_studentsCount := List.length (populate_users db (students batch));
              sb_students := populate_users db (students batch);
              sb_announcements := announcements batch;
              sb_createdAt := createdAt batch |})
      401 "Invalid or expired token").

Record ParentBatchView := {
  pb_id : ObjectId;
  pb_name : string;
  pb_batch_code : string;
  pb_class : string;
  pb_teacher : option Ref;
  pb_student : User;
  pb_studentsCount : nat;
  pb_announcements : list Announcement;
  pb_createdAt : Z
}.

(** [GET /parent/batches/:batchId]: the header must start with [Bearer ],
    its token is not read; the parent and the student are named by the
    query string. *)
Definition parentBatch (env : Env) (db : DB) (authHeader : option string)
    (batchId : string) (parentId studentId : option string)
  : Reply ParentBatchView :=
  reading "Error fetching batch details" (
    rejectIf (noBearer authHeader) 401 "Authentication required" ;;;
    parent <- User_findByQueryId env db parentId ;;
    student <- User_findByQueryId env db studentId ;;
    ps <- requireParentOf parent student "Invalid student access" ;;
    batch <- findBatch env db batchId ;;
    rejectIf (negb (amongPopulated db batch (orEmpty studentId))) 403
      "Student not enrolled in this batch" ;;;
    Pure {| pb_id := batch_id batch; pb_name := batch_name batch;
            pb_batch_code := batch_code batch; pb_class := class batch;
            pb_teacher := populate_admin db (teacher_id batch);
            pb_student := snd ps;
            pb_studentsCount := List.length (populate_users db (students batch));
            pb_announcements := announcements batch;
            pb_createdAt := createdAt batch |}).

(** [GET /parent/batches/:batchId/timetable]: no header is read. *)
Definition parentTimetable (env : Env) (db : DB) (authHeader : option string)
    (batchId : string) (studentId : option string) : Reply Timetable :=
  reading "Error fetching timetable" (
    rejectIf (negb (truthy studentId)) 400 "Student ID is required" ;;;
    batch <- findBatch env db batchId ;;
    rejectIf (negb (isEnrolled batch (orEmpty studentId))) 403
      "Student is not enrolled in this batch" ;;;
    Pure (timetable batch)).

(** [GET /student/batches/:batchId/tests]: the student is the account of
    the token; the tests are sent with their references as stored. *)
Definition studentTests (env : Env) (db : DB) (authHeader : option string)
    (batchId : string) : Reply (list TestResult) :=
  reading "Error fetching tests" (
    token <- requireBearer authHeader "Authentication required" ;;
    tryCatch (
      studentId <- verify env (Some token) ;;
      student <- User_findById env db studentId ;;
      orReject student 401 "Invalid student credentials" ;;;
      batch <- findBatch env db batchId ;;
      rejectIf (negb (isEnrolled batch studentId)) 403
        "Student not enrolled in this batch" ;;;
      Pure (testResults batch))
      401 "Invalid authentication token").

(** [GET /student/batches/:batchId/fees]: the student is named by the
    query string, no header is read. *)
Definition studentFees (env : Env) (db : DB) (authHeader : option string)
    (batchId : string) (userId : option string) : Reply (option FeesView) :=
  reading "Error fetching fees payment information" (
    rejectIf (invalidId env (Some batchId)) 400 "Invalid batch ID" ;;;
    rejectIf (invalidId env userId) 400 "Invalid user ID" ;;;
    batch <- findBatch env db batchId ;;
    rejectIf (negb (isEnrolled batch (orEmpty userId))) 403
      "Student is not enrolled in this batch" ;;;
    findPayment db (orEmpty userId) (feesPayments batch)).

(** ** Notions used by the properties of these routes *)

(** The white space of ASCII: tab, line feed, vertical tab, form feed,
    carriage return and space. *)
Definition isSpace (c : ascii) : bool :=
  let n := nat_of_ascii c in
  ((9 <=? n) && (n <=? 13) || (n =? 32))%nat.

(** No character of the header word [s] is a space. *)
Fixpoint noSpace (s : string) : bool :=
  match s with
  | EmptyString => true
  | String c r => negb (isSpace c) && noSpace r
  end.

(** No code unit of [s] is white space. *)
Definition noWhiteSpace (s : list N) : bool :=
  forallb (fun c => negb (isWhiteSpace c)) s.

(** The code units of the e-mail address [a@b.c]. *)
Definition address (a b c : list N) : list N :=
  a ++ 64%N :: b ++ 46%N :: c.

(** [req.user] for the account [u]. *)
Definition reqUserOf (u : User) : ReqUser :=
  {| ru_userId := user_id u; ru_email := user_email u; ru_role := role u |}.

(** The references of a batch to students: the enrolled and the payers are
    accounts with role [student]. *)
Record BatchRefs (db : DB) (b : Batch) : Prop := {
  refs_students : Forall (isStudentId db) (students b);
  refs_fees : Forall (fun p => isStudentId db (fee_student p)) (feesPayments b)
}.

Definition Refs (db : DB) : Prop := Forall (BatchRefs db) (batches db).

(** *** Fees, a test and its marks, for the examples *)

Definition idX1 : ObjectId := "ffffffffffffffffffffff01".

Definition reqFee : Request :=
  UpsertFees idB1 (Some idS1) (Some 1500%float) (Some "online") (Some "paid") None.

Definition reqTest : Request :=
  CreateTest idB1 (Some "Unit test 1") (Some 50%float) (Some "Algebra").

Definition markIn (s : ObjectId) (m : float) : MarkInput :=
  {| in_student := s; in_marks := Some m; in_remarks := None |}.

Definition reqMarks : Request :=
  UpdateTest idB1 idX1 None None None (Some [markIn idS1 41%float]).

(** A fee record by a request without a header; a test and its marks by
    the owner. *)
Definition db6 : DB := fst (route (envAt 5000 idX1) db2 None reqFee).
Definition db7 : DB := fst (route (envAt 6000 idX1) db6 (bearer idT1) reqTest).
Definition db8 : DB := fst (route (envAt 7000 idX1) db7 (bearer idT1) reqMarks).

(** *** What a request may write *)

(** The fields of a batch that requests change. *)
Inductive Field :=
| FName | FClass | FStudents | FFees | FAnnouncements | FTimetable | FTests.

Definition fieldsOf (req : Request) : list Field :=
  match req with
  | UpdateBatch _ _ _ => [FName; FClass]
  | AddStudents _ _ | RemoveStudent _ _ | JoinBatch _ => [FStudents]
  | CreateAnnouncement _ _ _ | UpdateAnnouncement _ _ _ _
  | DeleteAnnouncement _ _ => [FAnnouncements]
  | SetDay _ _ _ | DeleteEntry _ _ _ | UpsertEntry _ _ _ _ _ _ _
  | ClearDay _ _ => [FTimetable]
  | CreateTest _ _ _ _ | UpdateTest _ _ _ _ _ _ | DeleteTest _ _ => [FTests]
  | UpsertFees _ _ _ _ _ _ => [FFees]
  | CreateBatch _ _ _ _ | DeleteBatch _ | MarkAttendance _ _ _
  | UpdateAttendance _ _ _ | DeleteAttendance _ _ => []
  end.

Definition sameField (f : Field) (b b' : Batch) : Prop :=
  match f with
  | FName => batch_name b' = batch_name b
  | FClass => class b' = class b
  | FStudents => students b' = students b
  | FFees => feesPayments b' = feesPayments b
  | FAnnouncements => announcements b' = announcements b
  | FTimetable => timetable b' = timetable b
  | FTests => testResults b' = testResults b
  end.

(** [b'] is [b] but for the fields that [req] may write (and the stamp
    [updatedAt]). *)
Definition keeps (req : Request) (b b' : Batch) : Prop :=
  batch_id b' = batch_id b /\ batch_code b' = batch_code b /\
  teacher_id b' = teacher_id b /\ createdAt b' = createdAt b /\
  forall f, ~ In f (fieldsOf req) -> sameField f b b'.

Definition writesAttendance (req : Request) : bool :=
  match req with
  | MarkAttendance _ _ _ | UpdateAttendance _ _ _ | DeleteAttendance _ _ => true
  | _ => false
  end.

(** The collection of batches after [req], in terms of the one before. *)
Definition batchesAfter (req : Request) (before after : list Batch) : Prop :=
  match req with
  | CreateBatch _ _ _ _ => after = before \/ exists b, after = before ++ [b]
  | DeleteBatch batchId =>
      after = before \/
      after = filter (fun b => negb (String.eqb (batch_id b) batchId)) before
  | _ => Forall2 (keeps req) before after
  end.

(** Teacher 1 posts an announcement to the batch. *)
Definition reqPost : Request :=
  CreateAnnouncement idB1 (Some "Holiday") (Some "No class on Friday").

Definition db9 : DB := fst (route env3 db2 (bearer idT1) reqPost).

Definition posted : Announcement :=
  {| ann_id := idA1; title := "Holiday"; content := "No class on Friday";
     ann_teacher_id := idT1; ann_createdAt := 3000 |}.

(** The marks a test shows for the student [s]. *)
Definition marksOf (s : string) (rows : list StudentMark) : option float :=
  option_map marks (find (fun r => String.eqb (mark_student r) s) rows).

(** The last entry for the student [s] in the marks of a request. *)
Definition lastEntry (s : string) (sm : list MarkInput) : option MarkInput :=
  find (fun m => String.eqb (in_student m) s) (rev sm).

(** Three entries of marks: two for student 1, one for student 2, who is
    not in the batch. *)
Definition reqMarks3 : Request :=
  UpdateTest idB1 idX1 None None None
    (Some [markIn idS1 30%float; markIn idS2 12%float; markIn idS1 41%float]).

Definition test1 : TestResult :=
  {| test_id := idX1; examName := "Unit test 1"; test_date := 6000;
     maximumMarks := 50%float; test_subject := "Algebra"; createdBy := idT1;
     studentMarks := [] |}.

(** Attendance records, latest date first. *)
Definition newestFirst (l : list Attendance) : Prop :=
  StronglySorted (fun x y => (date y <= date x)%Z) l.

(** Batches, latest creation first. *)
Definition newestBatchFirst (l : list Batch) : Prop :=
  StronglySorted (fun x y => (createdAt y <= createdAt x)%Z) l.

(** [id] is the [_id] of an account. *)
Definition hasAccount (db : DB) (id : string) : Prop :=
  exists u, In u (users db) /\ user_id u = id.

(** What [GET /student/batches/:batchId] sends for the batch [batch]. *)
Definition studentViewOf (db : DB) (batch : Batch) : StudentBatchView :=
  {| sb_id := batch_id batch; sb_name := batch_name batch;
     sb_batch_code := batch_code batch; sb_class := class batch;
     sb_teacher := populate_admin db (teacher_id batch);
     sb_studentsCount := List.length (populate_users db (students batch));
     sb_students := populate_users db (students batch);
     sb_announcements := announcements batch;
     sb_createdAt := createdAt batch |}.

(** What [GET /parent/batches/:batchId] sends for the batch [batch] and the
    student [s]. *)
Definition parentViewOf (db : DB) (batch : Batch) (s : User) : ParentBatchView :=
  {| pb_id := batch_id batch; pb_name := batch_name batch;
     pb_batch_code := batch_code batch; pb_class := class batch;
     pb_teacher := populate_admin db (teacher_id batch);
     pb_student := s;
     pb_studentsCount := List.length (populate_users db (students batch));
     pb_announcements := announcements batch;
     pb_createdAt := createdAt batch |}.




(** The identifier of student 1 as a request may write it, in upper case. *)
Definition idS1_upper : string := "CCCCCCCCCCCCCCCCCCCCCC01".

(** The first fee record of the student [sid]. *)
Definition paymentOf (sid : string) (l : list FeesPayment) : option FeesPayment :=
  hd_error (paymentsOf sid l).

(** * Properties *)

(** ** Strings and lists *)

Lemma upper_ascii_idem (c : ascii) : upper_ascii (upper_ascii c) = upper_ascii c.
Proof. destruct c as [[] [] [] [] [] [] [] []]; reflexivity. Qed.

Lemma toUpperCase_idem (s : string) : toUpperCase (toUpperCase s) = toUpperCase s.
Proof.
  unfold toUpperCase.
  induction s as [|c r IH]; simpl; [reflexivity|].
  now rewrite upper_ascii_idem, IH.
Qed.

Lemma includes_In (x : string) (l : list string) : includes x l = true <-> In x l.
Proof.
  unfold includes. rewrite existsb_exists. split.
  - intros (y & Hy & E). apply String.eqb_eq in E. now subst.
  - intros H. exists x. split; [assumption|apply String.eqb_refl].
Qed.

Lemma includes_not_In (x : string) (l : list string) :
  includes x l = false <-> ~ In x l.
Proof.
  rewrite <- includes_In. destruct (includes x l); split; congruence.
Qed.

Lemma find_In {A} (p : A -> bool) (l : list A) (x : A) :
  find p l = Some x -> In x l /\ p x = true.
Proof. apply find_some. Qed.

Lemma find_replace_first {A} (p : A -> bool) (y : A) (l : list A) (x : A) :
  find p l = Some x -> p y = true -> find p (replace_first p y l) = Some y.
Proof.
  induction l as [|a l IH]; simpl; [discriminate|].
  destruct (p a) eqn:E; intros H Hy; simpl.
  - now rewrite Hy.
  - rewrite E. now apply IH.
Qed.

Lemma Forall_replace_first {A} (P : A -> Prop) (p : A -> bool) (y : A) (l : list A) :
  Forall P l -> P y -> Forall P (replace_first p y l).
Proof.
  induction 1 as [|a l Ha Hl IH]; simpl; intros Hy; [constructor|].
  destruct (p a); constructor; auto.
Qed.

Lemma Forall_delete_first {A} (P : A -> Prop) (p : A -> bool) (l : list A) :
  Forall P l -> Forall P (delete_first p l).
Proof.
  induction 1 as [|a l Ha Hl IH]; simpl; [constructor|].
  destruct (p a); [assumption|constructor; assumption].
Qed.

Lemma Forall_update_at {A} (P : A -> Prop) (f : A -> A) (i : nat) (l : list A) :
  Forall P l -> (forall x, P x -> P (f x)) -> Forall P (update_at i f l).
Proof.
  intros H Hf. revert i.
  induction H as [|a l Ha Hl IH]; intros [|i]; simpl; constructor; auto.
Qed.

Lemma Forall_remove_at {A} (P : A -> Prop) (i : nat) (l : list A) :
  Forall P l -> Forall P (remove_at i l).
Proof.
  intros H. revert i.
  induction H as [|a l Ha Hl IH]; intros [|i]; simpl; auto.
Qed.

Lemma map_update_at_same {A B} (g : A -> B) (f : A -> A) (i : nat) (l : list A) :
  (forall x, g (f x) = g x) -> map g (update_at i f l) = map g l.
Proof.
  intros Hf. revert i.
  induction l as [|a l IH]; intros [|i]; simpl; try reflexivity.
  - now rewrite Hf.
  - now rewrite IH.
Qed.

Lemma findIndex_None {A} (p : A -> bool) (l : list A) :
  findIndex p l = None -> forall x, In x l -> p x = false.
Proof.
  induction l as [|a l IH]; simpl; [contradiction|].
  destruct (p a) eqn:E; [discriminate|].
  destruct (findIndex p l); [discriminate|].
  intros _ x [<-|Hx]; auto.
Qed.

Lemma findIndex_Some {A} (p : A -> bool) (l : list A) (i : nat) :
  findIndex p l = Some i ->
  exists l1 x l2, l = l1 ++ x :: l2 /\ List.length l1 = i /\ p x = true /\
                  forall y, In y l1 -> p y = false.
Proof.
  revert i. induction l as [|a l IH]; simpl; [discriminate|].
  destruct (p a) eqn:E; intros i H.
  - injection H as <-. exists [], a, l. repeat split; auto. contradiction.
  - destruct (findIndex p l) as [j|]; [|discriminate].
    injection H as <-. destruct (IH j eq_refl) as (l1 & x & l2 & -> & <- & Hx & Hl1).
    exists (a :: l1), x, l2. repeat split; auto.
    intros y [<-|Hy]; auto.
Qed.

Lemma update_at_app {A} (f : A -> A) (l1 : list A) (x : A) (l2 : list A) :
  update_at (List.length l1) f (l1 ++ x :: l2) = l1 ++ f x :: l2.
Proof. induction l1 as [|a l1 IH]; simpl; [reflexivity|now rewrite IH]. Qed.

Lemma remove_at_app {A} (l1 : list A) (x : A) (l2 : list A) :
  remove_at (List.length l1) (l1 ++ x :: l2) = l1 ++ l2.
Proof. induction l1 as [|a l1 IH]; simpl; [reflexivity|now rewrite IH]. Qed.

(** ** The control flow *)

Lemma bind_Pure_inv {A B} (m : M A) (k : A -> M B) (b : B) :
  bind m k = Pure b -> exists a, m = Pure a /\ k a = Pure b.
Proof. destruct m; simpl; try discriminate. intros H. now exists a. Qed.

Lemma rejectIf_Pure (c : bool) (code : N) (msg : string) (u : unit) :
  rejectIf c code msg = Pure u -> c = false.
Proof. now destruct c. Qed.

Lemma throwIf_Pure (c : bool) (e : Exn) (u : unit) :
  throwIf c e = Pure u -> c = false.
Proof. now destruct c. Qed.

Lemma orReject_Pure {A} (x : option A) (code : N) (msg : string) (a : A) :
  orReject x code msg = Pure a -> x = Some a.
Proof. destruct x; simpl; congruence. Qed.

Lemma cast_Pure (env : Env) (id : string) (i : ObjectId) :
  cast env id = Pure i -> isValid env id = true /\ i = id.
Proof. unfold cast. destruct (isValid env id); [|discriminate]. now intros [= <-]. Qed.

Lemma findBatch_Pure (env : Env) (db : DB) (batchId : string) (b : Batch) :
  findBatch env db batchId = Pure b ->
  batchAt env db batchId b /\ In b (batches db) /\ batch_id b = batchId.
Proof.
  unfold findBatch, batchAt, Batch_findById, cast.
  destruct (isValid env batchId); simpl; [|discriminate].
  destruct (find _ (batches db)) as [x|] eqn:E; simpl; [|discriminate].
  intros [= ->]. apply find_In in E. destruct E as [Hin Hid].
  apply String.eqb_eq in Hid. auto.
Qed.

Lemma batchAt_findBatch (env : Env) (db : DB) (batchId : string) (b : Batch) :
  batchAt env db batchId b -> findBatch env db batchId = Pure b.
Proof. unfold batchAt, findBatch. now intros ->. Qed.

Lemma batchAt_In (env : Env) (db : DB) (batchId : string) (b : Batch) :
  batchAt env db batchId b ->
  In b (batches db) /\ batch_id b = batchId /\ isValid env batchId = true.
Proof.
  intros H. apply batchAt_findBatch in H.
  pose proof H as H'. apply findBatch_Pure in H as (_ & ? & ?).
  repeat split; auto.
  unfold findBatch, Batch_findById, cast in H'.
  now destruct (isValid env batchId).
Qed.

Lemma requireBearer_ok (authHeader : option string) (tok msg : string) :
  presents authHeader tok -> requireBearer authHeader msg = Pure tok.
Proof. intros [H1 H2]. unfold requireBearer. now rewrite H1, H2. Qed.

Lemma authTeacher_ok (env : Env) (db : DB) (authHeader : option string)
    (t : AdminUser) (msg : string) :
  teacherCalls env db authHeader t ->
  authTeacher env db authHeader msg = Pure (admin_id t).
Proof.
  intros [Hp Hf]. unfold authTeacher.
  rewrite (requireBearer_ok msg Hp). simpl. now rewrite Hf.
Qed.

(** After a save the batch is found under its identifier, stamped. *)
Lemma batchAt_save (env env' : Env) (db : DB) (batchId : string) (b b' : Batch) :
  batchAt env db batchId b -> batch_id b' = batchId ->
  isValid env' batchId = true ->
  batchAt env' (Batch_save env db b') batchId (set_updatedAt b' (now env)).
Proof.
  unfold batchAt, Batch_findById, cast. intros H Hid Hv. rewrite Hv. simpl.
  destruct (isValid env batchId); [|discriminate]. simpl in H.
  injection H as H. f_equal.
  rewrite Hid.
  apply find_replace_first with (x := b); [assumption|].
  simpl. rewrite Hid. apply String.eqb_refl.
Qed.

(** Every handler leaves the database alone unless its body runs to the
    end. *)
Lemma handler_cases (db : DB) (msg : string) (body : M (DB * Response)) :
  handler db msg body = (db, snd (handler db msg body)) \/
  exists out, body = Pure out /\ handler db msg body = out.
Proof.
  destruct body as [r|e|out]; simpl; auto. right. now exists out.
Qed.

(** ** The invariants are kept by every request *)

Ltac beta_in H := cbv beta in H.

(** Runs backwards through a body that ended in [Pure]. *)
Ltac invM :=
  repeat match goal with
  | H : bind _ _ = Pure _ |- _ =>
      let a := fresh "a" in let Ha := fresh "Ha" in
      apply bind_Pure_inv in H; destruct H as (a & Ha & H); beta_in H
  | H : rejectIf _ _ _ = Pure _ |- _ => apply rejectIf_Pure in H
  | H : throwIf _ _ = Pure _ |- _ => apply throwIf_Pure in H
  | H : orReject _ _ _ = Pure _ |- _ => apply orReject_Pure in H
  | H : findBatch _ _ _ = Pure _ |- _ =>
      let H1 := fresh "Hat" in let H2 := fresh "Hin" in let H3 := fresh "Hid" in
      apply findBatch_Pure in H; destruct H as (H1 & H2 & H3)
  | H : cast _ _ = Pure _ |- _ =>
      let H1 := fresh "Hv" in apply cast_Pure in H; destruct H as (H1 & H); subst
  | H : Pure _ = Pure _ |- _ => injection H as H; subst
  | H : Some _ = Some _ |- _ => injection H as H; subst
  | H : (_, _) = (_, _) |- _ => injection H as ? ?; subst
  end.

(** Splits on whether the handler's body ran to the end. *)
Ltac by_cases :=
  match goal with
  | |- context [handler ?db ?msg ?body] =>
      let out := fresh "out" in let Hb := fresh "Hb" in let E := fresh "E" in
      destruct (handler_cases db msg body) as [E | (out & Hb & E)];
      rewrite E; clear E; [simpl; try assumption | invM]
  end.

Lemma BatchInv_updatedAt (b : Batch) (t : Z) : BatchInv b -> BatchInv (set_updatedAt b t).
Proof. intros []. now constructor. Qed.

Lemma BatchInv_name (b : Batch) (n : string) : BatchInv b -> BatchInv (set_name b n).
Proof. intros []. now constructor. Qed.

Lemma BatchInv_class (b : Batch) (c : string) : BatchInv b -> BatchInv (set_class b c).
Proof. intros []. now constructor. Qed.

Lemma BatchInv_announcements (b : Batch) (l : list Announcement) :
  BatchInv b -> BatchInv (set_announcements b l).
Proof. intros []. now constructor. Qed.

Lemma BatchInv_testResults (b : Batch) (l : list TestResult) :
  BatchInv b -> BatchInv (set_testResults b l).
Proof. intros []. now constructor. Qed.

Lemma BatchInv_students (b : Batch) (l : list ObjectId) :
  BatchInv b -> BatchInv (set_students b l).
Proof. intros []. now constructor. Qed.

Lemma BatchInv_feesPayments (b : Batch) (l : list FeesPayment) :
  BatchInv b -> NoDup (map fee_student l) -> BatchInv (set_feesPayments b l).
Proof. intros [] H. now constructor. Qed.

Lemma allEntries_setDayList (P : TimetableEntry -> Prop) (t : Timetable) (d : Day)
    (l : list TimetableEntry) :
  Forall P (allEntries t) -> Forall P l -> Forall P (allEntries (setDayList t d l)).
Proof.
  unfold allEntries. rewrite !Forall_app. intros (H1 & H2 & H3 & H4 & H5 & H6) Hl.
  destruct d; simpl; repeat split; assumption.
Qed.

Lemma allEntries_getDay (P : TimetableEntry -> Prop) (t : Timetable) (d : Day) :
  Forall P (allEntries t) -> Forall P (getDay t d).
Proof.
  unfold allEntries. rewrite !Forall_app. intros (H1 & H2 & H3 & H4 & H5 & H6).
  now destruct d.
Qed.

Lemma BatchInv_timetable (b : Batch) (d : Day) (l : list TimetableEntry) :
  BatchInv b -> Forall (fun e => (1 <= hour e)%Z) l ->
  BatchInv (set_timetable b (setDayList (timetable b) d l)).
Proof.
  intros [] H. constructor; simpl; auto.
  now apply allEntries_setDayList.
Qed.

Lemma Inv_save (env : Env) (db : DB) (b : Batch) :
  Inv db -> BatchInv b -> Inv (Batch_save env db b).
Proof.
  intros [] Hb. constructor; simpl; auto.
  apply Forall_replace_first; [assumption|now apply BatchInv_updatedAt].
Qed.

Lemma Inv_In (db : DB) (b : Batch) : Inv db -> In b (batches db) -> BatchInv b.
Proof. intros [_ H _] Hin. rewrite Forall_forall in H. auto. Qed.

Lemma Inv_delete (db : DB) (id : ObjectId) : Inv db -> Inv (Batch_findByIdAndDelete db id).
Proof. intros []. constructor; simpl; auto. now apply Forall_delete_first. Qed.

Lemma Inv_create (env : Env) (db : DB) (code name cls : string) (t : ObjectId) :
  Inv db -> Inv (Batch_create env db code name cls t).
Proof.
  intros []. constructor; simpl; auto.
  apply Forall_app. split; [assumption|].
  constructor; [|constructor].
  constructor; simpl; try constructor. apply toUpperCase_idem.
Qed.

Create HintDb inv.

#[local] Hint Resolve Inv_save Inv_In Inv_delete Inv_create BatchInv_name
  BatchInv_class BatchInv_announcements BatchInv_testResults : inv.

Lemma createBatch_Inv env db code name cls teacher :
  Inv db -> Inv (fst (createBatch env db code name cls teacher)).
Proof. intros HI. unfold createBatch, createBatchWith. by_cases. simpl. auto with inv. Qed.

Lemma updateBatch_Inv env db h batchId name cls :
  Inv db -> Inv (fst (updateBatch env db h batchId name cls)).
Proof.
  intros HI. unfold updateBatch. by_cases. simpl.
  apply Inv_save; [assumption|].
  assert (BatchInv a0) by eauto with inv.
  destruct (truthy name), (truthy cls); auto with inv.
Qed.

Ltac batch_inv :=
  match goal with
  | HI : Inv ?db, Hin : In ?b (batches ?db) |- _ =>
      let Hb := fresh "HBI" in pose proof (@Inv_In _ _ HI Hin) as Hb
  end.

Lemma deleteBatch_Inv env db h batchId :
  Inv db -> Inv (fst (deleteBatch env db h batchId)).
Proof. intros HI. unfold deleteBatch. by_cases. simpl. auto with inv. Qed.

(** The count test of the bulk add: as many student accounts were found as
    identifiers were sent only if the identifiers name different accounts
    and each names a student. *)
Lemma found_students (db : DB) (ids : list string) :
  NoDup (map user_id (users db)) ->
  List.length (User_findStudentsIn db ids) = List.length ids ->
  NoDup (map castId ids) /\
  forall id, In id ids -> isStudentId db (castId id).
Proof.
  intros Hu Hlen. rewrite <- (length_map castId ids) in Hlen.
  assert (Hall : forall id, In id ids -> In (castId id) (map castId ids))
    by (intros id; apply in_map).
  enough (H : NoDup (map castId ids) /\
              forall c, In c (map castId ids) -> isStudentId db c)
    by (split; [apply H|intros id Hid; apply H, Hall, Hid]).
  clear Hall. unfold User_findStudentsIn in Hlen.
  revert Hlen. generalize (map castId ids). clear ids. intros ids Hlen.
  set (F := map user_id
              (filter (fun u => includes (user_id u) ids &&
                                String.eqb (role u) "student") (users db))).
  assert (HF : NoDup F).
  { unfold F. clear Hlen.
    induction (users db) as [|u l IH]; simpl; [constructor|].
    inversion Hu as [|? ? Hn Hl]; subst.
    destruct (_ && _); simpl; auto.
    constructor; auto. rewrite in_map_iff. intros (x & Hx & Hin).
    apply filter_In in Hin as [Hin _]. apply Hn. rewrite <- Hx. now apply in_map. }
  assert (Hincl : incl F ids).
  { intros x Hx. unfold F in Hx.
    apply in_map_iff in Hx as (u & <- & Hin).
    apply filter_In in Hin as [_ Hc]. apply andb_prop in Hc as [Hc _].
    now apply includes_In. }
  assert (HlenF : List.length ids <= List.length F).
  { unfold F. rewrite length_map. lia. }
  split.
  - exact (NoDup_incl_NoDup HF HlenF Hincl).
  - intros id Hid.
    pose proof (NoDup_length_incl HF HlenF Hincl) as Hback.
    apply Hback in Hid. unfold F in Hid.
    apply in_map_iff in Hid as (u & <- & Hin).
    apply filter_In in Hin as [Hin Hc]. apply andb_prop in Hc as [_ Hc].
    exists u. repeat split; auto. now apply String.eqb_eq.
Qed.

Lemma NoDup_add_new (s ids : list string) :
  NoDup s -> NoDup ids ->
  NoDup (s ++ filter (fun id => negb (includes id s)) ids).
Proof.
  intros Hs Hids. apply NoDup_app; auto using NoDup_filter.
  intros a Ha Hf. apply filter_In in Hf as [_ Hf].
  apply negb_true_iff, includes_not_In in Hf. contradiction.
Qed.

Lemma addStudents_Inv env db h batchId ids :
  Inv db -> Inv (fst (addStudents env db h batchId ids)).
Proof.
  intros HI. unfold addStudents. by_cases. simpl. batch_inv.
  apply Inv_save; [assumption|]. now apply BatchInv_students.
Qed.

Lemma removeStudent_Inv env db h batchId studentId :
  Inv db -> Inv (fst (removeStudent env db h batchId studentId)).
Proof.
  intros HI. unfold removeStudent. by_cases. simpl. batch_inv.
  apply Inv_save; [assumption|]. now apply BatchInv_students.
Qed.

Lemma Batch_findByCode_In (db : DB) (code : string) (b : Batch) :
  Batch_findByCode db code = Some b -> In b (batches db) /\ batch_code b = code.
Proof.
  unfold Batch_findByCode. intros H. apply find_In in H as [Hin He].
  now apply String.eqb_eq in He.
Qed.

Lemma joinBatch_cases env db h code :
  joinBatch env db h code = (db, snd (joinBatch env db h code)) \/
  exists u b,
    Batch_findByCode db (toUpperCase (orEmpty code)) = Some b /\
    includes (user_id u) (students b) = false /\
    joinBatch env db h code =
      (Batch_save env db (set_students b (students b ++ [user_id u])),
       json 200 "Successfully joined batch").
Proof.
  unfold joinBatch.
  destruct (joinBatchBody env db h code) as [r|e|out] eqn:Hb; auto.
  - destruct e; auto.
  - right. unfold joinBatchBody in Hb. invM.
    match goal with
    | H : Batch_findByCode _ _ = Some ?b, H' : includes (user_id ?u) _ = false |- _ =>
        exists u, b; repeat split; auto
    end.
Qed.

Lemma joinBatch_Inv env db h code :
  Inv db -> Inv (fst (joinBatch env db h code)).
Proof.
  intros HI. destruct (joinBatch_cases env db h code) as [E|(u & b & Hf & Hn & E)];
    rewrite E; simpl; [assumption|].
  apply Batch_findByCode_In in Hf as [Hin _]. batch_inv.
  apply Inv_save; [assumption|]. now apply BatchInv_students.
Qed.

Lemma createAnnouncement_Inv env db h batchId ttl cnt :
  Inv db -> Inv (fst (createAnnouncement env db h batchId ttl cnt)).
Proof. intros HI. unfold createAnnouncement. by_cases. simpl. eauto with inv. Qed.

Lemma updateAnnouncement_Inv env db h batchId aid ttl cnt :
  Inv db -> Inv (fst (updateAnnouncement env db h batchId aid ttl cnt)).
Proof. intros HI. unfold updateAnnouncement. by_cases. simpl. eauto with inv. Qed.

Lemma deleteAnnouncement_Inv env db h batchId aid :
  Inv db -> Inv (fst (deleteAnnouncement env db h batchId aid)).
Proof. intros HI. unfold deleteAnnouncement. by_cases. simpl. eauto with inv. Qed.

Lemma createTest_Inv env db h batchId name maxMarks subj :
  Inv db -> Inv (fst (createTest env db h batchId name maxMarks subj)).
Proof. intros HI. unfold createTest. by_cases. simpl. eauto with inv. Qed.

Lemma updateTest_Inv env db h batchId testId name maxMarks subj sm :
  Inv db -> Inv (fst (updateTest env db h batchId testId name maxMarks subj sm)).
Proof. intros HI. unfold updateTest. by_cases. simpl. eauto with inv. Qed.

Lemma deleteTest_Inv env db h batchId testId :
  Inv db -> Inv (fst (deleteTest env db h batchId testId)).
Proof. intros HI. unfold deleteTest. by_cases. simpl. eauto with inv. Qed.

(** *** Fee payments *)

Lemma upsertPayment_students (p : FeesPayment) (l : list FeesPayment) :
  map fee_student (upsertPayment p l) =
  if existsb (fun q => String.eqb (fee_student q) (fee_student p)) l
  then map fee_student l
  else map fee_student l ++ [fee_student p].
Proof.
  unfold upsertPayment.
  destruct (findIndex _ l) as [i|] eqn:E.
  - apply findIndex_Some in E as (l1 & x & l2 & -> & <- & Hx & _).
    rewrite update_at_app.
    replace (existsb _ _) with true.
    + rewrite !map_app. simpl. apply String.eqb_eq in Hx. now rewrite Hx.
    + symmetry. apply existsb_exists. exists x. split; [|assumption].
      apply in_or_app. right. now left.
  - replace (existsb _ _) with false.
    + now rewrite map_app.
    + symmetry. apply not_true_is_false. intros H.
      apply existsb_exists in H as (x & Hin & Hx).
      now rewrite (findIndex_None _ _ E x Hin) in Hx.
Qed.

Lemma upsertPayment_NoDup (p : FeesPayment) (l : list FeesPayment) :
  NoDup (map fee_student l) -> NoDup (map fee_student (upsertPayment p l)).
Proof.
  intros H. rewrite upsertPayment_students.
  destruct (existsb _ l) eqn:E; [assumption|].
  apply NoDup_app; [assumption|repeat constructor; intros []|].
  intros a Ha [<-|[]].
  apply in_map_iff in Ha as (q & Hq & Hin).
  assert (existsb (fun q => String.eqb (fee_student q) (fee_student p)) l = true).
  { apply existsb_exists. exists q. split; [assumption|]. now apply String.eqb_eq. }
  congruence.
Qed.

Lemma upsertFees_Inv env db h batchId studentId amt method stat remarks :
  Inv db -> Inv (fst (upsertFees env db h batchId studentId amt method stat remarks)).
Proof.
  intros HI. unfold upsertFees. by_cases. simpl. batch_inv.
  apply Inv_save; [assumption|]. apply BatchInv_feesPayments; [assumption|].
  apply upsertPayment_NoDup, HBI.
Qed.

(** *** Timetable *)

Lemma validateEntries_Pure (l : list EntryInput) (u : unit) :
  validateEntries l = Pure u ->
  Forall (fun e => (1 <= hourOf e <= 8)%Z /\ truthy (in_subject e) = true) l.
Proof.
  induction l as [|e l IH]; simpl; intros H; [constructor|].
  invM. constructor; [|now apply IH].
  repeat match goal with
  | H : _ || _ = false |- _ => apply orb_false_iff in H as [? ?]
  | H : negb _ = false |- _ => apply negb_false_iff in H
  end.
  split; [lia|assumption].
Qed.

Lemma storeEntry_hours (l : list EntryInput) :
  Forall (fun e => (1 <= hourOf e <= 8)%Z /\ truthy (in_subject e) = true) l ->
  Forall (fun e => (1 <= hour e <= 8)%Z) (map storeEntry l).
Proof. induction 1 as [|e l [He _] Hl IH]; simpl; constructor; auto. Qed.

Lemma setDay_Inv env db h batchId day entries :
  Inv db -> Inv (fst (setDay env db h batchId day entries)).
Proof.
  intros HI. unfold setDay. by_cases. simpl. batch_inv.
  apply Inv_save; [assumption|]. apply BatchInv_timetable; [assumption|].
  match goal with H : validateEntries _ = Pure _ |- _ =>
    apply validateEntries_Pure, storeEntry_hours in H; revert H end.
  apply Forall_impl. intros e He. lia.
Qed.

Lemma deleteEntry_Inv env db h batchId day hourNum :
  Inv db -> Inv (fst (deleteEntry env db h batchId day hourNum)).
Proof.
  intros HI. unfold deleteEntry. by_cases. simpl. batch_inv.
  apply Inv_save; [assumption|]. apply BatchInv_timetable; [assumption|].
  apply Forall_remove_at, allEntries_getDay, HBI.
Qed.

Lemma clearDay_Inv env db h batchId day :
  Inv db -> Inv (fst (clearDay env db h batchId day)).
Proof.
  intros HI. unfold clearDay. by_cases. simpl. batch_inv.
  apply Inv_save; [assumption|]. now apply BatchInv_timetable.
Qed.

Lemma insertByHour_Forall (P : TimetableEntry -> Prop) (e : TimetableEntry)
    (l : list TimetableEntry) :
  P e -> Forall P l -> Forall P (insertByHour e l).
Proof.
  intros He. induction 1 as [|x l Hx Hl IH]; simpl; [now repeat constructor|].
  destruct (hour e <=? hour x)%Z; repeat constructor; auto.
Qed.

Lemma sortByHour_Forall (P : TimetableEntry -> Prop) (l : list TimetableEntry) :
  Forall P l -> Forall P (sortByHour l).
Proof.
  unfold sortByHour. induction 1; simpl; [constructor|].
  now apply insertByHour_Forall.
Qed.

Lemma upsertDay_Forall (P : TimetableEntry -> Prop) (h : Z) (subj : string)
    (tch st en : option string) (l : list TimetableEntry) :
  (forall e, hour e = h -> P e) -> (forall e, P e -> P (updateEntry subj tch st en e)) ->
  Forall P l -> Forall P (upsertDay h subj tch st en l).
Proof.
  intros Hnew Hupd Hl. unfold upsertDay. apply sortByHour_Forall.
  destruct (findIndex _ l).
  - now apply Forall_update_at.
  - apply Forall_app. split; [assumption|]. repeat constructor. now apply Hnew.
Qed.

Lemma hourOutside_lower (hourNum : option Z) (hi : option Z) :
  hourOutside hourNum 1 hi = false ->
  exists h, hourNum = Some h /\ (1 <= h)%Z.
Proof.
  destruct hourNum as [h|]; simpl; [|discriminate].
  intros H. apply orb_false_iff in H as [H _]. exists h. split; [reflexivity|lia].
Qed.

Lemma upsertEntry_Inv env db h batchId day hourNum subj tch st en :
  Inv db -> Inv (fst (upsertEntry env db h batchId day hourNum subj tch st en)).
Proof.
  intros HI. unfold upsertEntry. by_cases. simpl. batch_inv.
  apply Inv_save; [assumption|]. apply BatchInv_timetable; [assumption|].
  match goal with H : hourOutside _ _ _ = false |- _ =>
    apply hourOutside_lower in H as (k & -> & Hk) end.
  apply upsertDay_Forall.
  - intros e ->. assumption.
  - intros e He. exact He.
  - apply allEntries_getDay, HBI.
Qed.

(** *** Attendance *)

Lemma Attendance_findOne_None (db : DB) (batchId : ObjectId) (d : Z) :
  Attendance_findOne db batchId d = None <->
  ~ In (batchId, d) (map attendanceKey (attendances db)).
Proof.
  unfold Attendance_findOne. split.
  - intros H Hin. apply in_map_iff in Hin as (a & Ha & Hin).
    apply (find_none _ _ H) in Hin. unfold attendanceKey in Ha.
    injection Ha as <- <-. now rewrite String.eqb_refl, Z.eqb_refl in Hin.
  - intros H. destruct (find _ _) as [a|] eqn:E; [|reflexivity].
    exfalso. apply H. apply find_In in E as [Hin Hp].
    apply andb_prop in Hp as [H1 H2].
    apply String.eqb_eq in H1. apply Z.eqb_eq in H2.
    apply in_map_iff. exists a. split; [|assumption].
    unfold attendanceKey. now rewrite H1, H2.
Qed.

Lemma markAttendance_Inv env db h batchId d recs :
  Inv db -> Inv (fst (markAttendance env db h batchId d recs)).
Proof.
  intros HI. unfold markAttendance. by_cases. simpl.
  destruct HI as [HU HB HA]. constructor; simpl; auto.
  rewrite map_app. simpl.
  apply NoDup_app; [assumption|repeat constructor; intros []|].
  intros k Hk [<-|[]]. revert Hk. apply Attendance_findOne_None. simpl.
  match goal with H : isSome ?x = false |- _ => now destruct x end.
Qed.

Lemma map_replace_first_same {A B} (g : A -> B) (p : A -> bool) (y x : A)
    (l : list A) :
  find p l = Some x -> g y = g x -> map g (replace_first p y l) = map g l.
Proof.
  induction l as [|a l IH]; simpl; [discriminate|].
  destruct (p a); intros H Hg; simpl.
  - injection H as ->. now rewrite Hg.
  - now rewrite IH.
Qed.

Lemma NoDup_map_delete_first {A B} (g : A -> B) (p : A -> bool) (l : list A) :
  NoDup (map g l) -> NoDup (map g (delete_first p l)).
Proof.
  induction l as [|a l IH]; simpl; intros H; [constructor|].
  inversion H as [|? ? Hn Hl]; subst.
  destruct (p a); [assumption|]. simpl. constructor; auto.
  intros Hin. apply Hn. apply in_map_iff in Hin as (x & Hx & Hin).
  apply in_map_iff. exists x. split; [assumption|].
  clear - Hin. induction l as [|b l IH]; simpl in *; [contradiction|].
  destruct (p b); [now right|]. destruct Hin as [->|Hin]; auto.
Qed.

Lemma Attendance_findById_Pure env db id (a : Attendance) :
  Attendance_findById env db id = Pure (Some a) ->
  find (fun x => String.eqb (att_id x) id) (attendances db) = Some a /\
  att_id a = id.
Proof.
  unfold Attendance_findById, cast. destruct (isValid env id); simpl; [|discriminate].
  intros [= H]. split; [assumption|].
  apply find_In in H as [_ H]. now apply String.eqb_eq.
Qed.

Lemma updateAttendance_Inv env db h batchId aid recs :
  Inv db -> Inv (fst (updateAttendance env db h batchId aid recs)).
Proof.
  intros HI. unfold updateAttendance. by_cases. simpl.
  destruct HI as [HU HB HA]. constructor; simpl; auto.
  match goal with
  | H : Attendance_findById _ _ _ = Pure (Some ?a),
    H' : match recs with _ => _ end = Pure ?a' |- _ =>
      apply Attendance_findById_Pure in H as [Hf Hi];
      assert (Hk : attendanceKey a' = attendanceKey a /\ att_id a' = att_id a)
        by (destruct recs; invM; auto)
  end.
  destruct Hk as [Hk Hi'].
  erewrite map_replace_first_same; eauto.
  rewrite Hi', Hi. exact Hf.
Qed.

Lemma deleteAttendance_Inv env db h batchId aid :
  Inv db -> Inv (fst (deleteAttendance env db h batchId aid)).
Proof.
  intros HI. unfold deleteAttendance. by_cases. simpl.
  destruct HI as [HU HB HA]. constructor; simpl; auto.
  now apply NoDup_map_delete_first.
Qed.

(** *** All requests *)

Lemma route_Inv (env : Env) (db : DB) (h : option string) (req : Request) :
  Inv db -> Inv (fst (route env db h req)).
Proof.
  destruct req; simpl;
    auto using createBatch_Inv, updateBatch_Inv, deleteBatch_Inv, addStudents_Inv,
      removeStudent_Inv, joinBatch_Inv, createAnnouncement_Inv,
      updateAnnouncement_Inv, deleteAnnouncement_Inv, markAttendance_Inv,
      updateAttendance_Inv, deleteAttendance_Inv, setDay_Inv, deleteEntry_Inv,
      upsertEntry_Inv, clearDay_Inv, createTest_Inv, updateTest_Inv,
      deleteTest_Inv, upsertFees_Inv.
Qed.

Lemma reachable_Inv (db : DB) : reachable db -> Inv db.
Proof.
  induction 1 as [a u Hu|env db h req _ IH].
  - constructor; simpl; auto; constructor.
  - now apply route_Inv.
Qed.

(** ** Early answers are failures *)

Lemma plain_Pure {A} (a : A) : plain (Pure a).
Proof. intros r H. discriminate. Qed.

Lemma plain_Throw {A} (e : Exn) : plain (@Throw A e).
Proof. intros r H. discriminate. Qed.

Lemma plain_bind {A B} (m : M A) (k : A -> M B) :
  plain m -> (forall a, plain (k a)) -> plain (bind m k).
Proof.
  intros Hm Hk r. destruct m as [r'|e|a]; simpl.
  - intros [= <-]. now apply Hm.
  - discriminate.
  - apply Hk.
Qed.

Lemma plain_rejectIf c code msg :
  (400 <=? code)%N = true -> plain (rejectIf c code msg).
Proof.
  intros Hc r. unfold rejectIf. destruct c; [|discriminate].
  intros [= <-]. split; [now apply N.leb_le|reflexivity].
Qed.

Lemma plain_throwIf c e : plain (throwIf c e).
Proof. intros r. unfold throwIf. destruct c; discriminate. Qed.

Lemma plain_orReject {A} (x : option A) code msg :
  (400 <=? code)%N = true -> plain (orReject x code msg).
Proof.
  intros Hc r. destruct x; simpl; [discriminate|].
  intros [= <-]. split; [now apply N.leb_le|reflexivity].
Qed.

Lemma plain_cast env id : plain (cast env id).
Proof. intros r. unfold cast. destruct (isValid env id); discriminate. Qed.

Lemma plain_verify env t : plain (verify env t).
Proof.
  intros r. unfold verify. destruct t as [t|]; [|discriminate].
  destruct (jwt_verify env t); discriminate.
Qed.

Lemma plain_mapM {A B} (f : A -> M B) (l : list A) :
  (forall x, plain (f x)) -> plain (mapM f l).
Proof.
  intros Hf. induction l as [|x l IH]; simpl; [apply plain_Pure|].
  apply plain_bind; [apply Hf|]. intros y.
  apply plain_bind; [apply IH|]. intros ys. apply plain_Pure.
Qed.

Lemma plain_markedByName db a : plain (markedByName db a).
Proof. intros r. unfold markedByName. destruct (find _ _); discriminate. Qed.

Create HintDb plain.

#[local] Hint Resolve plain_Pure plain_Throw plain_throwIf plain_cast
  plain_verify plain_markedByName : plain.

Ltac plain_tac :=
  repeat first
    [ apply plain_bind; [|intro]
    | apply plain_mapM; intro
    | apply plain_rejectIf; reflexivity
    | apply plain_orReject; reflexivity
    | solve [auto with plain]
    | match goal with |- plain (match ?x with _ => _ end) => destruct x end ].

Lemma plain_requireBearer h msg : plain (requireBearer h msg).
Proof. unfold requireBearer. plain_tac. Qed.

Lemma plain_User_findById env db id : plain (User_findById env db id).
Proof. unfold User_findById. plain_tac. Qed.

Lemma plain_AdminUser_findById env db id : plain (AdminUser_findById env db id).
Proof. unfold AdminUser_findById. plain_tac. Qed.

#[local] Hint Resolve plain_requireBearer plain_User_findById
  plain_AdminUser_findById : plain.

Lemma plain_authTeacher env db h msg : plain (authTeacher env db h msg).
Proof. unfold authTeacher. plain_tac. Qed.

Lemma plain_Attendance_find env db b s sd ed : plain (Attendance_find env db b s sd ed).
Proof. unfold Attendance_find. plain_tac. Qed.

Lemma plain_formatOwn db u l : plain (formatOwn db u l).
Proof.
  induction l as [|a l IH]; simpl; [apply plain_Pure|].
  destruct (recordOf u a); [|assumption].
  apply plain_bind; [apply plain_markedByName|]. intros n.
  apply plain_bind; [assumption|]. intros o. apply plain_Pure.
Qed.

Lemma plain_requireParentOf p s msg : plain (requireParentOf p s msg).
Proof. unfold requireParentOf. plain_tac. Qed.

Lemma plain_findBatch env db batchId : plain (findBatch env db batchId).
Proof. unfold findBatch, Batch_findById. plain_tac. Qed.

Lemma plain_requireOwner b t msg : plain (requireOwner b t msg).
Proof. unfold requireOwner. plain_tac. Qed.

Lemma plain_requireDay day : plain (requireDay day).
Proof. unfold requireDay. plain_tac. Qed.

Lemma plain_validateEntries l : plain (validateEntries l).
Proof. induction l; simpl; plain_tac. Qed.

Lemma plain_Attendance_findById env db id : plain (Attendance_findById env db id).
Proof. unfold Attendance_findById. plain_tac. Qed.

#[local] Hint Resolve plain_authTeacher plain_Attendance_find plain_formatOwn
  plain_requireParentOf plain_findBatch plain_requireOwner plain_requireDay
  plain_validateEntries plain_Attendance_findById : plain.

(** A handler whose body does not run to the end answers a failure and
    leaves the database as it was. *)
Lemma handler_fails_or_ends (db : DB) (msg : string) (body : M (DB * Response)) :
  plain body ->
  (fst (handler db msg body) = db /\ failing (snd (handler db msg body))) \/
  exists out, body = Pure out /\ handler db msg body = out.
Proof.
  intros Hp. destruct body as [r|e|out]; simpl.
  - left. split; [reflexivity|]. now apply Hp.
  - left. split; [reflexivity|]. split; [apply N.leb_le|]; reflexivity.
  - right. now exists out.
Qed.

(** Splits on whether the handler failed early or ran to the end. *)
Ltac fails_or_ends :=
  match goal with
  | |- context [handler ?db ?msg ?body] =>
      let out := fresh "out" in let Hb := fresh "Hb" in let E := fresh "E" in
      let Hf := fresh "Hfail" in
      destruct (@handler_fails_or_ends db msg body) as [[E Hf] | (out & Hb & E)];
      [plain_tac | | rewrite E; clear E; invM]
  end.


(** ** Examples run *)

Example db1_is : db1 = {| admins := admins db0; users := users db0;
                          batches := [batch1]; attendances := [] |}.
Proof. vm_compute. reflexivity. Qed.

Lemma reachable_db0 : reachable db0.
Proof. apply reach_init. vm_compute. repeat constructor; simpl; intuition discriminate. Qed.

Lemma reachable_db1 : reachable db1.
Proof. apply reach_step, reachable_db0. Qed.

Lemma reachable_db2 : reachable db2.
Proof. apply reach_step, reachable_db1. Qed.

Lemma reachable_db3 : reachable db3.
Proof. apply reach_step, reachable_db2. Qed.

Lemma reachable_db4 : reachable db4.
Proof. unfold db4. cbv beta zeta. do 4 apply reach_step. exact reachable_db2. Qed.

Lemma reachable_db5 : reachable db5.
Proof. apply reach_step, reachable_db4. Qed.

(** ** Ownership of the batch (C1) *)

(** C1, at its failing inputs.  The batch [batch1] belongs to teacher 1.
    [POST /batches/:batchId/timetable] without any [Authorization] header
    answers 200 and replaces Monday's list, and
    [POST /batches/:batchId/students] with the bearer of teacher 2 answers
    200 and enrols the student: neither handler compares the caller with
    [batch.teacher_id], so neither fails with Forbidden. *)
Theorem C1_setDay_addStudents_unguarded :
  teacher_id batch1 = idT1 /\ idT2 <> idT1 /\
  setDay env2 db1 None idB1 (Some "monday") (Some [entryIn 3 "Algebra"]) =
    (set_batches db1
       [set_updatedAt
          (set_timetable batch1
             (setDayList emptyTimetable monday [entry 3 "Algebra"])) 2000],
     json 200 "Timetable updated successfully") /\
  addStudents env2 db1 (bearer idT2) idB1 (Some [idS1]) =
    (set_batches db1 [set_updatedAt (set_students batch1 [idS1]) 2000],
     json 200 "Students added successfully").
Proof.
  split; [reflexivity|]. split; [discriminate|].
  split; vm_compute; reflexivity.
Qed.

(** ** Reading without a credential (C10) *)

Lemma reads_ignore_header env db (h1 h2 : option string) (batchId : string) :
  getBatch env db h1 batchId = getBatch env db h2 batchId /\
  getAnnouncements env db h1 batchId = getAnnouncements env db h2 batchId /\
  getTimetable env db h1 batchId = getTimetable env db h2 batchId /\
  getFees env db h1 batchId = getFees env db h2 batchId.
Proof. repeat split. Qed.

Lemma reads_answer env db (h : option string) (batchId : string) (b : Batch) :
  batchAt env db batchId b -> batchId <> "" ->
  getBatch env db h batchId = (db, ok (BatchData (viewBatch db b))) /\
  getAnnouncements env db h batchId =
    (db, ok (AnnouncementsData
               (map (fun a => {| av_announcement := a;
                                 av_teacher := populate_admin db (ann_teacher_id a) |})
                  (announcements b)))) /\
  getTimetable env db h batchId = (db, ok (TimetableData (timetable b))) /\
  getFees env db h batchId =
    (db, ok (FeesPaymentsData (map (viewPayment db) (feesPayments b)))).
Proof.
  intros Hb Hne.
  pose proof (batchAt_In Hb) as (_ & _ & Hv).
  apply batchAt_findBatch in Hb.
  unfold getBatch, getAnnouncements, getTimetable, getFees, invalidId.
  rewrite Hb. cbn [orEmpty]. rewrite Hv.
  destruct batchId; [congruence|]. repeat split.
Qed.

(** C10.  The handlers of [GET /batches/:batchId],
    [GET /batches/:batchId/announcements], [GET /batches/:batchId/timetable]
    and [GET /batches/:batchId/fees] check no credential: for an existing
    batch, whatever [Authorization] header the request carries, and also
    when it carries none, the answer is 200 with the batch's details, all
    its announcements, its timetable and its whole fee list; two requests
    with different headers get the same answer. *)
Theorem C10_reads_need_no_credential env db (batchId : string) (b : Batch)
    (h1 h2 : option string) :
  batchAt env db batchId b -> batchId <> "" ->
  (getBatch env db None batchId = (db, ok (BatchData (viewBatch db b))) /\
   getBatch env db h1 batchId = getBatch env db h2 batchId) /\
  (getAnnouncements env db None batchId =
     (db, ok (AnnouncementsData
                (map (fun a => {| av_announcement := a;
                                  av_teacher := populate_admin db (ann_teacher_id a) |})
                   (announcements b)))) /\
   getAnnouncements env db h1 batchId = getAnnouncements env db h2 batchId) /\
  (getTimetable env db None batchId = (db, ok (TimetableData (timetable b))) /\
   getTimetable env db h1 batchId = getTimetable env db h2 batchId) /\
  (getFees env db None batchId =
     (db, ok (FeesPaymentsData (map (viewPayment db) (feesPayments b)))) /\
   getFees env db h1 batchId = getFees env db h2 batchId).
Proof.
  intros Hb Hne.
  destruct (reads_answer None Hb Hne) as (H1 & H2 & H3 & H4).
  destruct (reads_ignore_header env db h1 h2 batchId) as (E1 & E2 & E3 & E4).
  repeat split; assumption.
Qed.

(** The four reads at the batch of the examples, without a header and
    with the header of another teacher. *)
Lemma C10_witness :
  batchAt env1 db3 idB1
    (set_updatedAt
       (set_timetable (set_students batch1 [idS1])
          (setDayList emptyTimetable monday [entry 3 "Algebra"; entry 3 "Geometry"]))
       2000) /\
  getTimetable env1 db3 None idB1 = getTimetable env1 db3 (bearer idT2) idB1 /\
  getBatch env1 db3 None idB1 = getBatch env1 db3 (bearer "x") idB1.
Proof.
  assert (H : batchAt env1 db3 idB1
    (set_updatedAt
       (set_timetable (set_students batch1 [idS1])
          (setDayList emptyTimetable monday [entry 3 "Algebra"; entry 3 "Geometry"]))
       2000)) by (vm_compute; reflexivity).
  assert (Hne : idB1 <> "") by discriminate.
  split; [exact H|].
  pose proof (C10_reads_need_no_credential None (bearer idT2) H Hne) as (_ & _ & (_ & E) & _).
  pose proof (C10_reads_need_no_credential None (bearer "x") H Hne) as ((_ & E') & _).
  split; assumption.
Defined.

(** ** A parent reads the records of their own child only (C2) *)


Lemma linked_iff (student parent : User) :
  notLinked student parent = false <-> parentEmail student = Some (user_email parent).
Proof.
  unfold notLinked. destruct (parentEmail student) as [e|].
  - rewrite negb_false_iff, String.eqb_eq. split; congruence.
  - split; discriminate.
Qed.

Lemma truthy_nonempty (s : string) : s <> "" -> truthy (Some s) = true.
Proof. destruct s; [congruence|reflexivity]. Qed.

Section ParentReads.

Variables (env : Env) (db : DB) (parent student : User).
Variables (h : option string) (tok batchId : string).

(** The accounts exist, the caller is the parent. *)
Hypothesis parent_found : User_findById env db (user_id parent) = Pure (Some parent).
Hypothesis student_found : User_findById env db (user_id student) = Pure (Some student).
Hypothesis parent_role : role parent = "parent".
Hypothesis bearer_tok : presents h tok.
Hypothesis tok_parent : jwt_verify env tok = Some (user_id parent).
Hypothesis student_id_given : user_id student <> "".






End ParentReads.




(** ** One attendance record per batch and date (C3) *)

Lemma markAttendance_first env db h (t : AdminUser) batchId d recs :
  teacherCalls env db h t -> isValid env batchId = true ->
  Attendance_findOne db batchId d = None ->
  validRecords env (recordsOrNone recs) = true ->
  markAttendance env db h batchId d recs =
    (set_attendances db
       (attendances db ++
        [{| att_id := newObjectId env; att_batch_id := batchId; date := d;
            records := recordsOrNone recs; marked_by := admin_id t |}]),
     json 201 "Attendance marked successfully").
Proof.
  intros Ht Hv Hnone Hrec. unfold markAttendance.
  rewrite (authTeacher_ok _ Ht). unfold cast. rewrite Hv. simpl.
  rewrite Hnone. simpl. fold (recordsOrNone recs). now rewrite Hrec.
Qed.

Lemma markAttendance_again env db h (t : AdminUser) batchId d recs :
  teacherCalls env db h t -> isValid env batchId = true ->
  Attendance_findOne db batchId d <> None ->
  markAttendance env db h batchId d recs =
    (db, json 400 "Attendance already marked for this date").
Proof.
  intros Ht Hv Hsome. unfold markAttendance.
  rewrite (authTeacher_ok _ Ht). unfold cast. rewrite Hv. simpl.
  destruct (Attendance_findOne db batchId d); [reflexivity|congruence].
Qed.

(** Whoever asks, a date already marked is not marked again. *)
Lemma markAttendance_never_twice env db h batchId d recs :
  Attendance_findOne db batchId d <> None ->
  fst (markAttendance env db h batchId d recs) = db /\
  status (snd (markAttendance env db h batchId d recs)) <> 201%N.
Proof.
  intros Hsome. unfold markAttendance. fails_or_ends.
  - split; [assumption|]. destruct Hfail as [Hs _]. intros E'. rewrite E' in Hs.
    now apply N.leb_le in Hs.
  - exfalso. apply Hsome.
    match goal with H : isSome ?x = false |- _ => now destruct x end.
Qed.

Lemma Attendance_findOne_app db batchId d (a : Attendance) :
  att_batch_id a = batchId -> date a = d ->
  Attendance_findOne (set_attendances db (attendances db ++ [a])) batchId d <> None.
Proof.
  intros Hb Hd H. apply Attendance_findOne_None in H. apply H. simpl.
  rewrite map_app. apply in_or_app. right. left.
  unfold attendanceKey. now rewrite Hb, Hd.
Qed.

Lemma updateAttendance_other_batch env db h (t : AdminUser) batchId (b : Batch)
    attendanceId (a : Attendance) recs :
  teacherCalls env db h t -> batchAt env db batchId b ->
  teacher_id b = admin_id t ->
  Attendance_findById env db attendanceId = Pure (Some a) ->
  att_batch_id a <> batchId ->
  updateAttendance env db h batchId attendanceId recs =
    (db, json 400 "Attendance record does not belong to this batch").
Proof.
  intros Ht Hb Ho Ha Hne. unfold updateAttendance.
  rewrite (authTeacher_ok _ Ht), (batchAt_findBatch Hb). simpl.
  unfold requireOwner. rewrite Ho, String.eqb_refl. simpl.
  rewrite Ha. simpl.
  apply String.eqb_neq in Hne. now rewrite Hne.
Qed.

Lemma updateAttendance_same_batch env db h (t : AdminUser) batchId (b : Batch)
    attendanceId (a : Attendance) (l : list AttendanceRecord) :
  teacherCalls env db h t -> batchAt env db batchId b ->
  teacher_id b = admin_id t ->
  Attendance_findById env db attendanceId = Pure (Some a) ->
  att_batch_id a = batchId -> validRecords env l = true ->
  updateAttendance env db h batchId attendanceId (Some l) =
    (Attendance_save db (set_records a l), json 200 "Attendance updated successfully").
Proof.
  intros Ht Hb Ho Ha He Hrec. unfold updateAttendance.
  rewrite (authTeacher_ok _ Ht), (batchAt_findBatch Hb). simpl.
  unfold requireOwner. rewrite Ho, String.eqb_refl. simpl.
  rewrite Ha. simpl. rewrite He, String.eqb_refl. simpl. now rewrite Hrec.
Qed.

(** C3 as stated fails: the key of a record is the instant that
    [new Date(date)] denotes, not its calendar day.  Two marks of one
    batch, at 10:05 and at 10:06 of the second of January 1970 (UTC), are
    both answered 201, and the batch then has two records for that day. *)
Lemma C3_counterexample :
  (let first :=
     markAttendance env3 db2 (bearer idT1) idB1 122700000
       (Some [presentRecord idS1]) in
   let second :=
     markAttendance env4 (fst first) (bearer idT1) idB1 122760000
       (Some [absentRecord idS1]) in
   calendarDate 122760000 = calendarDate 122700000 /\
   snd first = json 201 "Attendance marked successfully" /\
   snd second = json 201 "Attendance marked successfully" /\
   map (fun a => (att_batch_id a, calendarDate (date a)))
     (attendances (fst second)) = [(idB1, 1%Z); (idB1, 1%Z)]) /\
  ~ (forall env env' db h h' batchId d d' recs recs',
       status (snd (markAttendance env db h batchId d recs)) = 201%N ->
       calendarDate d' = calendarDate d ->
       status (snd (markAttendance env'
                      (fst (markAttendance env db h batchId d recs))
                      h' batchId d' recs')) <> 201%N).
Proof.
  assert (E1 : snd (markAttendance env3 db2 (bearer idT1) idB1 122700000
                      (Some [presentRecord idS1])) =
               json 201 "Attendance marked successfully")
    by (vm_compute; reflexivity).
  assert (E2 : snd (markAttendance env4
                      (fst (markAttendance env3 db2 (bearer idT1) idB1 122700000
                              (Some [presentRecord idS1])))
                      (bearer idT1) idB1 122760000 (Some [absentRecord idS1])) =
               json 201 "Attendance marked successfully")
    by (vm_compute; reflexivity).
  split.
  - cbv zeta. split; [reflexivity|]. split; [exact E1|]. split; [exact E2|].
    vm_compute. reflexivity.
  - intros Hall.
    apply (Hall env3 env4 db2 (bearer idT1) (bearer idT1) idB1 122700000%Z
             122760000%Z (Some [presentRecord idS1]) (Some [absentRecord idS1])).
    + rewrite E1. reflexivity.
    + reflexivity.
    + rewrite E2. reflexivity.
Qed.

(** C3, amended.  Attendance is kept once per batch and instant, the
    instant being the one that [new Date(date)] makes of the request's
    [date]; the batch identifier of a mark is written as the server prints
    it.
    - A teacher's mark for a (batch, instant) without a record creates one
      record, with that batch, instant, records and teacher.
    - A mark for a (batch, instant) that has a record changes nothing and
      does not answer 201; from a teacher it is answered 400.  So a second
      mark after a first one, for the same batch and instant, fails.
    - In every reachable state no two attendance records have the same
      (batch_id, instant).
    - An update by the owner of the batch named in the request, of an
      existing record of another batch, is answered 400 and changes
      nothing; of a record of that batch, it replaces the records. *)
Theorem C3_attendance_once_per_instant_amended :
  (forall env db h (t : AdminUser) batchId d recs,
     teacherCalls env db h t -> isValid env batchId = true -> printed batchId ->
     Attendance_findOne db batchId d = None ->
     validRecords env (recordsOrNone recs) = true ->
     markAttendance env db h batchId d recs =
       (set_attendances db
          (attendances db ++
           [{| att_id := newObjectId env; att_batch_id := batchId; date := d;
               records := recordsOrNone recs; marked_by := admin_id t |}]),
        json 201 "Attendance marked successfully")) /\
  (forall env db h batchId d recs,
     Attendance_findOne db batchId d <> None ->
     fst (markAttendance env db h batchId d recs) = db /\
     status (snd (markAttendance env db h batchId d recs)) <> 201%N) /\
  (forall env db h (t : AdminUser) batchId d recs,
     teacherCalls env db h t -> isValid env batchId = true ->
     Attendance_findOne db batchId d <> None ->
     markAttendance env db h batchId d recs =
       (db, json 400 "Attendance already marked for this date")) /\
  (forall env env' db h h' (t t' : AdminUser) batchId d recs recs',
     teacherCalls env db h t -> isValid env batchId = true -> printed batchId ->
     Attendance_findOne db batchId d = None ->
     validRecords env (recordsOrNone recs) = true ->
     teacherCalls env' db h' t' -> isValid env' batchId = true ->
     let db1 := fst (markAttendance env db h batchId d recs) in
     markAttendance env' db1 h' batchId d recs' =
       (db1, json 400 "Attendance already marked for this date")) /\
  (forall db, reachable db -> NoDup (map attendanceKey (attendances db))) /\
  (forall env db h (t : AdminUser) batchId (b : Batch) attendanceId
          (a : Attendance) recs,
     teacherCalls env db h t -> batchAt env db batchId b ->
     teacher_id b = admin_id t ->
     Attendance_findById env db attendanceId = Pure (Some a) ->
     att_batch_id a <> batchId ->
     updateAttendance env db h batchId attendanceId recs =
       (db, json 400 "Attendance record does not belong to this batch")) /\
  (forall env db h (t : AdminUser) batchId (b : Batch) attendanceId
          (a : Attendance) (l : list AttendanceRecord),
     teacherCalls env db h t -> batchAt env db batchId b ->
     teacher_id b = admin_id t ->
     Attendance_findById env db attendanceId = Pure (Some a) ->
     att_batch_id a = batchId -> validRecords env l = true ->
     updateAttendance env db h batchId attendanceId (Some l) =
       (Attendance_save db (set_records a l),
        json 200 "Attendance updated successfully")).
Proof.
  split; [intros env db h t batchId d recs Ht Hv _; now apply markAttendance_first|].
  split; [exact markAttendance_never_twice|].
  split; [exact markAttendance_again|].
  split.
  - intros env env' db h h' t t' batchId d recs recs' Ht Hv _ Hn Hr Ht' Hv' db1.
    pose proof (@markAttendance_first env db h t batchId d recs Ht Hv Hn Hr) as E1.
    unfold db1. rewrite E1. simpl.
    apply markAttendance_again with (t := t'); auto.
    now apply Attendance_findOne_app.
  - split; [intros db Hr; apply reachable_Inv, Hr|].
    split; [exact updateAttendance_other_batch|exact updateAttendance_same_batch].
Qed.

(** A first and a second mark for the same instant, and an update that
    names the second batch for a record of the first. *)
Lemma C3_witness :
  (let first :=
     markAttendance env3 db2 (bearer idT1) idB1 86400000 (Some [presentRecord idS1]) in
   snd first = json 201 "Attendance marked successfully" /\
   List.length (attendances (fst first)) = 1 /\
   markAttendance env4 (fst first) (bearer idT2) idB1 86400000
     (Some [absentRecord idS1]) =
     (fst first, json 400 "Attendance already marked for this date")) /\
  NoDup (map attendanceKey (attendances db5)) /\
  updateAttendance env3 db5 (bearer idT1) idB2 idA1 (Some [absentRecord idS1]) =
    (db5, json 400 "Attendance record does not belong to this batch").
Proof.
  destruct C3_attendance_once_per_instant_amended
    as (Hfirst & _ & _ & Htwice & Hinv & Hother & _).
  assert (Ht1 : forall env db, admins db = admins db0 -> isValid env = isHex24 ->
                               teacherCalls env db (bearer idT1) teacher1).
  { intros env db Ha Hv. split; [split; reflexivity|].
    unfold AdminUser_findById, cast. rewrite Ha, Hv. reflexivity. }
  assert (Ht2 : forall env db, admins db = admins db0 -> isValid env = isHex24 ->
                               teacherCalls env db (bearer idT2) teacher2).
  { intros env db Ha Hv. split; [split; reflexivity|].
    unfold AdminUser_findById, cast. rewrite Ha, Hv. reflexivity. }
  split; [|split].
  - cbv zeta.
    rewrite (Hfirst env3 db2 (bearer idT1) teacher1 idB1 86400000%Z
               (Some [presentRecord idS1]) (Ht1 env3 db2 eq_refl eq_refl)
               eq_refl eq_refl eq_refl eq_refl).
    split; [reflexivity|]. split; [reflexivity|].
    pose proof (Htwice env3 env4 db2 (bearer idT1) (bearer idT2) teacher1 teacher2
                  idB1 86400000%Z (Some [presentRecord idS1])
                  (Some [absentRecord idS1])
                  (Ht1 env3 db2 eq_refl eq_refl) eq_refl eq_refl eq_refl eq_refl
                  (Ht2 env4 db2 eq_refl eq_refl) eq_refl) as H2.
    cbv zeta in H2.
    rewrite (Hfirst env3 db2 (bearer idT1) teacher1 idB1 86400000%Z
               (Some [presentRecord idS1]) (Ht1 env3 db2 eq_refl eq_refl)
               eq_refl eq_refl eq_refl eq_refl) in H2.
    exact H2.
  - apply Hinv. exact reachable_db5.
  - apply (Hother env3 db5 (bearer idT1) teacher1 idB2
             {| batch_id := idB2; batch_name := "Physics"; batch_code := "PHY-10A";
                 class := "10"; teacher_id := idT1; students := [];
                 feesPayments := []; announcements := [];
                 timetable := emptyTimetable; testResults := [];
                 createdAt := 2000; updatedAt := 2000 |}
             idA1
             {| att_id := idA1; att_batch_id := idB1; date := 345600000;
                records := [presentRecord idS1]; marked_by := idT1 |}).
    + apply Ht1; reflexivity.
    + vm_compute. reflexivity.
    + reflexivity.
    + vm_compute. reflexivity.
    + discriminate.
Defined.

(** ** One fee record per student (C4) *)

Lemma feeRequestOk_inv env batchId studentId amt method stat :
  feeRequestOk env batchId studentId amt method stat = true ->
  invalidId env (Some batchId) = false /\ invalidId env studentId = false /\
  invalidAmount amt = false /\ notOneOf method ["online"; "offline"] = false /\
  notOneOf stat ["paid"; "pending"; "overdue"] = false.
Proof.
  unfold feeRequestOk. rewrite !andb_true_iff, !negb_true_iff. tauto.
Qed.

Lemma feeRequestOk_values env batchId studentId amt method stat :
  feeRequestOk env batchId studentId amt method stat = true ->
  Some (orEmpty studentId) = studentId /\ Some (numOr0 amt) = amt /\
  Some (orEmpty method) = method /\ Some (orEmpty stat) = stat.
Proof.
  intros H. apply feeRequestOk_inv in H as (_ & Hs & Ha & Hm & Hst).
  unfold invalidId, notOneOf in *.
  destruct studentId, amt, method, stat; simpl in *; try discriminate.
  repeat split.
Qed.

Lemma upsertFees_enrolled env db h batchId (b : Batch) studentId amt method stat remarks :
  feeRequestOk env batchId studentId amt method stat = true ->
  batchAt env db batchId b -> In (orEmpty studentId) (students b) ->
  upsertFees env db h batchId studentId amt method stat remarks =
    (Batch_save env db
       (set_feesPayments b
          (upsertPayment (paymentData env (orEmpty studentId) amt method stat remarks)
             (feesPayments b))),
     json 200 "Fees payment record updated successfully").
Proof.
  intros Hok Hb Hin. apply feeRequestOk_inv in Hok as (H1 & H2 & H3 & H4 & H5).
  unfold upsertFees. rewrite H1, H2, H3, H4, H5, (batchAt_findBatch Hb). simpl.
  apply includes_In in Hin. now rewrite Hin.
Qed.

Lemma upsertFees_not_enrolled env db h batchId (b : Batch) studentId amt method stat
    remarks :
  feeRequestOk env batchId studentId amt method stat = true ->
  batchAt env db batchId b -> ~ In (orEmpty studentId) (students b) ->
  upsertFees env db h batchId studentId amt method stat remarks =
    (db, json 404 "Student not found in this batch").
Proof.
  intros Hok Hb Hin. apply feeRequestOk_inv in Hok as (H1 & H2 & H3 & H4 & H5).
  unfold upsertFees. rewrite H1, H2, H3, H4, H5, (batchAt_findBatch Hb). simpl.
  apply includes_not_In in Hin. now rewrite Hin.
Qed.

Lemma upsertFees_outsider env db h batchId (b : Batch) studentId amt method stat
    remarks :
  batchAt env db batchId b -> ~ In (orEmpty studentId) (students b) ->
  fst (upsertFees env db h batchId studentId amt method stat remarks) = db /\
  failing (snd (upsertFees env db h batchId studentId amt method stat remarks)).
Proof.
  intros Hb Hin. unfold upsertFees. fails_or_ends; [now split|].
  exfalso. apply Hin.
  match goal with Hat : batchAt _ _ _ ?a |- _ =>
    unfold batchAt in Hat, Hb; rewrite Hb in Hat; injection Hat as <- end.
  apply includes_In.
  match goal with H : negb ?x = false |- _ => now destruct x end.
Qed.

Lemma paymentsOf_outside (sid : string) (l : list FeesPayment) :
  ~ In sid (map fee_student l) -> paymentsOf sid l = [].
Proof.
  unfold paymentsOf. induction l as [|q l IH]; simpl; [reflexivity|].
  intros H. destruct (String.eqb (fee_student q) sid) eqn:E.
  - apply String.eqb_eq in E. exfalso. apply H. now left.
  - apply IH. intros Hin. apply H. now right.
Qed.

Lemma paymentsOf_upsert (p : FeesPayment) (l : list FeesPayment) :
  NoDup (map fee_student l) ->
  paymentsOf (fee_student p) (upsertPayment p l) = [p].
Proof.
  intros Hnd. unfold upsertPayment.
  destruct (findIndex _ l) as [i|] eqn:E.
  - apply findIndex_Some in E as (l1 & x & l2 & -> & <- & Hx & Hl1).
    rewrite update_at_app. apply String.eqb_eq in Hx.
    rewrite map_app in Hnd. simpl in Hnd.
    apply NoDup_remove_2 in Hnd. rewrite Hx in Hnd.
    unfold paymentsOf. rewrite filter_app. simpl. rewrite String.eqb_refl.
    fold (paymentsOf (fee_student p) l1). fold (paymentsOf (fee_student p) l2).
    rewrite !paymentsOf_outside; [reflexivity| |];
      intros Hin; apply Hnd, in_or_app; auto.
  - unfold paymentsOf. rewrite filter_app. simpl. rewrite String.eqb_refl.
    fold (paymentsOf (fee_student p) l). rewrite paymentsOf_outside; [reflexivity|].
    intros Hin. apply in_map_iff in Hin as (q & Hq & Hin).
    apply (findIndex_None _ _ E) in Hin. apply String.eqb_neq in Hin. congruence.
Qed.

Lemma paymentsOf_upsert_other (sid : string) (p : FeesPayment) (l : list FeesPayment) :
  sid <> fee_student p -> paymentsOf sid (upsertPayment p l) = paymentsOf sid l.
Proof.
  intros Hne. unfold upsertPayment.
  assert (Hp : String.eqb (fee_student p) sid = false)
    by (apply String.eqb_neq; congruence).
  destruct (findIndex _ l) as [i|] eqn:E.
  - apply findIndex_Some in E as (l1 & x & l2 & -> & <- & Hx & Hl1).
    rewrite update_at_app. apply String.eqb_eq in Hx.
    unfold paymentsOf. rewrite !filter_app. simpl. now rewrite Hx, Hp.
  - unfold paymentsOf. rewrite filter_app. simpl. rewrite Hp. apply app_nil_r.
Qed.

(** Two upserts for an enrolled student, one after the other. *)
Lemma upsertFees_twice env1 env2 db h1 h2 batchId (b : Batch) studentId
    a1 m1 s1 r1 a2 m2 s2 r2 :
  NoDup (map fee_student (feesPayments b)) ->
  batchAt env1 db batchId b -> isValid env2 batchId = true ->
  In (orEmpty studentId) (students b) ->
  feeRequestOk env1 batchId studentId a1 m1 s1 = true ->
  feeRequestOk env2 batchId studentId a2 m2 s2 = true ->
  let out1 := upsertFees env1 db h1 batchId studentId a1 m1 s1 r1 in
  let out2 := upsertFees env2 (fst out1) h2 batchId studentId a2 m2 s2 r2 in
  snd out1 = json 200 "Fees payment record updated successfully" /\
  snd out2 = json 200 "Fees payment record updated successfully" /\
  exists b2,
    batchAt env2 (fst out2) batchId b2 /\ students b2 = students b /\
    paymentsOf (orEmpty studentId) (feesPayments b2) =
      [paymentData env2 (orEmpty studentId) a2 m2 s2 r2] /\
    forall other, other <> orEmpty studentId ->
      paymentsOf other (feesPayments b2) = paymentsOf other (feesPayments b).
Proof.
  intros Hnd Hb Hv2 Hin Hok1 Hok2 out1 out2.
  pose proof (batchAt_In Hb) as (_ & Hid & _).
  assert (E1 : out1 = _) by (apply upsertFees_enrolled with (b := b); assumption).
  set (b1 := set_feesPayments b
               (upsertPayment (paymentData env1 (orEmpty studentId) a1 m1 s1 r1)
                  (feesPayments b))) in *.
  assert (Hb1 : batchAt env2 (fst out1) batchId (set_updatedAt b1 (now env1))).
  { rewrite E1. simpl. apply batchAt_save with (b := b); auto. }
  assert (E2 : out2 = _)
    by (apply upsertFees_enrolled with (b := set_updatedAt b1 (now env1));
        [assumption|assumption|exact Hin]).
  set (b2 := set_feesPayments (set_updatedAt b1 (now env1))
               (upsertPayment (paymentData env2 (orEmpty studentId) a2 m2 s2 r2)
                  (feesPayments (set_updatedAt b1 (now env1))))) in *.
  split; [now rewrite E1|]. split; [now rewrite E2|].
  exists (set_updatedAt b2 (now env2)). split; [|split; [reflexivity|split]].
  - rewrite E2. simpl. apply batchAt_save with (b := set_updatedAt b1 (now env1)); auto.
  - simpl.
    change (orEmpty studentId)
      with (fee_student (paymentData env2 (orEmpty studentId) a2 m2 s2 r2)) at 1.
    apply paymentsOf_upsert. now apply upsertPayment_NoDup.
  - intros other Hne. simpl. rewrite !paymentsOf_upsert_other; auto.
Qed.

(** C4.
    - A well-formed fee upsert for a student who is not in [batch.students]
      is answered 404 and changes nothing; whatever its fields, an upsert
      for such a student fails and changes nothing.
    - In a reachable state, after two well-formed upserts in a row for an
      enrolled student, both answered 200, the batch holds exactly one fee
      record of that student; its amount, method, status and remarks are
      those of the second request (no remarks are stored as the empty
      string), and the records of the other students are as before. *)
Theorem C4_fee_payment_upsert :
  (forall env db h batchId (b : Batch) studentId amt method stat remarks,
     feeRequestOk env batchId studentId amt method stat = true ->
     batchAt env db batchId b -> ~ In (orEmpty studentId) (students b) ->
     upsertFees env db h batchId studentId amt method stat remarks =
       (db, json 404 "Student not found in this batch")) /\
  (forall env db h batchId (b : Batch) studentId amt method stat remarks,
     batchAt env db batchId b -> ~ In (orEmpty studentId) (students b) ->
     fst (upsertFees env db h batchId studentId amt method stat remarks) = db /\
     failing (snd (upsertFees env db h batchId studentId amt method stat remarks))) /\
  (forall env1 env2 db h1 h2 batchId (b : Batch) studentId a1 m1 s1 r1 a2 m2 s2 r2,
     reachable db ->
     batchAt env1 db batchId b -> isValid env2 batchId = true ->
     In (orEmpty studentId) (students b) ->
     feeRequestOk env1 batchId studentId a1 m1 s1 = true ->
     feeRequestOk env2 batchId studentId a2 m2 s2 = true ->
     let out1 := upsertFees env1 db h1 batchId studentId a1 m1 s1 r1 in
     let out2 := upsertFees env2 (fst out1) h2 batchId studentId a2 m2 s2 r2 in
     status (snd out1) = 200%N /\ status (snd out2) = 200%N /\
     exists b2 p,
       batchAt env2 (fst out2) batchId b2 /\
       paymentsOf (orEmpty studentId) (feesPayments b2) = [p] /\
       Some (fee_student p) = studentId /\
       Some (amount p) = a2 /\ Some (paymentMethod p) = m2 /\
       Some (fee_status p) = s2 /\ fee_remarks p = orEmpty r2 /\
       forall other, other <> orEmpty studentId ->
         paymentsOf other (feesPayments b2) = paymentsOf other (feesPayments b)).
Proof.
  split; [exact upsertFees_not_enrolled|]. split; [exact upsertFees_outsider|].
  intros env1 env2 db h1 h2 batchId b studentId a1 m1 s1 r1 a2 m2 s2 r2
    Hr Hb Hv2 Hin Hok1 Hok2 out1 out2.
  assert (Hnd : NoDup (map fee_student (feesPayments b))).
  { apply reachable_Inv in Hr. pose proof (batchAt_In Hb) as (Hb' & _).
    apply (@Inv_In db b Hr Hb'). }
  destruct (@upsertFees_twice env1 env2 db h1 h2 batchId b studentId
              a1 m1 s1 r1 a2 m2 s2 r2 Hnd Hb Hv2 Hin Hok1 Hok2)
    as (E1 & E2 & b2 & Hb2 & _ & Hp & Hothers).
  fold out1 in E1. fold out1 out2 in E2, Hb2.
  split; [now rewrite E1|]. split; [now rewrite E2|].
  exists b2, (paymentData env2 (orEmpty studentId) a2 m2 s2 r2).
  destruct (@feeRequestOk_values _ _ _ _ _ _ Hok2) as (V1 & V2 & V3 & V4).
  repeat split; auto.
Qed.

(** A fee upsert for a student outside the batch, and two upserts for
    student 1. *)
Lemma C4_witness :
  upsertFees env3 db2 None idB1 (Some idS2) (Some 500%float) (Some "online")
    (Some "paid") None = (db2, json 404 "Student not found in this batch") /\
  (let out1 := upsertFees env3 db2 None idB1 (Some idS1) (Some 500%float)
                 (Some "offline") (Some "pending") (Some "first instalment") in
   let out2 := upsertFees env4 (fst out1) None idB1 (Some idS1) (Some 750%float)
                 (Some "online") (Some "paid") None in
   exists b2 p,
     batchAt env4 (fst out2) idB1 b2 /\
     paymentsOf idS1 (feesPayments b2) = [p] /\
     Some (amount p) = Some 750%float /\ Some (paymentMethod p) = Some "online" /\
     Some (fee_status p) = Some "paid" /\ fee_remarks p = "").
Proof.
  destruct C4_fee_payment_upsert as (Hout & _ & Htwice).
  assert (Hb : batchAt env3 db2 idB1 (set_updatedAt (set_students batch1 [idS1]) 2000))
    by (vm_compute; reflexivity).
  split.
  - apply (Hout env3 db2 None idB1 _ (Some idS2) (Some 500%float) (Some "online")
             (Some "paid") None eq_refl Hb).
    simpl. intros [H|[]]. discriminate.
  - cbv zeta.
    destruct (Htwice env3 env4 db2 None None idB1 _ (Some idS1)
                (Some 500%float) (Some "offline") (Some "pending")
                (Some "first instalment")
                (Some 750%float) (Some "online") (Some "paid") None
                reachable_db2 Hb eq_refl (or_introl eq_refl) eq_refl eq_refl)
      as (_ & _ & b2 & p & H1 & H2 & _ & H3 & H4 & H5 & H6 & _).
    exists b2, p. repeat split; assumption.
Defined.

(** ** The timetable handlers *)

Lemma dayOf_includes (day : string) (d : Day) :
  dayOf day = Some d -> includes (toLowerCase day) validDays = true.
Proof.
  unfold dayOf.
  repeat match goal with
  | |- context [String.eqb ?a ?b] =>
      destruct (String.eqb_spec a b) as [->|_]; [intros _; reflexivity|]
  end.
  discriminate.
Qed.

Lemma requireDay_ok (day : string) (d : Day) :
  dayOf day = Some d -> requireDay day = Pure d.
Proof.
  intros H. unfold requireDay. rewrite (dayOf_includes _ H). simpl. now rewrite H.
Qed.

Lemma validateEntries_rejects (l : list EntryInput) :
  existsb rejectedEntry l = true ->
  validateEntries l =
    Respond (json 400 "Each timetable entry must have hour and subject") \/
  validateEntries l = Respond (json 400 "Hour must be between 1 and 8").
Proof.
  induction l as [|e l IH]; simpl; [discriminate|].
  unfold rejectedEntry at 1.
  destruct (Z.eqb_spec (hourOf e) 0) as [E0|N0]; simpl; [now left|].
  destruct (truthy (in_subject e)); simpl; [|now left].
  destruct (hourOf e <? 1)%Z; simpl; [now right|].
  destruct (8 <? hourOf e)%Z; simpl; [now right|].
  exact IH.
Qed.

Lemma validateEntries_accepts (l : list EntryInput) :
  existsb rejectedEntry l = false -> validateEntries l = Pure tt.
Proof.
  induction l as [|e l IH]; simpl; [reflexivity|].
  unfold rejectedEntry at 1. intros H.
  apply orb_false_iff in H as [H Hl]. apply orb_false_iff in H as [H Hs].
  apply orb_false_iff in H as [H1 H8]. apply negb_false_iff in Hs.
  replace (hourOf e =? 0)%Z with false by (symmetry; apply Z.eqb_neq; lia).
  rewrite Hs, H1, H8. simpl. now apply IH.
Qed.

Lemma setDay_rejects env db h batchId (day : string) (d : Day) (l : list EntryInput) :
  dayOf day = Some d -> existsb rejectedEntry l = true ->
  setDay env db h batchId (Some day) (Some l) =
    (db, json 400 "Each timetable entry must have hour and subject") \/
  setDay env db h batchId (Some day) (Some l) =
    (db, json 400 "Hour must be between 1 and 8").
Proof.
  intros Hd Hl. unfold setDay. simpl. rewrite (requireDay_ok _ Hd). simpl.
  destruct (validateEntries_rejects _ Hl) as [E|E]; rewrite E; auto.
Qed.

Lemma setDay_never_stores_rejected env db h batchId day (l : list EntryInput) :
  existsb rejectedEntry l = true ->
  fst (setDay env db h batchId day (Some l)) = db /\
  failing (snd (setDay env db h batchId day (Some l))).
Proof.
  intros Hl. unfold setDay. fails_or_ends; [now split|].
  exfalso.
  match goal with H : validateEntries _ = Pure _ |- _ =>
    destruct (validateEntries_rejects _ Hl) as [E|E]; rewrite E in H; discriminate
  end.
Qed.

Lemma setDay_accepts env db h batchId (b : Batch) (day : string) (d : Day)
    (l : list EntryInput) :
  dayOf day = Some d -> existsb rejectedEntry l = false ->
  batchAt env db batchId b ->
  setDay env db h batchId (Some day) (Some l) =
    (Batch_save env db
       (set_timetable b (setDayList (timetable b) d (map storeEntry l))),
     json 200 "Timetable updated successfully").
Proof.
  intros Hd Hl Hb. unfold setDay. simpl. rewrite (requireDay_ok _ Hd). simpl.
  rewrite (validateEntries_accepts _ Hl). simpl.
  now rewrite (batchAt_findBatch Hb).
Qed.

Lemma upsertEntry_rejects env db h (t : AdminUser) batchId (day : string) (d : Day)
    hourNum subj tch st en :
  teacherCalls env db h t -> truthy subj = true -> dayOf day = Some d ->
  hourOutside hourNum 1 None = true ->
  upsertEntry env db h batchId day hourNum subj tch st en =
    (db, json 400 "Hour must be a positive number").
Proof.
  intros Ht Hs Hd Hh. unfold upsertEntry.
  rewrite (authTeacher_ok _ Ht). simpl. rewrite Hs. simpl.
  rewrite (requireDay_ok _ Hd). simpl. now rewrite Hh.
Qed.

Lemma upsertEntry_never_stores_low env db h batchId day hourNum subj tch st en :
  hourOutside hourNum 1 None = true ->
  fst (upsertEntry env db h batchId day hourNum subj tch st en) = db /\
  failing (snd (upsertEntry env db h batchId day hourNum subj tch st en)).
Proof.
  intros Hh. unfold upsertEntry. fails_or_ends; [now split|]. congruence.
Qed.

Lemma upsertEntry_accepts env db h (t : AdminUser) batchId (b : Batch)
    (day : string) (d : Day) (k : Z) subj tch st en :
  teacherCalls env db h t -> truthy subj = true -> dayOf day = Some d ->
  (1 <= k)%Z -> batchAt env db batchId b -> teacher_id b = admin_id t ->
  upsertEntry env db h batchId day (Some k) subj tch st en =
    (Batch_save env db
       (set_timetable b
          (setDayList (timetable b) d
             (upsertDay k (orEmpty subj) tch st en (getDay (timetable b) d)))),
     json 200 "Timetable entry updated successfully").
Proof.
  intros Ht Hs Hd Hk Hb Ho. unfold upsertEntry.
  rewrite (authTeacher_ok _ Ht). simpl. rewrite Hs. simpl.
  rewrite (requireDay_ok _ Hd). simpl.
  replace (k <? 1)%Z with false by (symmetry; apply Z.ltb_ge; lia). simpl.
  rewrite (batchAt_findBatch Hb). simpl.
  unfold requireOwner. now rewrite Ho, String.eqb_refl.
Qed.

Lemma getDay_setDayList (t : Timetable) (d : Day) (l : list TimetableEntry) :
  getDay (setDayList t d l) d = l.
Proof. now destruct d. Qed.

(** *** Sorting *)

Lemma insertByHour_sorted (e : TimetableEntry) (l : list TimetableEntry) :
  sortedByHour l -> sortedByHour (insertByHour e l).
Proof.
  unfold sortedByHour. induction 1 as [|x l Hl IH Hx]; simpl.
  - repeat constructor.
  - destruct (Z.leb_spec (hour e) (hour x)) as [Hle|Hgt].
    + constructor; [now constructor|]. constructor; [assumption|].
      revert Hx. apply Forall_impl. intros y Hy. simpl in *. lia.
    + constructor; [assumption|].
      apply insertByHour_Forall; [simpl; lia|assumption].
Qed.

Lemma sortByHour_sorted (l : list TimetableEntry) : sortedByHour (sortByHour l).
Proof.
  unfold sortByHour. induction l as [|e l IH]; simpl; [constructor|].
  now apply insertByHour_sorted.
Qed.

Lemma insertByHour_perm (e : TimetableEntry) (l : list TimetableEntry) :
  Permutation (e :: l) (insertByHour e l).
Proof.
  induction l as [|x l IH]; simpl; [reflexivity|].
  destruct (hour e <=? hour x)%Z; [reflexivity|].
  rewrite perm_swap. now constructor.
Qed.

Lemma sortByHour_perm (l : list TimetableEntry) : Permutation l (sortByHour l).
Proof.
  unfold sortByHour. induction l as [|e l IH]; simpl; [constructor|].
  rewrite <- insertByHour_perm. now constructor.
Qed.

Lemma atHour_perm (h : Z) (l l' : list TimetableEntry) :
  Permutation l l' -> List.length (atHour h l) = List.length (atHour h l').
Proof.
  unfold atHour. induction 1; simpl; auto.
  - destruct (hour x =? h)%Z; simpl; auto.
  - destruct (hour x =? h)%Z, (hour y =? h)%Z; reflexivity.
  - congruence.
Qed.

Lemma atHour_none (h : Z) (l : list TimetableEntry) :
  (forall x, In x l -> (hour x =? h)%Z = false) -> atHour h l = [].
Proof.
  unfold atHour. induction l as [|x l IH]; simpl; [reflexivity|]. intros H.
  rewrite (H x (or_introl eq_refl)). apply IH. intros y Hy. apply H. now right.
Qed.

(** The upsert never adds a second entry for the hour, and never removes
    one that was there. *)
Lemma upsertDay_atHour (h : Z) (subj : string) (tch st en : option string)
    (l : list TimetableEntry) :
  List.length (atHour h (upsertDay h subj tch st en l)) =
  Nat.max 1 (List.length (atHour h l)).
Proof.
  unfold upsertDay. rewrite <- (atHour_perm h (sortByHour_perm _)).
  destruct (findIndex _ l) as [i|] eqn:E.
  - apply findIndex_Some in E as (l1 & x & l2 & -> & <- & Hx & _).
    rewrite update_at_app. unfold atHour. rewrite !filter_app. simpl.
    rewrite Hx, !length_app. simpl. rewrite !Nat.add_succ_r. reflexivity.
  - pose proof (findIndex_None _ _ E) as Hn.
    unfold atHour at 1. rewrite filter_app. simpl. rewrite Z.eqb_refl.
    fold (atHour h l). rewrite (@atHour_none h l Hn). reflexivity.
Qed.

Lemma upsertDay_atOther (h k : Z) (subj : string) (tch st en : option string)
    (l : list TimetableEntry) :
  k <> h ->
  List.length (atHour k (upsertDay h subj tch st en l)) = List.length (atHour k l).
Proof.
  intros Hne. unfold upsertDay. rewrite <- (atHour_perm k (sortByHour_perm _)).
  assert (Hk : (h =? k)%Z = false) by (apply Z.eqb_neq; congruence).
  destruct (findIndex _ l) as [i|] eqn:E.
  - apply findIndex_Some in E as (l1 & x & l2 & -> & <- & Hx & _).
    rewrite update_at_app. unfold atHour. rewrite !filter_app. simpl.
    now destruct (hour x =? k)%Z; rewrite !length_app.
  - unfold atHour. rewrite filter_app. simpl. rewrite Hk. now rewrite app_nil_r.
Qed.

Lemma teacherCalls_save env env' db h (t : AdminUser) (b : Batch) :
  teacherCalls env' db h t -> teacherCalls env' (Batch_save env db b) h t.
Proof. intros H. exact H. Qed.

(** ** Hours of the timetable (C5) *)

(** C5 as stated fails: the owner's [PUT
    /batches/:batchId/timetable/monday/9] is answered 200 and stores an
    entry with hour 9, so a reachable state has an hour above 8. *)
Lemma C5_counterexample :
  (let out := upsertEntry env2 db1 (bearer idT1) idB1 "monday" (Some 9%Z)
                (Some "Algebra") None None None in
   snd out = json 200 "Timetable entry updated successfully" /\
   reachable (fst out) /\
   exists b, In b (batches (fst out)) /\
             getDay (timetable b) monday = [entry 9 "Algebra"]) /\
  ~ (forall db b e, reachable db -> In b (batches db) ->
       In e (allEntries (timetable b)) -> (1 <= hour e <= 8)%Z).
Proof.
  assert (H : let out := upsertEntry env2 db1 (bearer idT1) idB1 "monday" (Some 9%Z)
                (Some "Algebra") None None None in
   snd out = json 200 "Timetable entry updated successfully" /\
   reachable (fst out) /\
   exists b, In b (batches (fst out)) /\
             getDay (timetable b) monday = [entry 9 "Algebra"]).
  { cbv zeta. split; [vm_compute; reflexivity|]. split.
    - apply (reach_step env2 (bearer idT1)
               (UpsertEntry idB1 "monday" (Some 9%Z) (Some "Algebra") None None None)
               reachable_db1).
    - eexists. split; [vm_compute; left; reflexivity|]. reflexivity. }
  split; [exact H|].
  intros Hall. cbv zeta in H. destruct H as (_ & Hr & b & Hin & Hday).
  specialize (Hall _ b (entry 9 "Algebra") Hr Hin).
  assert (He : In (entry 9 "Algebra") (allEntries (timetable b))).
  { unfold allEntries. apply in_or_app. left.
    change (tt_monday (timetable b)) with (getDay (timetable b) monday).
    rewrite Hday. now left. }
  apply Hall in He. simpl in He. lia.
Qed.

Lemma storeEntry_accepted (l : list EntryInput) :
  existsb rejectedEntry l = false ->
  Forall (fun e => (1 <= hour e <= 8)%Z /\ subject e <> "") (map storeEntry l).
Proof.
  induction l as [|e l IH]; simpl; [constructor|]. intros H.
  apply orb_false_iff in H as [He Hl]. constructor; [|now apply IH].
  unfold rejectedEntry in He.
  apply orb_false_iff in He as [He Hs]. apply orb_false_iff in He as [H1 H8].
  apply negb_false_iff in Hs. simpl. split; [lia|].
  destruct (in_subject e) as [[|c r]|]; simpl in *; discriminate.
Qed.

Lemma reachable_hours (db : DB) (b : Batch) (e : TimetableEntry) :
  reachable db -> In b (batches db) -> In e (allEntries (timetable b)) ->
  (1 <= hour e)%Z.
Proof.
  intros Hr Hb He. apply reachable_Inv in Hr.
  pose proof (@Inv_In db b Hr Hb) as [_ Hh _].
  rewrite Forall_forall in Hh. now apply Hh.
Qed.

(** C5, amended.
    - [setDay] (whole-day replacement) refuses a body with an entry whose
      hour is missing or outside [1,8] or whose subject is missing or
      empty: it is answered 400 when the day is valid, it fails in any case,
      and the database is unchanged; what it stores has hours in [1,8] and
      non-empty subjects.
    - [upsertEntry] (per-slot update) refuses an hour that is no number or
      is less than 1, with the database unchanged, and accepts every hour
      from 1 on, also above 8.
    - So in every reachable state every timetable entry has an hour of at
      least 1. *)
Theorem C5_timetable_hours_amended :
  (forall env db h batchId (day : string) (d : Day) (l : list EntryInput),
     dayOf day = Some d -> existsb rejectedEntry l = true ->
     setDay env db h batchId (Some day) (Some l) =
       (db, json 400 "Each timetable entry must have hour and subject") \/
     setDay env db h batchId (Some day) (Some l) =
       (db, json 400 "Hour must be between 1 and 8")) /\
  (forall env db h batchId day (l : list EntryInput),
     existsb rejectedEntry l = true ->
     fst (setDay env db h batchId day (Some l)) = db /\
     failing (snd (setDay env db h batchId day (Some l)))) /\
  (forall env db h batchId (b : Batch) (day : string) (d : Day)
          (l : list EntryInput),
     dayOf day = Some d -> existsb rejectedEntry l = false ->
     batchAt env db batchId b ->
     setDay env db h batchId (Some day) (Some l) =
       (Batch_save env db
          (set_timetable b (setDayList (timetable b) d (map storeEntry l))),
        json 200 "Timetable updated successfully") /\
     Forall (fun e => (1 <= hour e <= 8)%Z /\ subject e <> "") (map storeEntry l)) /\
  (forall env db h (t : AdminUser) batchId (day : string) (d : Day)
          hourNum subj tch st en,
     teacherCalls env db h t -> truthy subj = true -> dayOf day = Some d ->
     hourOutside hourNum 1 None = true ->
     upsertEntry env db h batchId day hourNum subj tch st en =
       (db, json 400 "Hour must be a positive number")) /\
  (forall env db h batchId day hourNum subj tch st en,
     hourOutside hourNum 1 None = true ->
     fst (upsertEntry env db h batchId day hourNum subj tch st en) = db /\
     failing (snd (upsertEntry env db h batchId day hourNum subj tch st en))) /\
  (forall env db h (t : AdminUser) batchId (b : Batch) (day : string) (d : Day)
          (k : Z) subj tch st en,
     teacherCalls env db h t -> truthy subj = true -> dayOf day = Some d ->
     (1 <= k)%Z -> batchAt env db batchId b -> teacher_id b = admin_id t ->
     upsertEntry env db h batchId day (Some k) subj tch st en =
       (Batch_save env db
          (set_timetable b
             (setDayList (timetable b) d
                (upsertDay k (orEmpty subj) tch st en (getDay (timetable b) d)))),
        json 200 "Timetable entry updated successfully")) /\
  (forall db b e, reachable db -> In b (batches db) ->
     In e (allEntries (timetable b)) -> (1 <= hour e)%Z).
Proof.
  split; [exact setDay_rejects|].
  split; [exact setDay_never_stores_rejected|].
  split.
  { intros env db h batchId b day d l Hd Hl Hb. split.
    - now apply setDay_accepts.
    - now apply storeEntry_accepted. }
  split; [exact upsertEntry_rejects|].
  split; [exact upsertEntry_never_stores_low|].
  split; [exact upsertEntry_accepts|exact reachable_hours].
Qed.

(** Whole-day replacements and upserts that are refused, and the upsert at
    hour 9 that is not. *)
Lemma C5_witness :
  setDay env2 db1 None idB1 (Some "monday") (Some [entryIn 3 "Algebra"; entryIn 9 "Art"]) =
    (db1, json 400 "Hour must be between 1 and 8") /\
  setDay env2 db1 None idB1 (Some "monday") (Some [entryIn 3 ""]) =
    (db1, json 400 "Each timetable entry must have hour and subject") /\
  upsertEntry env2 db1 (bearer idT1) idB1 "monday" (Some 0%Z) (Some "Algebra")
    None None None = (db1, json 400 "Hour must be a positive number") /\
  upsertEntry env2 db1 (bearer idT1) idB1 "monday" None (Some "Algebra")
    None None None = (db1, json 400 "Hour must be a positive number") /\
  snd (upsertEntry env2 db1 (bearer idT1) idB1 "monday" (Some 9%Z) (Some "Algebra")
         None None None) = json 200 "Timetable entry updated successfully" /\
  (forall b e, In b (batches db3) -> In e (allEntries (timetable b)) ->
               (1 <= hour e)%Z).
Proof.
  destruct C5_timetable_hours_amended as (Hset & _ & _ & Hlow & _ & Hacc & Hinv).
  assert (Ht : teacherCalls env2 db1 (bearer idT1) teacher1)
    by (split; [split|]; vm_compute; reflexivity).
  split; [|split; [|split; [|split; [|split]]]].
  - destruct (Hset env2 db1 None idB1 "monday" monday
                [entryIn 3 "Algebra"; entryIn 9 "Art"] eq_refl eq_refl) as [E|E];
      [rewrite E; vm_compute in E; discriminate E|exact E].
  - destruct (Hset env2 db1 None idB1 "monday" monday
                [entryIn 3 ""] eq_refl eq_refl) as [E|E];
      [exact E|rewrite E; vm_compute in E; discriminate E].
  - apply (Hlow env2 db1 (bearer idT1) teacher1 idB1 "monday" monday (Some 0%Z)
             (Some "Algebra") None None None Ht eq_refl eq_refl eq_refl).
  - apply (Hlow env2 db1 (bearer idT1) teacher1 idB1 "monday" monday None
             (Some "Algebra") None None None Ht eq_refl eq_refl eq_refl).
  - rewrite (Hacc env2 db1 (bearer idT1) teacher1 idB1 batch1 "monday" monday 9%Z
               (Some "Algebra") None None None Ht eq_refl eq_refl);
      [reflexivity|lia|vm_compute; reflexivity|reflexivity].
  - intros b e. apply Hinv. exact reachable_db3.
Defined.

(** ** Upsert of a timetable slot (C6) *)

(** C6 as stated fails: Monday was set with two entries at hour 3 (the
    whole-day replacement does not look for repeated hours); after two
    upserts at (monday, 3) by the owner the day still has two entries with
    hour 3. *)
Lemma C6_counterexample :
  reachable db3 /\
  (let out1 := upsertEntry env3 db3 (bearer idT1) idB1 "monday" (Some 3%Z)
                 (Some "Physics") None None None in
   let out2 := upsertEntry env4 (fst out1) (bearer idT1) idB1 "monday" (Some 3%Z)
                 (Some "Chemistry") None None None in
   snd out1 = json 200 "Timetable entry updated successfully" /\
   snd out2 = json 200 "Timetable entry updated successfully" /\
   exists b, batchAt env4 (fst out2) idB1 b /\
             atHour 3 (getDay (timetable b) monday) =
               [entry 3 "Chemistry"; entry 3 "Geometry"] /\
             List.length (atHour 3 (getDay (timetable b) monday)) <> 1).
Proof.
  split; [exact reachable_db3|]. cbv zeta.
  split; [vm_compute; reflexivity|]. split; [vm_compute; reflexivity|].
  eexists. split; [vm_compute; reflexivity|].
  split; [vm_compute; reflexivity|]. vm_compute. discriminate.
Qed.

Lemma upsertEntry_sorted env db h (t : AdminUser) batchId (b : Batch)
    (day : string) (d : Day) (k : Z) subj tch st en (env' : Env) :
  teacherCalls env db h t -> truthy subj = true -> dayOf day = Some d ->
  (1 <= k)%Z -> batchAt env db batchId b -> teacher_id b = admin_id t ->
  isValid env' batchId = true ->
  let out := upsertEntry env db h batchId day (Some k) subj tch st en in
  snd out = json 200 "Timetable entry updated successfully" /\
  exists b', batchAt env' (fst out) batchId b' /\
             teacher_id b' = teacher_id b /\
             getDay (timetable b') d =
               upsertDay k (orEmpty subj) tch st en (getDay (timetable b) d) /\
             sortedByHour (getDay (timetable b') d).
Proof.
  intros Ht Hs Hd Hk Hb Ho Hv out.
  pose proof (batchAt_In Hb) as (_ & Hid & _).
  assert (E : out = _) by (apply upsertEntry_accepts with (t := t) (b := b) (d := d); assumption).
  rewrite E. simpl. split; [reflexivity|].
  eexists. split; [apply batchAt_save with (b := b); [exact Hb|exact Hid|exact Hv]|].
  simpl. rewrite getDay_setDayList.
  split; [reflexivity|]. split; [reflexivity|]. apply sortByHour_sorted.
Qed.

Lemma upsertEntry_twice env1 env2 db h1 h2 (t1 t2 : AdminUser) batchId (b : Batch)
    (day : string) (d : Day) (k : Z) subj1 tch1 st1 en1 subj2 tch2 st2 en2 :
  teacherCalls env1 db h1 t1 -> teacherCalls env2 db h2 t2 ->
  teacher_id b = admin_id t1 -> teacher_id b = admin_id t2 ->
  truthy subj1 = true -> truthy subj2 = true -> dayOf day = Some d ->
  (1 <= k)%Z -> batchAt env1 db batchId b -> isValid env2 batchId = true ->
  let out1 := upsertEntry env1 db h1 batchId day (Some k) subj1 tch1 st1 en1 in
  let out2 := upsertEntry env2 (fst out1) h2 batchId day (Some k) subj2 tch2 st2 en2 in
  snd out1 = json 200 "Timetable entry updated successfully" /\
  snd out2 = json 200 "Timetable entry updated successfully" /\
  exists b1 b2,
    batchAt env2 (fst out1) batchId b1 /\ batchAt env2 (fst out2) batchId b2 /\
    sortedByHour (getDay (timetable b1) d) /\
    sortedByHour (getDay (timetable b2) d) /\
    List.length (atHour k (getDay (timetable b2) d)) =
      Nat.max 1 (List.length (atHour k (getDay (timetable b) d))).
Proof.
  intros Ht1 Ht2 Ho1 Ho2 Hs1 Hs2 Hd Hk Hb Hv2 out1 out2.
  destruct (@upsertEntry_sorted env1 db h1 t1 batchId b day d k subj1 tch1 st1 en1
              env2 Ht1 Hs1 Hd Hk Hb Ho1 Hv2) as (E1 & b1 & Hb1 & Hto & Hl1 & Hsort1).
  fold out1 in E1, Hb1.
  assert (Ht2' : teacherCalls env2 (fst out1) h2 t2).
  { unfold out1, upsertEntry.
    match goal with |- context [handler ?db ?msg ?body] =>
      destruct (handler_cases db msg body) as [E|(o & Hbody & E)]; rewrite E; clear E
    end; [exact Ht2|]. invM. exact Ht2. }
  destruct (@upsertEntry_sorted env2 (fst out1) h2 t2 batchId b1 day d k
              subj2 tch2 st2 en2 env2 Ht2' Hs2 Hd Hk Hb1
              (eq_trans Hto Ho2) Hv2) as (E2 & b2 & Hb2 & _ & Hl2 & Hsort2).
  fold out2 in E2, Hb2.
  split; [exact E1|]. split; [exact E2|].
  exists b1, b2. repeat split; auto.
  rewrite Hl2, upsertDay_atHour, Hl1, upsertDay_atHour. lia.
Qed.

(** C6, amended.  After every accepted upsert the day's list is the old
    list with the slot updated or pushed, sorted by hour in ascending
    order.  After two upserts in a row at the same (day, hour) the day's
    list holds as many entries with that hour as before the first one, and
    one if it held none; so exactly one when it held at most one (as in a
    list built by upserts alone), and the entries of the other hours are as
    many as before. *)
Theorem C6_upsert_slot_amended :
  (forall env env' db h (t : AdminUser) batchId (b : Batch) (day : string)
          (d : Day) (k : Z) subj tch st en,
     teacherCalls env db h t -> truthy subj = true -> dayOf day = Some d ->
     (1 <= k)%Z -> batchAt env db batchId b -> teacher_id b = admin_id t ->
     isValid env' batchId = true ->
     let out := upsertEntry env db h batchId day (Some k) subj tch st en in
     snd out = json 200 "Timetable entry updated successfully" /\
     exists b', batchAt env' (fst out) batchId b' /\
                sortedByHour (getDay (timetable b') d) /\
                forall j, List.length (atHour j (getDay (timetable b') d)) =
                          if Z.eqb j k
                          then Nat.max 1 (List.length (atHour j (getDay (timetable b) d)))
                          else List.length (atHour j (getDay (timetable b) d))) /\
  (forall env1 env2 db h1 h2 (t1 t2 : AdminUser) batchId (b : Batch)
          (day : string) (d : Day) (k : Z) subj1 tch1 st1 en1 subj2 tch2 st2 en2,
     teacherCalls env1 db h1 t1 -> teacherCalls env2 db h2 t2 ->
     teacher_id b = admin_id t1 -> teacher_id b = admin_id t2 ->
     truthy subj1 = true -> truthy subj2 = true -> dayOf day = Some d ->
     (1 <= k)%Z -> batchAt env1 db batchId b -> isValid env2 batchId = true ->
     let out1 := upsertEntry env1 db h1 batchId day (Some k) subj1 tch1 st1 en1 in
     let out2 :=
       upsertEntry env2 (fst out1) h2 batchId day (Some k) subj2 tch2 st2 en2 in
     snd out1 = json 200 "Timetable entry updated successfully" /\
     snd out2 = json 200 "Timetable entry updated successfully" /\
     exists b2,
       batchAt env2 (fst out2) batchId b2 /\
       sortedByHour (getDay (timetable b2) d) /\
       List.length (atHour k (getDay (timetable b2) d)) =
         Nat.max 1 (List.length (atHour k (getDay (timetable b) d))) /\
       (List.length (atHour k (getDay (timetable b) d)) <= 1 ->
        List.length (atHour k (getDay (timetable b2) d)) = 1)).
Proof.
  split.
  - intros env env' db h t batchId b day d k subj tch st en Ht Hs Hd Hk Hb Ho Hv out.
    destruct (@upsertEntry_sorted env db h t batchId b day d k subj tch st en env'
                Ht Hs Hd Hk Hb Ho Hv) as (E & b' & Hb' & _ & Hl & Hsort).
    fold out in E, Hb'. split; [exact E|].
    exists b'. split; [exact Hb'|]. split; [exact Hsort|].
    intros j. rewrite Hl. destruct (Z.eqb_spec j k) as [->|Hne].
    + apply upsertDay_atHour.
    + now apply upsertDay_atOther.
  - intros env1 env2 db h1 h2 t1 t2 batchId b day d k subj1 tch1 st1 en1
      subj2 tch2 st2 en2 Ht1 Ht2 Ho1 Ho2 Hs1 Hs2 Hd Hk Hb Hv2 out1 out2.
    destruct (@upsertEntry_twice env1 env2 db h1 h2 t1 t2 batchId b day d k
                subj1 tch1 st1 en1 subj2 tch2 st2 en2
                Ht1 Ht2 Ho1 Ho2 Hs1 Hs2 Hd Hk Hb Hv2)
      as (E1 & E2 & b1 & b2 & _ & Hb2 & _ & Hsort & Hcount).
    fold out1 in E1. fold out1 out2 in E2, Hb2.
    split; [exact E1|]. split; [exact E2|].
    exists b2. repeat split; auto. intros Hle. rewrite Hcount. lia.
Qed.

(** Two upserts at (Monday, 3) on an empty Monday. *)
Lemma C6_witness :
  let out1 := upsertEntry env3 db2 (bearer idT1) idB1 "Monday" (Some 3%Z)
                (Some "Physics") (Some "Asha") None None in
  let out2 := upsertEntry env4 (fst out1) (bearer idT1) idB1 "Monday" (Some 3%Z)
                (Some "Chemistry") None (Some "09:00") None in
  exists b2,
    batchAt env4 (fst out2) idB1 b2 /\
    sortedByHour (getDay (timetable b2) monday) /\
    List.length (atHour 3 (getDay (timetable b2) monday)) = 1.
Proof.
  destruct C6_upsert_slot_amended as (_ & Htwice).
  assert (Ht : forall env, isValid env = isHex24 ->
                           teacherCalls env db2 (bearer idT1) teacher1).
  { intros env Hv. split; [split; reflexivity|].
    unfold AdminUser_findById, cast. rewrite Hv. reflexivity. }
  assert (Hb : batchAt env3 db2 idB1 (set_updatedAt (set_students batch1 [idS1]) 2000))
    by (vm_compute; reflexivity).
  pose proof (Htwice env3 env4 db2 (bearer idT1) (bearer idT1) teacher1 teacher1
                idB1 (set_updatedAt (set_students batch1 [idS1]) 2000)
                "Monday" monday 3%Z
                (Some "Physics") (Some "Asha") None None
                (Some "Chemistry") None (Some "09:00") None
                (Ht env3 eq_refl) (Ht env4 eq_refl) eq_refl eq_refl eq_refl eq_refl
                eq_refl ltac:(lia) Hb eq_refl) as H.
  cbv zeta in H. destruct H as (_ & _ & b2 & Hb2 & Hsort & _ & Hone).
  cbv zeta. exists b2. split; [exact Hb2|]. split; [exact Hsort|].
  apply Hone. simpl. lia.
Defined.

(** ** Bulk enrolment (C7) *)

Lemma found_all_students (db : DB) (ids : list string) :
  NoDup (map user_id (users db)) -> NoDup (map castId ids) ->
  (forall id, In id ids -> isStudentId db (castId id)) ->
  List.length (User_findStudentsIn db ids) = List.length ids.
Proof.
  intros Hu Hids Hall. rewrite <- (length_map castId ids).
  assert (Hall' : forall c, In c (map castId ids) -> isStudentId db c).
  { intros c Hc. apply in_map_iff in Hc as (id & <- & Hid). now apply Hall. }
  unfold User_findStudentsIn. revert Hids Hall'. clear Hall.
  generalize (map castId ids). clear ids. intros ids Hids Hall.
  set (F := map user_id
              (filter (fun u => includes (user_id u) ids &&
                                String.eqb (role u) "student") (users db))).
  assert (HF : NoDup F).
  { unfold F.
    induction (users db) as [|u l IH]; simpl; [constructor|].
    inversion Hu as [|? ? Hn Hl]; subst.
    destruct (_ && _); simpl; auto.
    constructor; auto. rewrite in_map_iff. intros (x & Hx & Hin).
    apply filter_In in Hin as [Hin _]. apply Hn. rewrite <- Hx. now apply in_map. }
  assert (H1 : incl F ids).
  { intros x Hx. unfold F in Hx.
    apply in_map_iff in Hx as (u & <- & Hin).
    apply filter_In in Hin as [_ Hc]. apply andb_prop in Hc as [Hc _].
    now apply includes_In. }
  assert (H2 : incl ids F).
  { intros x Hx. destruct (Hall x Hx) as (u & Hin & <- & Hr).
    unfold F. apply in_map. apply filter_In. split; [assumption|].
    apply andb_true_intro. split; [now apply includes_In|].
    rewrite Hr. reflexivity. }
  pose proof (NoDup_incl_length HF H1) as L1.
  pose proof (NoDup_incl_length Hids H2) as L2.
  unfold F in L1, L2. rewrite length_map in L1, L2. lia.
Qed.

Lemma length_nonempty {A} (l : list A) :
  l <> [] -> Nat.eqb (List.length l) 0 = false.
Proof. destruct l; [congruence|reflexivity]. Qed.

(** The count test fails: the answer is 400. *)
Lemma addStudents_count env db h batchId (b : Batch) (ids : list string) :
  batchAt env db batchId b ->
  ids <> [] -> forallb (isValid env) ids = true ->
  List.length (User_findStudentsIn db ids) <> List.length ids ->
  addStudents env db h batchId (Some ids) =
    (db, json 400 "One or more invalid student IDs").
Proof.
  intros Hb Hne Hv Hlen. unfold addStudents.
  cbn [orReject bind]. rewrite (length_nonempty Hne). cbn [rejectIf bind].
  rewrite (batchAt_findBatch Hb). cbn [bind]. rewrite Hv. cbn [negb throwIf bind].
  destruct (Nat.eqb_spec (List.length (User_findStudentsIn db ids))
              (List.length ids)) as [E|E]; [contradiction|reflexivity].
Qed.

Lemma addStudents_rejects env db h batchId (b : Batch) (ids : list string) :
  NoDup (map user_id (users db)) -> batchAt env db batchId b ->
  ids <> [] -> forallb (isValid env) ids = true ->
  (exists id, In id ids /\ ~ isStudentId db (castId id)) ->
  addStudents env db h batchId (Some ids) =
    (db, json 400 "One or more invalid student IDs").
Proof.
  intros Hu Hb Hne Hv (id & Hin & Hbad).
  apply (addStudents_count h Hb Hne Hv). intros E.
  apply Hbad. now apply (@found_students db ids Hu E).
Qed.

Lemma addStudents_repeated env db h batchId (b : Batch) (ids : list string) :
  NoDup (map user_id (users db)) -> batchAt env db batchId b ->
  ids <> [] -> forallb (isValid env) ids = true ->
  ~ NoDup (map castId ids) ->
  addStudents env db h batchId (Some ids) =
    (db, json 400 "One or more invalid student IDs").
Proof.
  intros Hu Hb Hne Hv Hrep.
  apply (addStudents_count h Hb Hne Hv). intros E.
  apply Hrep. now apply (@found_students db ids Hu E).
Qed.

Lemma addStudents_admits_students_only env db h batchId (ids : list string) :
  NoDup (map user_id (users db)) ->
  (exists id, In id ids /\ ~ isStudentId db (castId id)) ->
  fst (addStudents env db h batchId (Some ids)) = db /\
  failing (snd (addStudents env db h batchId (Some ids))).
Proof.
  intros Hu (id & Hin & Hbad). unfold addStudents. fails_or_ends; [now split|].
  exfalso. apply Hbad.
  match goal with
  | H : negb (Nat.eqb (List.length (User_findStudentsIn _ _)) _) = false |- _ =>
      apply negb_false_iff, Nat.eqb_eq in H;
      apply (@found_students _ _ Hu) in H as [_ Hall]
  end.
  now apply Hall.
Qed.

Lemma addStudents_accepts env db h batchId (b : Batch) (ids : list string) :
  NoDup (map user_id (users db)) -> batchAt env db batchId b ->
  ids <> [] -> forallb (isValid env) ids = true -> NoDup (map castId ids) ->
  (forall id, In id ids -> isStudentId db (castId id)) ->
  addStudents env db h batchId (Some ids) =
    (Batch_save env db
       (set_students b
          (students b ++
           map castId (filter (fun id => negb (includes id (students b))) ids))),
     json 200 "Students added successfully").
Proof.
  intros Hu Hb Hne Hv Hnd Hall. unfold addStudents.
  pose proof (@found_all_students db ids Hu Hnd Hall) as E.
  cbn [orReject bind]. rewrite (length_nonempty Hne). cbn [rejectIf bind].
  rewrite (batchAt_findBatch Hb). cbn [bind]. rewrite Hv. cbn [negb throwIf bind].
  rewrite E, Nat.eqb_refl. reflexivity.
Qed.

Lemma filter_new_nil (s ids : list string) :
  incl ids s -> filter (fun id => negb (includes id s)) ids = [].
Proof.
  induction ids as [|i ids IH]; simpl; [reflexivity|]. intros H.
  replace (includes i s) with true
    by (symmetry; apply includes_In, H; now left).
  simpl. apply IH. intros x Hx. apply H. now right.
Qed.

Lemma map_printed (ids : list string) :
  (forall id, In id ids -> printed id) -> map castId ids = ids.
Proof.
  induction ids as [|i ids IH]; simpl; intros H; [reflexivity|].
  rewrite (H i (or_introl eq_refl)), IH; [reflexivity|].
  intros x Hx. apply H. now right.
Qed.

Lemma reachable_users (db : DB) : reachable db -> NoDup (map user_id (users db)).
Proof. intros Hr. now apply reachable_Inv in Hr as []. Qed.

(** C7 as stated fails: student 1 is an account with role [student] and
    is enrolled in the batch, yet the list that names her twice is refused
    with 400 instead of being skipped: the handler counts the accounts it
    found against the identifiers it was sent. *)
Lemma C7_counterexample :
  reachable db2 /\
  (exists b, batchAt env3 db2 idB1 b /\ students b = [idS1]) /\
  isStudentId db2 idS1 /\
  addStudents env3 db2 None idB1 (Some [idS1; idS1]) =
    (db2, json 400 "One or more invalid student IDs") /\
  ~ (forall env db h batchId (b : Batch) (ids : list string),
       reachable db -> batchAt env db batchId b -> ids <> [] ->
       (forall id, In id ids -> isStudentId db id /\ In id (students b)) ->
       snd (addStudents env db h batchId (Some ids)) =
         json 200 "Students added successfully").
Proof.
  assert (Hb : batchAt env3 db2 idB1 (set_updatedAt (set_students batch1 [idS1]) 2000))
    by (vm_compute; reflexivity).
  assert (Hs : isStudentId db2 idS1)
    by (exists student1; repeat split; simpl; auto).
  assert (E : addStudents env3 db2 None idB1 (Some [idS1; idS1]) =
              (db2, json 400 "One or more invalid student IDs"))
    by (vm_compute; reflexivity).
  split; [exact reachable_db2|]. split; [eexists; split; [exact Hb|reflexivity]|].
  split; [exact Hs|]. split; [exact E|].
  intros Hall.
  specialize (Hall env3 db2 None idB1 _ [idS1; idS1] reachable_db2 Hb).
  rewrite E in Hall. simpl in Hall.
  assert (H : json 400 "One or more invalid student IDs" =
              json 200 "Students added successfully").
  { apply Hall; [discriminate|].
    intros id [<-|[<-|[]]]; (split; [exact Hs|now left]). }
  discriminate H.
Qed.

(** C7, amended.  In a reachable state, for a batch that exists and a list
    of well-formed identifiers that is not empty:
    - a bulk add with an identifier that names no account with role
      [student] admits nobody: the answer is 400, "One or more invalid
      student IDs", and the database stays as it was; whatever else the
      request holds, such a bulk add fails and changes nothing;
    - a bulk add that names one account twice is refused in the same way;
    - a bulk add that names different accounts, all students, is answered
      200 and appends the identifiers, cast, of exactly those that are not
      in [batch.students] as the request writes them, in the order given:
      the others are skipped without an error, and a list of enrolled
      students only changes nothing in [batch.students];
    - when the request writes its identifiers as the server prints them, a
      [batch.students] without a duplicate has none afterwards. *)
Theorem C7_bulk_add_students_amended :
  (forall env db h batchId (b : Batch) (ids : list string),
     reachable db -> batchAt env db batchId b ->
     ids <> [] -> forallb (isValid env) ids = true ->
     (exists id, In id ids /\ ~ isStudentId db (castId id)) ->
     addStudents env db h batchId (Some ids) =
       (db, json 400 "One or more invalid student IDs")) /\
  (forall env db h batchId (ids : list string),
     reachable db -> (exists id, In id ids /\ ~ isStudentId db (castId id)) ->
     fst (addStudents env db h batchId (Some ids)) = db /\
     failing (snd (addStudents env db h batchId (Some ids)))) /\
  (forall env db h batchId (b : Batch) (ids : list string),
     reachable db -> batchAt env db batchId b ->
     ids <> [] -> forallb (isValid env) ids = true ->
     ~ NoDup (map castId ids) ->
     addStudents env db h batchId (Some ids) =
       (db, json 400 "One or more invalid student IDs")) /\
  (forall env db h batchId (b : Batch) (ids : list string),
     reachable db -> batchAt env db batchId b ->
     ids <> [] -> forallb (isValid env) ids = true ->
     NoDup (map castId ids) ->
     (forall id, In id ids -> isStudentId db (castId id)) ->
     let added := filter (fun id => negb (includes id (students b))) ids in
     addStudents env db h batchId (Some ids) =
       (Batch_save env db (set_students b (students b ++ map castId added)),
        json 200 "Students added successfully") /\
     (forall id, In id added <-> In id ids /\ ~ In id (students b)) /\
     (incl ids (students b) -> students b ++ map castId added = students b) /\
     ((forall id, In id ids -> printed id) -> NoDup (students b) ->
      NoDup (students b ++ map castId added))).
Proof.
  split.
  { intros env db h batchId b ids Hr. apply addStudents_rejects.
    now apply reachable_users. }
  split.
  { intros env db h batchId ids Hr. apply addStudents_admits_students_only.
    now apply reachable_users. }
  split.
  { intros env db h batchId b ids Hr. apply addStudents_repeated.
    now apply reachable_users. }
  intros env db h batchId b ids Hr Hb Hne Hv Hnd Hall added.
  split; [apply addStudents_accepts; auto; now apply reachable_users|].
  split; [|split].
  - intros id. unfold added. rewrite filter_In, negb_true_iff, includes_not_In.
    reflexivity.
  - intros Hincl. unfold added. rewrite filter_new_nil; [apply app_nil_r|assumption].
  - intros Hp Hs.
    assert (Hpa : forall id, In id added -> printed id).
    { intros id Hid. apply filter_In in Hid as [Hid _]. now apply Hp. }
    rewrite (map_printed _ Hpa). apply NoDup_add_new; [assumption|].
    rewrite <- (map_printed _ Hp). assumption.
Qed.

(** A bulk add with the identifier of a parent, one that names student 2
    twice, one with a student already enrolled and a new one, and one with
    the enrolled student only. *)
Lemma C7_witness :
  addStudents env3 db2 None idB1 (Some [idS2; idP1]) =
    (db2, json 400 "One or more invalid student IDs") /\
  addStudents env3 db2 None idB1 (Some [idS2; idS2]) =
    (db2, json 400 "One or more invalid student IDs") /\
  (let out := addStudents env3 db2 None idB1 (Some [idS1; idS2]) in
   snd out = json 200 "Students added successfully" /\
   exists b, batchAt env3 (fst out) idB1 b /\ students b = [idS1; idS2]) /\
  fst (addStudents env3 db2 None idB1 (Some [idS1])) =
    Batch_save env3 db2 (set_updatedAt (set_students batch1 [idS1]) 2000).
Proof.
  destruct C7_bulk_add_students_amended as (Hrej & _ & Hrep & Hacc).
  assert (Hb : batchAt env3 db2 idB1 (set_updatedAt (set_students batch1 [idS1]) 2000))
    by (vm_compute; reflexivity).
  assert (Hs1 : isStudentId db2 (castId idS1))
    by (exists student1; repeat split; simpl; auto).
  assert (Hs2 : isStudentId db2 (castId idS2))
    by (exists student2; repeat split; simpl; auto).
  split; [|split; [|split]].
  - apply (Hrej env3 db2 None idB1 _ [idS2; idP1] reachable_db2 Hb);
      [discriminate|reflexivity|].
    exists idP1. split; [simpl; auto|].
    intros (u & Hin & Hid & Hrole). simpl in Hin.
    destruct Hin as [<-|[<-|[<-|[<-|[]]]]]; discriminate.
  - apply (Hrep env3 db2 None idB1 _ [idS2; idS2] reachable_db2 Hb);
      [discriminate|reflexivity|].
    intros Hnd. inversion Hnd as [|? ? Hn _]. apply Hn. now left.
  - cbv zeta.
    destruct (Hacc env3 db2 None idB1 _ [idS1; idS2] reachable_db2 Hb)
      as (E & _ & _ & _).
    + discriminate.
    + reflexivity.
    + repeat constructor; simpl; intuition discriminate.
    + intros id [<-|[<-|[]]]; assumption.
    + rewrite E. split; [reflexivity|].
      eexists. split; [vm_compute; reflexivity|reflexivity].
  - destruct (Hacc env3 db2 None idB1 _ [idS1] reachable_db2 Hb)
      as (E & _ & _ & _).
    + discriminate.
    + reflexivity.
    + repeat constructor; simpl; intuition.
    + intros id [<-|[]]; assumption.
    + rewrite E. reflexivity.
Defined.

(** ** Batch codes (C8) *)

Lemma Batch_findByCode_Some (db : DB) (code : string) (b : Batch) :
  In b (batches db) -> batch_code b = code -> Batch_findByCode db code <> None.
Proof.
  intros Hin Hc H. unfold Batch_findByCode in H.
  apply (find_none _ _ H) in Hin. simpl in Hin.
  rewrite Hc, String.eqb_refl in Hin. discriminate.
Qed.

Section BatchCodes.

(** [up] stands for [String.prototype.toUpperCase]; all that is used of it
    is that a text in upper case is left as it is. *)
Variable up : string -> string.
Hypothesis up_idem : forall s, up (up s) = up s.

Lemma createBatch_stores_upper env db (t : AdminUser) code name cls teacher :
  truthy code = true -> truthy name = true -> truthy cls = true ->
  truthy teacher = true ->
  AdminUser_findById env db (orEmpty teacher) = Pure (Some t) ->
  Batch_findByCode db (up (orEmpty code)) = None ->
  createBatchWith up env db code name cls teacher =
    (set_batches db
       (batches db ++
        [{| batch_id := newObjectId env; batch_name := orEmpty name;
            batch_code := up (orEmpty code); class := orEmpty cls;
            teacher_id := admin_id t; students := []; feesPayments := [];
            announcements := []; timetable := emptyTimetable; testResults := [];
            createdAt := now env; updatedAt := now env |}]),
     json 201 "Batch created successfully").
Proof.
  intros H1 H2 H3 H4 Ht Hc. unfold createBatchWith.
  rewrite H1, H2, H3, H4. simpl. rewrite Ht. simpl. rewrite Hc. simpl.
  unfold Batch_createWith. now rewrite up_idem.
Qed.

Lemma createBatch_conflict env db (t : AdminUser) (b : Batch) code name cls teacher :
  In b (batches db) -> batch_code b = up (orEmpty code) ->
  truthy code = true -> truthy name = true -> truthy cls = true ->
  truthy teacher = true ->
  AdminUser_findById env db (orEmpty teacher) = Pure (Some t) ->
  createBatchWith up env db code name cls teacher =
    (db, json 409 "Batch code already exists").
Proof.
  intros Hin Hc H1 H2 H3 H4 Ht. unfold createBatchWith.
  rewrite H1, H2, H3, H4. simpl. rewrite Ht. simpl.
  pose proof (@Batch_findByCode_Some db _ b Hin Hc) as Hf.
  destruct (Batch_findByCode db (up (orEmpty code))); [reflexivity|congruence].
Qed.

End BatchCodes.

(** C8.  [up] is the function that puts a text in upper case; of it only
    [up (up s) = up s] is assumed, so the statement covers every code a
    request may send.  For a well-formed creation request by an existing
    teacher:
    - when no batch has the upper-case form of the code, the batch is
      created and its stored [batch_code] is the upper-case form of the code
      sent, whatever the case of the letters sent;
    - when a batch has a stored code, in upper case as every code that a
      creation stores, that equals the code sent up to the case of letters
      (their upper-case forms are equal), the request is answered 409 and
      the database is unchanged;
    - so a second creation whose code equals the code of a first one up to
      the case of letters (their upper-case forms are equal) fails with 409
      and creates nothing, whichever teacher sends it. *)
Theorem C8_batch_code_uppercase_unique (up : string -> string) :
  (forall s, up (up s) = up s) ->
  (forall env db (t : AdminUser) code name cls teacher,
     truthy code = true -> truthy name = true -> truthy cls = true ->
     truthy teacher = true ->
     AdminUser_findById env db (orEmpty teacher) = Pure (Some t) ->
     Batch_findByCode db (up (orEmpty code)) = None ->
     exists b,
       createBatchWith up env db code name cls teacher =
         (set_batches db (batches db ++ [b]),
          json 201 "Batch created successfully") /\
       batch_code b = up (orEmpty code) /\ up (batch_code b) = batch_code b /\
       teacher_id b = admin_id t /\ students b = []) /\
  (forall env db (t : AdminUser) (b : Batch) code name cls teacher,
     In b (batches db) -> up (batch_code b) = batch_code b ->
     up (batch_code b) = up (orEmpty code) ->
     truthy code = true -> truthy name = true -> truthy cls = true ->
     truthy teacher = true ->
     AdminUser_findById env db (orEmpty teacher) = Pure (Some t) ->
     createBatchWith up env db code name cls teacher =
       (db, json 409 "Batch code already exists")) /\
  (forall env env' db (t t' : AdminUser) code name cls teacher
          code' name' cls' teacher',
     truthy code = true -> truthy name = true -> truthy cls = true ->
     truthy teacher = true ->
     AdminUser_findById env db (orEmpty teacher) = Pure (Some t) ->
     Batch_findByCode db (up (orEmpty code)) = None ->
     up (orEmpty code') = up (orEmpty code) ->
     truthy code' = true -> truthy name' = true -> truthy cls' = true ->
     truthy teacher' = true ->
     AdminUser_findById env' db (orEmpty teacher') = Pure (Some t') ->
     let db1 := fst (createBatchWith up env db code name cls teacher) in
     List.length (batches db1) = S (List.length (batches db)) /\
     createBatchWith up env' db1 code' name' cls' teacher' =
       (db1, json 409 "Batch code already exists")).
Proof.
  intros Hup. split.
  { intros env db t code name cls teacher H1 H2 H3 H4 Ht Hc.
    eexists. split; [eapply createBatch_stores_upper; eassumption|].
    repeat split. simpl. apply Hup. }
  split.
  { intros env db t b code name cls teacher Hin Hfix Heq.
    apply createBatch_conflict with (b := b); [assumption|congruence]. }
  intros env env' db t t' code name cls teacher code' name' cls' teacher'
    H1 H2 H3 H4 Ht Hc Heq H1' H2' H3' H4' Ht' db1.
  pose proof (@createBatch_stores_upper up Hup env db t code name cls teacher
                H1 H2 H3 H4 Ht Hc) as E.
  unfold db1. rewrite E. cbn [fst]. split.
  { simpl. rewrite length_app. simpl. lia. }
  eapply createBatch_conflict with (t := t'); eauto.
  - simpl. apply in_or_app. right. left. reflexivity.
  - simpl. now rewrite Heq.
Qed.

(** With the upper case of ASCII text, which is what the router runs: a
    batch is created as [math-10a] and stored as [MATH-10A]; a second one
    as [Math-10A] is refused. *)
Lemma C8_witness :
  (exists b, createBatch env1 db0 (Some "math-10a") (Some "Maths") (Some "10")
               (Some idT1) =
               (set_batches db0 [b], json 201 "Batch created successfully") /\
             batch_code b = "MATH-10A") /\
  createBatch env2 db1 (Some "Math-10A") (Some "More maths") (Some "10")
    (Some idT2) = (db1, json 409 "Batch code already exists").
Proof.
  destruct (C8_batch_code_uppercase_unique toUpperCase toUpperCase_idem)
    as (Hup & _ & Htwice).
  split.
  - destruct (Hup env1 db0 teacher1 (Some "math-10a") (Some "Maths") (Some "10")
                (Some idT1) eq_refl eq_refl eq_refl eq_refl eq_refl eq_refl)
      as (b & E & Hc & _ & _).
    exists b. split; [exact E|exact Hc].
  - apply (Htwice env1 env2 db0 teacher1 teacher2
             (Some "math-10a") (Some "Maths") (Some "10") (Some idT1)
             (Some "Math-10A") (Some "More maths") (Some "10") (Some idT2)
             eq_refl eq_refl eq_refl eq_refl eq_refl eq_refl
             eq_refl eq_refl eq_refl eq_refl eq_refl eq_refl).
Defined.

(** ** Further properties of the handlers *)

Lemma requireOwner_other (b : Batch) (tok msg : string) {A} (k : unit -> M A) :
  teacher_id b <> tok ->
  bind (requireOwner b tok msg) k = Respond (json 403 msg).
Proof.
  intros Hne. unfold requireOwner. apply String.eqb_neq in Hne. now rewrite Hne.
Qed.

(** The owner check, where a handler has it: a teacher who calls one of
    these fourteen handlers for a batch of another teacher is answered 403
    and changes nothing (for a timetable slot or day, once the day, hour and
    subject of the request are accepted). *)
Theorem owner_check_where_present env db h (t : AdminUser) (req : Request)
    (batchId : string) (b : Batch) :
  ownerChecked req = Some batchId -> slotWellFormed req = true ->
  teacherCalls env db h t -> batchAt env db batchId b ->
  teacher_id b <> admin_id t ->
  fst (route env db h req) = db /\ status (snd (route env db h req)) = 403%N /\
  data (snd (route env db h req)) = NoData.
Proof.
  intros Hg Hw Ht Hb Hne.
  destruct Ht as [Hp Hf].
  assert (Ht : teacherCalls env db h t) by (split; assumption).
  pose proof (batchAt_findBatch Hb) as Hfb.
  destruct req; simpl in Hg; try discriminate; injection Hg as ->; simpl in Hw |- *;
    unfold updateBatch, deleteBatch, removeStudent, createAnnouncement,
      updateAnnouncement, deleteAnnouncement, updateAttendance, deleteAttendance,
      deleteEntry, upsertEntry, clearDay, createTest, updateTest, deleteTest;
    try rewrite (authTeacher_ok _ Ht); try rewrite (requireBearer_ok _ Hp);
    cbn [bind];
    repeat match type of Hw with
    | _ && _ = true => apply andb_prop in Hw as [Hw ?]
    end;
    repeat match goal with
    | H : truthy ?s = true |- context [truthy ?s] => rewrite H; cbn [negb rejectIf bind]
    | H : isSome (dayOf ?d) = true |- context [requireDay ?d] =>
        let x := fresh "d" in let E := fresh "E" in
        destruct (dayOf d) as [x|] eqn:E; [|discriminate H];
        rewrite (requireDay_ok _ E); cbn [bind]
    | H : negb ?c = true |- context [rejectIf ?c] =>
        apply negb_true_iff in H; rewrite H; cbn [rejectIf bind]
    end;
    rewrite Hfb; cbn [bind]; rewrite requireOwner_other by assumption;
    repeat split.
Qed.

(** Teacher 2 calls two guarded handlers for the batch of teacher 1. *)
Lemma owner_check_witness :
  fst (route env3 db2 (bearer idT2) (ClearDay idB1 "monday")) = db2 /\
  status (snd (route env3 db2 (bearer idT2) (ClearDay idB1 "monday"))) = 403%N /\
  status (snd (route env3 db2 (bearer idT2)
                 (UpdateBatch idB1 (Some "Taken over") None))) = 403%N.
Proof.
  assert (Ht : teacherCalls env3 db2 (bearer idT2) teacher2)
    by (split; [split|]; vm_compute; reflexivity).
  assert (Hb : batchAt env3 db2 idB1 (set_updatedAt (set_students batch1 [idS1]) 2000))
    by (vm_compute; reflexivity).
  assert (Hne : teacher_id (set_updatedAt (set_students batch1 [idS1]) 2000)
                <> admin_id teacher2) by discriminate.
  destruct (@owner_check_where_present env3 db2 (bearer idT2) teacher2
              (ClearDay idB1 "monday") idB1 _ eq_refl eq_refl Ht Hb Hne)
    as (H1 & H2 & _).
  destruct (@owner_check_where_present env3 db2 (bearer idT2) teacher2
              (UpdateBatch idB1 (Some "Taken over") None) idB1 _ eq_refl eq_refl
              Ht Hb Hne) as (_ & H3 & _).
  repeat split; assumption.
Defined.

Lemma failing_json (code : N) (msg : string) :
  (400 <=? code)%N = true -> failing (json code msg).
Proof. intros H. split; [now apply N.leb_le|reflexivity]. Qed.

Lemma joinBatch_fails_or_succeeds env db h code :
  (fst (joinBatch env db h code) = db /\ failing (snd (joinBatch env db h code))) \/
  succeeded (snd (joinBatch env db h code)).
Proof.
  unfold joinBatch.
  destruct (joinBatchBody env db h code) as [r|e|out] eqn:Hb.
  - left. split; [reflexivity|].
    assert (Hp : plain (joinBatchBody env db h code))
      by (unfold joinBatchBody; plain_tac).
    now apply Hp.
  - left. split; [now destruct e|]. destruct e; now apply failing_json.
  - right. unfold joinBatchBody in Hb. invM. now left.
Qed.

(** Every request that writes is either answered with a failure (a status
    from 400 on, no data) and leaves the database as it was, or is answered
    200 or 201. *)
Theorem failure_changes_nothing env db h (req : Request) :
  (fst (route env db h req) = db /\ failing (snd (route env db h req))) \/
  succeeded (snd (route env db h req)).
Proof.
  destruct req; simpl; try apply joinBatch_fails_or_succeeds;
    unfold createBatch, createBatchWith, updateBatch, deleteBatch, addStudents, removeStudent,
      createAnnouncement, updateAnnouncement, deleteAnnouncement, markAttendance,
      updateAttendance, deleteAttendance, setDay, deleteEntry, upsertEntry,
      clearDay, createTest, updateTest, deleteTest, upsertFees;
    (fails_or_ends; [left; split; assumption|right; simpl]);
    solve [now left | now right
          | repeat match goal with
            | H : match ?x with _ => _ end = Pure _ |- _ => destruct x; invM
            end; solve [now left | now right] ].
Qed.

(** ** Joining by code *)

(** A student who is already in [batch.students] and joins by the batch's
    code is answered 409, and nothing changes; one who is not is appended. *)
Theorem joinBatch_enrolled_conflict env db h (tok : string) (u : User) (b : Batch)
    (code : string) :
  code <> "" -> bearerToken h = Some tok -> jwt_verify env tok = Some (user_id u) ->
  User_findById env db (user_id u) = Pure (Some u) -> role u = "student" ->
  Batch_findByCode db (toUpperCase code) = Some b ->
  joinBatch env db h (Some code) =
    if includes (user_id u) (students b)
    then (db, json 409 "You are already enrolled in this batch")
    else (Batch_save env db (set_students b (students b ++ [user_id u])),
          json 200 "Successfully joined batch").
Proof.
  intros Hc Hb Hj Hu Hr Hf. unfold joinBatch, joinBatchBody.
  rewrite (truthy_nonempty Hc).
  assert (Hh : truthy h = true).
  { destruct h as [[|c s]|]; simpl in *; try discriminate. reflexivity. }
  rewrite Hh. cbn [negb orb rejectIf bind]. rewrite Hb. cbn [verify].
  rewrite Hj. cbn [bind]. rewrite Hu. cbn [bind]. rewrite Hr.
  change (String.eqb "student" "student") with true.
  cbn [orReject bind orEmpty]. rewrite Hf. cbn [orReject bind].
  now destruct (includes (user_id u) (students b)).
Qed.

(** Student 1, enrolled already, joins again by code. *)
Lemma joinBatch_witness :
  joinBatch env3 db2 (bearer "jwt-student1") (Some "math-10a") =
    (db2, json 409 "You are already enrolled in this batch").
Proof.
  exact (@joinBatch_enrolled_conflict env3 db2 (bearer "jwt-student1") "jwt-student1"
           student1 (set_updatedAt (set_students batch1 [idS1]) 2000) "math-10a"
           ltac:(discriminate) eq_refl eq_refl eq_refl eq_refl eq_refl).
Defined.

(** ** The rounding of the percentage, for up to 200 classes *)

Lemma roundsWellUpTo_spec (n total pres : nat) :
  roundsWellUpTo n = true -> total <= n -> pres <= total ->
  roundsWell pres total = true.
Proof.
  unfold roundsWellUpTo. intros T Ht Hp. rewrite forallb_forall in T.
  assert (Hin : In total (seq 0 (S n))) by (apply in_seq; lia).
  specialize (T total Hin). rewrite forallb_forall in T.
  apply T. apply in_seq. lia.
Qed.

Lemma roundsWell_table : roundsWellUpTo 200 = true.
Proof. vm_compute. reflexivity. Qed.

Lemma present_le_total (l : list FormattedRecord) :
  present (statisticsOf l) <= totalClasses (statisticsOf l).
Proof. simpl. apply filter_length_le. Qed.

(** With at most 200 classes, the hundredths that [Math.round] yields are
    an integer nearest to the exact [10000 * present / totalClasses], and
    [attendancePercentage] is the binary64 quotient of that integer by 100:
    the exact percentage, correctly rounded to two decimals. *)
Theorem percentage_correctly_rounded (l : list FormattedRecord) :
  List.length l <= 200 ->
  exists r : Z,
    (Z.abs (2 * r * Z.of_nat (totalClasses (statisticsOf l))
            - 20000 * Z.of_nat (present (statisticsOf l)))
     <= Z.of_nat (totalClasses (statisticsOf l)))%Z /\
    PrimFloat.eqb (attendancePercentage (statisticsOf l))
      (PrimFloat.div (Z_to_float r) 100%float) = true.
Proof.
  intros Hlen.
  pose proof (present_le_total l) as Hle.
  assert (E : attendancePercentage (statisticsOf l) =
              percentageOf (present (statisticsOf l)) (totalClasses (statisticsOf l)))
    by reflexivity.
  rewrite E. clear E.
  set (p := present (statisticsOf l)) in *.
  set (t := totalClasses (statisticsOf l)) in *.
  assert (Ht : t <= 200) by exact Hlen.
  pose proof (roundsWellUpTo_spec roundsWell_table Ht Hle) as T.
  unfold roundsWell in T.
  destruct (float_to_Z _) as [r|]; [|discriminate].
  apply andb_prop in T as [T1 T2]. exists r. split; [now apply Z.leb_le|exact T2].
Qed.

(** Two present of three: 66.67. *)
Lemma percentage_witness :
  exists r : Z,
    (Z.abs (2 * r * 3 - 20000 * 2) <= 3)%Z /\
    PrimFloat.eqb (percentageOf 2 3) (PrimFloat.div (Z_to_float r) 100%float) = true.
Proof.
  destruct (@percentage_correctly_rounded
              [ {| fr_date := 1; fr_status := "present"; fr_remarks := "";
                   fr_marked_by := None |};
                {| fr_date := 2; fr_status := "absent"; fr_remarks := "";
                   fr_marked_by := None |};
                {| fr_date := 3; fr_status := "present"; fr_remarks := "";
                   fr_marked_by := None |} ]
              ltac:(simpl; lia)) as (r & H1 & H2).
  exists r. split; [exact H1|exact H2].
Defined.

(** ** What every reachable state satisfies *)

(** In every state reached by requests from a database without batches and
    attendance: no two attendance records have the same batch and date, and
    in every batch no student has two fee records, every timetable hour is
    at least 1 and the code is in upper case. *)
Theorem reachable_invariants (db : DB) :
  reachable db ->
  NoDup (map attendanceKey (attendances db)) /\
  forall b, In b (batches db) ->
    NoDup (map fee_student (feesPayments b)) /\
    Forall (fun e => (1 <= hour e)%Z) (allEntries (timetable b)) /\
    toUpperCase (batch_code b) = batch_code b.
Proof.
  intros Hr. apply reachable_Inv in Hr. destruct Hr as [_ Hb Ha].
  split; [exact Ha|]. intros b Hin. rewrite Forall_forall in Hb.
  destruct (Hb b Hin) as [H2 H3 H4]. repeat split; assumption.
Qed.

(** The invariants at the last state of the examples. *)
Lemma reachable_invariants_witness :
  NoDup (map attendanceKey (attendances db5)) /\
  List.length (attendances db5) = 4 /\ List.length (batches db5) = 2.
Proof.
  destruct (reachable_invariants reachable_db5) as [H _].
  split; [exact H|]. split; reflexivity.
Defined.

(** ** The login validation and the authentication middleware *)

Lemma truthy_Some (s : option string) :
  truthy s = true <-> exists p, s = Some p /\ p <> "".
Proof.
  destruct s as [[|c r]|]; simpl; split; try discriminate.
  - intros (p & [= <-] & H). congruence.
  - intros _. eexists. split; [reflexivity|discriminate].
  - intros _. reflexivity.
  - intros (p & H & _). discriminate.
Qed.

Lemma matches_nil (s : list N) : matches [] s = true <-> s = [].
Proof. destruct s; simpl; split; congruence. Qed.

Lemma matches_Lit (c : N) (rest : list Item) (s : list N) :
  matches (Lit c :: rest) s = true <->
  exists r, s = c :: r /\ matches rest r = true.
Proof.
  destruct s as [|x s]; simpl.
  - split; [discriminate|]. intros (r & H & _). discriminate.
  - rewrite andb_true_iff, N.eqb_eq. split.
    + intros [-> H]. now exists s.
    + intros (r & [= -> ->] & H). auto.
Qed.

Lemma matches_NonSpaces (rest : list Item) (s : list N) :
  matches (NonSpaces :: rest) s = true <->
  exists a r, s = a ++ r /\ a <> [] /\ noWhiteSpace a = true /\
              matches rest r = true.
Proof.
  induction s as [|x s IH].
  - simpl. split; [discriminate|].
    intros (a & r & H & Ha & _). destruct a; [congruence|discriminate].
  - cbn [matches]. rewrite andb_true_iff, orb_true_iff, IH. split.
    + intros [Hx [(a & r & -> & Ha & Hn & Hr)|Hr]].
      * exists (x :: a), r. simpl. rewrite Hx, Hn. repeat split; auto.
        discriminate.
      * exists [x], s. simpl. rewrite Hx. repeat split; auto.
        discriminate.
    + intros (a & r & H & Ha & Hn & Hr).
      destruct a as [|y a]; [congruence|].
      simpl in H, Hn. injection H as <- ->.
      apply andb_true_iff in Hn as [Hy Hn]. split; [assumption|].
      destruct a as [|z a].
      * right. assumption.
      * left. exists (z :: a), r. repeat split; auto. discriminate.
Qed.

(** What the pattern [/^\S+@\S+\.\S+$/] accepts. *)
Lemma emailPattern_matches (e : list N) :
  matches emailPattern e = true <->
  exists a b c, e = address a b c /\
    a <> [] /\ b <> [] /\ c <> [] /\
    noWhiteSpace a = true /\ noWhiteSpace b = true /\ noWhiteSpace c = true.
Proof.
  unfold emailPattern, address. rewrite matches_NonSpaces. split.
  - intros (a & r & -> & Ha & Hna & H).
    apply matches_Lit in H as (r1 & -> & H).
    apply matches_NonSpaces in H as (b & r2 & -> & Hb & Hnb & H).
    apply matches_Lit in H as (r3 & -> & H).
    apply matches_NonSpaces in H as (c & r4 & -> & Hc & Hnc & H).
    apply matches_nil in H as ->.
    exists a, b, c. repeat split; auto.
    now rewrite app_nil_r.
  - intros (a & b & c & -> & Ha & Hb & Hc & Hna & Hnb & Hnc).
    exists a, (64%N :: b ++ 46%N :: c). repeat split; auto.
    apply matches_Lit. eexists. split; [reflexivity|].
    apply matches_NonSpaces. exists b, (46%N :: c). repeat split; auto.
    apply matches_Lit. eexists. split; [reflexivity|].
    apply matches_NonSpaces. exists c, []. repeat split; auto.
    now rewrite app_nil_r.
Qed.

(** [validateLogin] accepts exactly the bodies whose password is truthy
    (a string that is not empty, a number other than 0, [true], an array
    or an object) and whose email is truthy and reads, as a text, [a@b.c]
    with [a], [b] and [c] not empty and free of white space ([b] and [c]
    may themselves hold [@] and dots).  For an email that is a string
    this is: the string itself has that form. *)
Theorem validateLogin_accepts_iff (numberText : float -> list N)
    (data : LoginData) :
  (v_isValid (validateLogin numberText data) = true <->
   (isTruthy (login_email data) = true /\
    exists a b c,
      textOfField numberText (login_email data) = address a b c /\
      a <> [] /\ b <> [] /\ c <> [] /\
      noWhiteSpace a = true /\ noWhiteSpace b = true /\
      noWhiteSpace c = true) /\
   isTruthy (login_password data) = true) /\
  (forall s,
     login_email data = Some (JString s) ->
     (v_isValid (validateLogin numberText data) = true <->
      (exists a b c,
         s = address a b c /\ a <> [] /\ b <> [] /\ c <> [] /\
         noWhiteSpace a = true /\ noWhiteSpace b = true /\
         noWhiteSpace c = true) /\
      isTruthy (login_password data) = true)).
Proof.
  assert (Hiff :
    v_isValid (validateLogin numberText data) = true <->
    (isTruthy (login_email data) = true /\
     exists a b c,
       textOfField numberText (login_email data) = address a b c /\
       a <> [] /\ b <> [] /\ c <> [] /\
       noWhiteSpace a = true /\ noWhiteSpace b = true /\
       noWhiteSpace c = true) /\
    isTruthy (login_password data) = true).
  { unfold validateLogin. cbn [v_isValid err_email err_password].
    rewrite andb_true_iff, <- emailPattern_matches.
    destruct (isTruthy (login_email data)),
      (matches emailPattern (textOfField numberText (login_email data))),
      (isTruthy (login_password data)); simpl; intuition congruence. }
  split; [exact Hiff|].
  intros s Es. rewrite Hiff, Es. cbn [textOfField textOf].
  split.
  - intros [[_ H] Hp]. auto.
  - intros [(a & b & c & -> & Ha & H) Hp]. split; [split|assumption].
    + destruct a; [congruence|reflexivity].
    + exists a, b, c. auto.
Qed.

(** A password that is the number 123 passes; an address with a no-break
    space (code unit 160) in its first part does not. *)
Lemma validateLogin_witness :
  v_isValid
    (validateLogin (fun _ => [])
       {| login_email := Some (JString (units "asha@school.test"));
          login_password := Some (JNumber 123%float) |}) = true /\
  v_isValid
    (validateLogin (fun _ => [])
       {| login_email :=
            Some (JString (units "as" ++ 160%N :: units "ha@school.test"));
          login_password := Some (JString (units "secret")) |}) = false.
Proof.
  split.
  - apply (proj2 (validateLogin_accepts_iff (fun _ => [])
                    {| login_email := Some (JString (units "asha@school.test"));
                       login_password := Some (JNumber 123%float) |})
             (units "asha@school.test") eq_refl).
    split; [|reflexivity].
    exists (units "asha"), (units "school"), (units "test").
    repeat split; try reflexivity; discriminate.
  - reflexivity.
Defined.

Lemma split_space_word (w rest : string) :
  noSpace w = true ->
  split_space (w ++ " " ++ rest) = w :: split_space rest.
Proof.
  induction w as [|c w IH]; simpl in *; intros H; [reflexivity|].
  apply andb_true_iff in H as [Hc Hw].
  destruct (Ascii.eqb c " ") eqn:E.
  - apply Ascii.eqb_eq in E. subst c. discriminate.
  - now rewrite (IH Hw).
Qed.

Lemma bearerToken_word (w tok : string) :
  noSpace w = true ->
  bearerToken (Some (w ++ " " ++ tok)%string) = Some (hd "" (split_space tok)).
Proof.
  intros H. unfold bearerToken. rewrite (@split_space_word w tok H). simpl.
  destruct tok as [|c r]; simpl; [reflexivity|].
  destruct (Ascii.eqb c " "); [reflexivity|].
  now destruct (split_space r).
Qed.

(** [authMiddleware] lets a request through exactly when the second
    word of its [Authorization] header is a token that verifies as the
    identifier of an account, and then [req.user] is that account; every
    other request is answered 401 or 404 without data.  The first word of
    the header is never looked at: any scheme does as well as [Bearer]. *)
Theorem authMiddleware_passes_iff (env : Env) (db : DB) :
  (forall h u,
     authMiddleware env db h = Sent u <->
     exists tok usr,
       bearerToken h = Some tok /\ tok <> "" /\
       jwt_verify env tok = Some (user_id usr) /\
       isValid env (user_id usr) = true /\
       find (fun x => String.eqb (user_id x) (user_id usr)) (users db) = Some usr /\
       u = reqUserOf usr) /\
  (forall h r,
     authMiddleware env db h = Refused r ->
     data r = NoData /\ (status r = 401 \/ status r = 404)%N) /\
  (forall scheme tok,
     noSpace scheme = true ->
     authMiddleware env db (Some (scheme ++ " " ++ tok)%string) =
     authMiddleware env db (Some ("Bearer " ++ tok)%string)).
Proof.
  repeat split.
  - unfold authMiddleware, verify, User_findById, cast.
    destruct (bearerToken h) as [[|c t]|] eqn:Et; simpl; try discriminate.
    destruct (jwt_verify env (String c t)) as [uid|] eqn:Ev; simpl;
      [|discriminate].
    destruct (isValid env uid) eqn:Ei; simpl; [|discriminate].
    destruct (find _ (users db)) as [usr|] eqn:Ef; simpl; [|discriminate].
    intros [= <-].
    pose proof (find_In _ _ Ef) as [_ Hid]. apply String.eqb_eq in Hid.
    exists (String c t), usr. unfold reqUserOf. rewrite Hid.
    repeat split; auto. discriminate.
  - intros (tok & usr & Et & Hne & Ev & Ei & Ef & ->).
    unfold authMiddleware, verify, User_findById, cast. rewrite Et.
    destruct tok as [|c t]; [congruence|]. simpl.
    rewrite Ev. simpl. rewrite Ei. simpl. now rewrite Ef.
  - unfold authMiddleware, verify, User_findById, cast in H.
    destruct (bearerToken h) as [[|c t]|]; simpl in H;
      try (injection H as <-; reflexivity).
    destruct (jwt_verify env (String c t)) as [uid|]; simpl in H;
      [|injection H as <-; reflexivity].
    destruct (isValid env uid); simpl in H; [|injection H as <-; reflexivity].
    destruct (find _ (users db)); simpl in H; [discriminate|].
    injection H as <-; reflexivity.
  - unfold authMiddleware, verify, User_findById, cast in H.
    destruct (bearerToken h) as [[|c t]|]; simpl in H;
      try (injection H as <-; left; reflexivity).
    destruct (jwt_verify env (String c t)) as [uid|]; simpl in H;
      [|injection H as <-; left; reflexivity].
    destruct (isValid env uid); simpl in H;
      [|injection H as <-; left; reflexivity].
    destruct (find _ (users db)); simpl in H; [discriminate|].
    injection H as <-; right; reflexivity.
  - intros scheme tok H. unfold authMiddleware.
    rewrite (@bearerToken_word scheme tok H).
    change ("Bearer " ++ tok)%string with ("Bearer" ++ " " ++ tok)%string.
    now rewrite (@bearerToken_word "Bearer" tok eq_refl).
Qed.

(** The token of student 1 under the scheme [Basic]. *)
Lemma authMiddleware_witness :
  authMiddleware env1 db0 (Some "Basic jwt-student1") = Sent (reqUserOf student1).
Proof.
  destruct (authMiddleware_passes_iff env1 db0) as (H1 & _ & H3).
  change (Some "Basic jwt-student1")
    with (Some ("Basic" ++ " " ++ "jwt-student1")%string).
  rewrite (H3 "Basic" "jwt-student1" eq_refl).
  apply H1. exists "jwt-student1", student1.
  repeat split; try reflexivity. discriminate.
Defined.

(** ** References to students *)

Lemma Refs_In (db : DB) (b : Batch) : Refs db -> In b (batches db) -> BatchRefs db b.
Proof. unfold Refs. rewrite Forall_forall. auto. Qed.

(** The accounts are all that these references depend on. *)
Lemma BatchRefs_users (db db' : DB) (b : Batch) :
  users db' = users db -> BatchRefs db b -> BatchRefs db' b.
Proof.
  intros E [Hs Hf]. unfold isStudentId in Hs, Hf.
  constructor; unfold isStudentId; rewrite ?E; assumption.
Qed.

Lemma Refs_users (db db' : DB) (l : list Batch) :
  users db' = users db -> Forall (BatchRefs db) l -> Forall (BatchRefs db') l.
Proof.
  intros E. apply Forall_impl. intros b. now apply BatchRefs_users.
Qed.

Lemma Refs_save (env : Env) (db : DB) (b : Batch) :
  Refs db -> BatchRefs db b -> Refs (Batch_save env db b).
Proof.
  intros HR Hb. unfold Refs, Batch_save. simpl.
  apply Refs_users with (db := db); [reflexivity|].
  apply Forall_replace_first; [assumption|].
  destruct Hb. now constructor.
Qed.

Ltac batch_refs :=
  match goal with
  | HR : Refs ?db, Hin : In ?b (batches ?db) |- _ =>
      let Hb := fresh "HBR" in pose proof (@Refs_In _ _ HR Hin) as Hb
  end.

(** A handler that writes neither the students nor the fees of the batch
    it saves. *)
Ltac refs_kept :=
  by_cases; simpl; batch_refs;
  (apply Refs_save; [assumption|]);
  match goal with HBR : BatchRefs _ _ |- _ => destruct HBR end;
  constructor; simpl; assumption.

Lemma Forall_filter {A} (P : A -> Prop) (p : A -> bool) (l : list A) :
  Forall P l -> Forall P (filter p l).
Proof.
  rewrite !Forall_forall. intros H x Hx. apply filter_In in Hx as [Hx _]. auto.
Qed.

(** The caller of a join that succeeded is a student account. *)
Lemma joinBatch_student env db h code :
  joinBatch env db h code = (db, snd (joinBatch env db h code)) \/
  exists u b,
    In u (users db) /\ role u = "student" /\
    In b (batches db) /\ batch_code b = toUpperCase (orEmpty code) /\
    ~ In (user_id u) (students b) /\
    joinBatch env db h code =
      (Batch_save env db (set_students b (students b ++ [user_id u])),
       json 200 "Successfully joined batch").
Proof.
  unfold joinBatch.
  destruct (joinBatchBody env db h code) as [r|e|out] eqn:Hb; auto.
  - destruct e; auto.
  - right. unfold joinBatchBody in Hb. invM.
    match goal with
    | H : User_findById _ _ _ = Pure ?s,
      H1 : match ?s with _ => _ end = Some ?u,
      H2 : Batch_findByCode _ _ = Some ?b,
      H3 : includes (user_id ?u) _ = false |- _ =>
        exists u, b; unfold User_findById in H; invM;
        destruct (find _ (users db)) as [x|] eqn:Ef; [|discriminate H1];
        destruct (String.eqb (role x) "student") eqn:Er; [|discriminate H1];
        injection H1 as ->;
        apply find_In in Ef as [Hin _]; apply String.eqb_eq in Er;
        apply Batch_findByCode_In in H2 as [? ?];
        apply includes_not_In in H3;
        repeat split; auto
    end.
Qed.

Lemma upsertPayment_Forall (P : FeesPayment -> Prop) (p : FeesPayment)
    (l : list FeesPayment) :
  P p -> Forall P l -> Forall P (upsertPayment p l).
Proof.
  intros Hp Hl. unfold upsertPayment. destruct (findIndex _ l).
  - now apply Forall_update_at.
  - apply Forall_app. split; [assumption|]. now repeat constructor.
Qed.

Lemma route_Refs (env : Env) (db : DB) (h : option string) (req : Request) :
  Inv db -> Refs db -> Refs (fst (route env db h req)).
Proof.
  intros HI HR.
  destruct req; simpl;
    unfold createBatch, createBatchWith, updateBatch, deleteBatch, addStudents, removeStudent,
      createAnnouncement, updateAnnouncement, deleteAnnouncement, markAttendance,
      updateAttendance, deleteAttendance, setDay, deleteEntry, upsertEntry,
      clearDay, createTest, updateTest, deleteTest, upsertFees.
  - (* createBatch *)
    by_cases. simpl. unfold Refs, Batch_createWith. simpl.
    apply Refs_users with (db := db); [reflexivity|].
    apply Forall_app. split; [assumption|].
    repeat constructor.
  - (* updateBatch *)
    by_cases. simpl. batch_refs. apply Refs_save; [assumption|].
    destruct HBR. destruct (truthy name), (truthy cls); now constructor.
  - (* deleteBatch *)
    by_cases. simpl. unfold Refs, Batch_findByIdAndDelete. simpl.
    apply Refs_users with (db := db); [reflexivity|].
    now apply Forall_delete_first.
  - (* addStudents *)
    by_cases. simpl. batch_refs. apply Refs_save; [assumption|].
    destruct HBR. constructor; simpl; try assumption.
    apply Forall_app. split; [assumption|].
    match goal with
    | H : negb (Nat.eqb (List.length (User_findStudentsIn _ _)) _) = false |- _ =>
        apply negb_false_iff, Nat.eqb_eq in H;
        apply found_students in H as [_ Hall]; [|apply HI]
    end.
    apply Forall_forall. intros x Hx.
    apply in_map_iff in Hx as (id & <- & Hid).
    apply filter_In in Hid as [Hid _]. now apply Hall.
  - (* removeStudent *)
    by_cases. simpl. batch_refs. apply Refs_save; [assumption|].
    destruct HBR. constructor; simpl; try assumption.
    now apply Forall_filter.
  - (* joinBatch *)
    destruct (joinBatch_student env db h code)
      as [E|(u & b & Hu & Hr & Hin & _ & _ & E)]; rewrite E; simpl;
      [assumption|].
    batch_refs. apply Refs_save; [assumption|].
    destruct HBR. constructor; simpl; try assumption.
    apply Forall_app. split; [assumption|].
    repeat constructor. now exists u.
  - refs_kept.
  - refs_kept.
  - refs_kept.
  - (* markAttendance *)
    by_cases. simpl. now apply Refs_users with (db := db).
  - (* updateAttendance *)
    by_cases. simpl. now apply Refs_users with (db := db).
  - (* deleteAttendance *)
    by_cases. simpl. now apply Refs_users with (db := db).
  - refs_kept.
  - refs_kept.
  - refs_kept.
  - refs_kept.
  - refs_kept.
  - refs_kept.
  - refs_kept.
  - (* upsertFees *)
    by_cases. simpl. batch_refs. apply Refs_save; [assumption|].
    destruct HBR as [Hs Hf]. constructor; simpl; try assumption.
    apply upsertPayment_Forall; [|assumption]. simpl.
    match goal with
    | H : negb (includes _ _) = false |- _ =>
        apply negb_false_iff, includes_In in H;
        rewrite Forall_forall in Hs; now apply Hs
    end.
Qed.

Lemma reachable_Refs (db : DB) : reachable db -> Refs db.
Proof.
  induction 1 as [a u Hu|env db h req Hr IH].
  - constructor.
  - apply route_Refs; [now apply reachable_Inv|assumption].
Qed.

(** In every state the requests can reach, whoever sends them: the
    students of a batch are accounts with role [student], and every fee
    record of a batch names such an account. *)
Theorem reachable_references (db : DB) (b : Batch) :
  reachable db -> In b (batches db) ->
  (forall s, In s (students b) -> isStudentId db s) /\
  (forall p, In p (feesPayments b) -> isStudentId db (fee_student p)).
Proof.
  intros Hr Hin.
  destruct (@Refs_In db b (reachable_Refs Hr) Hin) as [Hs Hf].
  rewrite Forall_forall in Hs, Hf. split; auto.
Qed.

Lemma reachable_db8 : reachable db8.
Proof.
  unfold db8, db7, db6. do 3 apply reach_step. apply reachable_db2.
Qed.

(** The batch of the example with its student and its fee record. *)
Lemma reachable_references_witness :
  isStudentId db8 idS1 /\
  forall p, In p (feesPayments (hd batch1 (batches db8))) ->
            isStudentId db8 (fee_student p).
Proof.
  assert (Hin : In (hd batch1 (batches db8)) (batches db8))
    by (vm_compute; left; reflexivity).
  destruct (@reachable_references db8 _ reachable_db8 Hin) as (Hs & Hf).
  split; [|exact Hf].
  apply Hs. vm_compute. left. reflexivity.
Defined.

(** ** What a request leaves alone *)

Lemma keeps_refl (req : Request) (b : Batch) : keeps req b b.
Proof. repeat split. intros f _. now destruct f. Qed.

Lemma Forall2_same {A} (R : A -> A -> Prop) (l : list A) :
  (forall x, R x x) -> Forall2 R l l.
Proof. intros H. induction l; constructor; auto. Qed.

Lemma Forall2_replace_first {A} (R : A -> A -> Prop) (p : A -> bool) (x y : A)
    (l : list A) :
  (forall z, R z z) -> find p l = Some x -> R x y ->
  Forall2 R l (replace_first p y l).
Proof.
  intros Hrefl. induction l as [|a l IH]; simpl; [discriminate|].
  destruct (p a).
  - intros [= ->] Hxy. constructor; [assumption|now apply Forall2_same].
  - intros Hf Hxy. constructor; auto.
Qed.

Lemma batchAt_find (env : Env) (db : DB) (batchId : string) (b : Batch) :
  batchAt env db batchId b ->
  find (fun x => String.eqb (batch_id x) batchId) (batches db) = Some b.
Proof.
  unfold batchAt, Batch_findById, cast.
  destruct (isValid env batchId); simpl; [|discriminate]. now intros [= ->].
Qed.

(** With distinct identifiers a document is the first of its identifier. *)
Lemma find_unique {A} (g : A -> string) (l : list A) (b : A) :
  NoDup (map g l) -> In b l ->
  find (fun x => String.eqb (g x) (g b)) l = Some b.
Proof.
  induction l as [|a l IH]; simpl; [contradiction|].
  intros Hnd Hin. inversion Hnd as [|? ? Hn Hl]; subst.
  destruct Hin as [->|Hin].
  - now rewrite String.eqb_refl.
  - destruct (String.eqb (g a) (g b)) eqn:E; [|auto].
    apply String.eqb_eq in E. exfalso. apply Hn. rewrite E. now apply in_map.
Qed.

Lemma keeps_replace (env : Env) (db : DB) (req : Request) (batchId : string)
    (b b' : Batch) :
  batchAt env db batchId b -> keeps req b b' ->
  Forall2 (keeps req) (batches db)
    (replace_first (fun x => String.eqb (batch_id x) batchId) b' (batches db)).
Proof.
  intros Hat Hk.
  apply Forall2_replace_first with (x := b);
    [apply keeps_refl|now apply batchAt_find with (env := env)|assumption].
Qed.

Lemma delete_first_filter (l : list Batch) (id : string) :
  NoDup (map batch_id l) ->
  delete_first (fun x => String.eqb (batch_id x) id) l =
  filter (fun b => negb (String.eqb (batch_id b) id)) l.
Proof.
  induction l as [|a l IH]; simpl; [reflexivity|].
  intros Hnd. inversion Hnd as [|? ? Hn Hl]; subst.
  destruct (String.eqb (batch_id a) id) eqn:E; simpl.
  - apply String.eqb_eq in E. subst id.
    symmetry. apply forallb_filter_id. apply forallb_forall. intros x Hx.
    apply negb_true_iff, String.eqb_neq. intros Hid. apply Hn.
    rewrite <- Hid. now apply in_map.
  - now rewrite IH.
Qed.

(** Ends a case of the frame property: the batch saved is the batch found
    with one of the fields of the request set anew. *)
Ltac keeps_tac :=
  simpl;
  repeat match goal with
  | |- _ /\ _ => split
  | |- _ -> _ => intro
  end; try discriminate; try reflexivity; try assumption;
  try (eapply keeps_replace; [eassumption|]);
  try (apply Forall2_same; apply keeps_refl);
  try (repeat split; simpl; auto;
       let f := fresh "f" in let Hf := fresh "Hf" in
       intros f Hf; destruct f; simpl; try reflexivity;
       exfalso; apply Hf; simpl; auto).

(** What a request leaves alone.  No request writes an account.
    Attendance is written by the three attendance requests only, and these
    write no batch.  Creating a batch appends one document and removing one
    drops the document of that identifier; every other request keeps the
    batches in place, each with its identifier, code, teacher and creation
    date, and changes no field but its own: name and class for an update,
    the students for an enrolment or a removal, and the announcements, the
    timetable, the tests or the fees for the requests about them.  The
    identifiers of the batches are distinct, as in any collection. *)
Theorem writes_keep_other_fields (env : Env) (db : DB) (h : option string)
    (req : Request) :
  NoDup (map batch_id (batches db)) ->
  admins (fst (route env db h req)) = admins db /\
  users (fst (route env db h req)) = users db /\
  (writesAttendance req = false ->
   attendances (fst (route env db h req)) = attendances db) /\
  batchesAfter req (batches db) (batches (fst (route env db h req))).
Proof.
  intros Hnd.
  destruct req; simpl;
    unfold createBatch, createBatchWith, updateBatch, deleteBatch, addStudents, removeStudent,
      createAnnouncement, updateAnnouncement, deleteAnnouncement, markAttendance,
      updateAttendance, deleteAttendance, setDay, deleteEntry, upsertEntry,
      clearDay, createTest, updateTest, deleteTest, upsertFees.
  - (* createBatch *)
    by_cases; [repeat split; auto|]. simpl. repeat split. right. eauto.
  - (* updateBatch *)
    by_cases; [keeps_tac|]. keeps_tac.
    destruct (truthy name), (truthy cls); keeps_tac.
  - (* deleteBatch *)
    by_cases; [repeat split; auto|]. simpl. repeat split. right.
    now apply delete_first_filter.
  - by_cases; keeps_tac.
  - by_cases; keeps_tac.
  - (* joinBatch *)
    destruct (joinBatch_student env db h code)
      as [E|(u & b & Hu & Hr & Hin & _ & _ & E)]; rewrite E; [keeps_tac|].
    simpl. repeat split.
    apply Forall2_replace_first with (x := b);
      [apply keeps_refl|now apply find_unique|keeps_tac].
  - by_cases; keeps_tac.
  - by_cases; keeps_tac.
  - by_cases; keeps_tac.
  - by_cases; keeps_tac.
  - by_cases; keeps_tac.
  - by_cases; keeps_tac.
  - by_cases; keeps_tac.
  - by_cases; keeps_tac.
  - by_cases; keeps_tac.
  - by_cases; keeps_tac.
  - by_cases; keeps_tac.
  - by_cases; keeps_tac.
  - by_cases; keeps_tac.
  - by_cases; keeps_tac.
Qed.

(** Monday of the example is set by a request without a header. *)
Lemma writes_keep_other_fields_witness :
  users db3 = users db2 /\ Forall2 (keeps reqMonday) (batches db2) (batches db3).
Proof.
  assert (Hnd : NoDup (map batch_id (batches db2)))
    by (vm_compute; repeat constructor; intros []).
  destruct (@writes_keep_other_fields env2 db2 None reqMonday Hnd)
    as (_ & Hu & _ & Hb).
  split; [exact Hu|exact Hb].
Defined.

(** ** Removing a student *)

Lemma batchAt_saved (env env' : Env) (db : DB) (batchId : string) (b b' : Batch) :
  batchAt env db batchId b -> batch_id b' = batch_id b ->
  isValid env' batchId = true ->
  batchAt env' (Batch_save env db b') batchId (set_updatedAt b' (now env)).
Proof.
  intros Hb Hid Hv. apply batchAt_save with (b := b); auto.
  rewrite Hid. now apply batchAt_In in Hb.
Qed.

Lemma findBatch_saved (env env' : Env) (db : DB) (batchId : string) (b b' : Batch) :
  batchAt env db batchId b -> batch_id b' = batch_id b ->
  isValid env' batchId = true ->
  findBatch env' (Batch_save env db b') batchId =
    Pure (set_updatedAt b' (now env)).
Proof.
  intros Hb Hid Hv. apply batchAt_findBatch. now apply batchAt_saved with (b := b).
Qed.

Lemma requireOwner_ok (b : Batch) (tok msg : string) :
  teacher_id b = tok -> requireOwner b tok msg = Pure tt.
Proof. intros <-. unfold requireOwner. now rewrite String.eqb_refl. Qed.

Lemma invalidId_false (env : Env) (id : option string) :
  invalidId env id = false ->
  exists i, id = Some i /\ truthy id = true /\ isValid env i = true.
Proof.
  unfold invalidId. intros H. apply orb_false_iff in H as [H1 H2].
  apply negb_false_iff in H1, H2.
  destruct id as [i|]; [|discriminate]. exists i. auto.
Qed.

Lemma isEnrolled_In (b : Batch) (s : string) :
  isEnrolled b s = true <-> In s (students b).
Proof.
  unfold isEnrolled. rewrite existsb_exists. split.
  - intros (x & Hx & E). apply String.eqb_eq in E. now subst.
  - intros H. exists s. split; [assumption|apply String.eqb_refl].
Qed.

Lemma isEnrolled_not_In (b : Batch) (s : string) :
  isEnrolled b s = false <-> ~ In s (students b).
Proof.
  rewrite <- isEnrolled_In. destruct (isEnrolled b s); split; congruence.
Qed.

Lemma removeStudent_runs env db h (t : AdminUser) batchId (b : Batch) studentId :
  teacherCalls env db h t -> batchAt env db batchId b ->
  teacher_id b = admin_id t -> In studentId (students b) ->
  removeStudent env db h batchId studentId =
    (Batch_save env db
       (set_students b
          (filter (fun id => negb (String.eqb id studentId)) (students b))),
     json 200 "Student removed from batch successfully").
Proof.
  intros Ht Hb Ho Hin. unfold removeStudent.
  rewrite (authTeacher_ok _ Ht). simpl.
  rewrite (batchAt_findBatch Hb). simpl.
  rewrite requireOwner_ok by exact Ho. simpl.
  apply includes_In in Hin. now rewrite Hin.
Qed.

(** When the owner removes a student from a batch: the student, and
    nobody else, leaves [batch.students]; the fee records and the tests of
    the batch stay as they are (those of the student too) and so does the
    attendance; from then on the student's own fee view of the batch is
    answered 403.  Removing somebody who is not in the batch is answered
    404 and changes nothing. *)
Theorem removeStudent_removes env env' db h h' (t : AdminUser) batchId (b : Batch)
    studentId :
  teacherCalls env db h t -> batchAt env db batchId b ->
  teacher_id b = admin_id t ->
  invalidId env' (Some batchId) = false ->
  invalidId env' (Some studentId) = false ->
  (In studentId (students b) ->
   let out := removeStudent env db h batchId studentId in
   snd out = json 200 "Student removed from batch successfully" /\
   attendances (fst out) = attendances db /\
   (exists b',
      batchAt env' (fst out) batchId b' /\
      (forall s, In s (students b') <-> In s (students b) /\ s <> studentId) /\
      feesPayments b' = feesPayments b /\ testResults b' = testResults b) /\
   studentFees env' (fst out) h' batchId (Some studentId) =
     Refused (json 403 "Student is not enrolled in this batch")) /\
  (~ In studentId (students b) ->
   removeStudent env db h batchId studentId =
     (db, json 404 "Student not found in this batch")).
Proof.
  intros Ht Hb Ho Hvb Hvs. split.
  - intros Hin out. unfold out. rewrite (@removeStudent_runs env db h t batchId b studentId Ht Hb Ho Hin).
    simpl.
    apply invalidId_false in Hvb as (i & [= <-] & Htb & Hvb').
    pose proof (batchAt_In Hb) as (_ & Hid & _).
    pose proof (@batchAt_save env env' db batchId b
                  (set_students b
                     (filter (fun id => negb (String.eqb id studentId)) (students b)))
                  Hb Hid Hvb') as Hb'.
    assert (Hs : forall s,
               In s (filter (fun id => negb (String.eqb id studentId)) (students b))
               <-> In s (students b) /\ s <> studentId).
    { intros s. rewrite filter_In, negb_true_iff, String.eqb_neq. tauto. }
    split; [reflexivity|]. split; [reflexivity|]. split.
    + eexists. split; [exact Hb'|]. simpl.
      split; [exact Hs|split; reflexivity].
    + unfold studentFees. unfold invalidId at 1. cbn [orEmpty].
      rewrite Htb, Hvb'. simpl.
      rewrite Hvs. simpl.
      rewrite (batchAt_findBatch Hb'). simpl.
      replace (isEnrolled _ studentId) with false; [reflexivity|].
      symmetry. apply isEnrolled_not_In. simpl. rewrite Hs. tauto.
  - intros Hn. unfold removeStudent.
    rewrite (authTeacher_ok _ Ht). simpl.
    rewrite (batchAt_findBatch Hb). simpl.
    rewrite requireOwner_ok by exact Ho. simpl.
    apply includes_not_In in Hn. now rewrite Hn.
Qed.

(** Teacher 1 removes student 1 from the batch, and then student 2, who
    is not in it. *)
Lemma removeStudent_witness :
  snd (removeStudent env3 db2 (bearer idT1) idB1 idS1) =
    json 200 "Student removed from batch successfully" /\
  studentFees env3 (fst (removeStudent env3 db2 (bearer idT1) idB1 idS1)) None
    idB1 (Some idS1) =
    Refused (json 403 "Student is not enrolled in this batch") /\
  removeStudent env3 db2 (bearer idT1) idB1 idS2 =
    (db2, json 404 "Student not found in this batch").
Proof.
  assert (Ht : teacherCalls env3 db2 (bearer idT1) teacher1)
    by (split; [split|]; vm_compute; reflexivity).
  assert (Hb : batchAt env3 db2 idB1 (set_updatedAt (set_students batch1 [idS1]) 2000))
    by (vm_compute; reflexivity).
  destruct (@removeStudent_removes env3 env3 db2 (bearer idT1) None teacher1 idB1
              _ idS1 Ht Hb eq_refl eq_refl eq_refl) as [H1 _].
  destruct (@removeStudent_removes env3 env3 db2 (bearer idT1) None teacher1 idB1
              _ idS2 Ht Hb eq_refl eq_refl eq_refl) as [_ H2].
  destruct (H1 (or_introl eq_refl)) as (Hs & _ & _ & Hf).
  split; [exact Hs|]. split; [exact Hf|].
  apply H2. simpl. intros [E|[]]. discriminate.
Defined.

(** ** Announcements *)

Lemma populate_admin_teacher env db h (t : AdminUser) :
  teacherCalls env db h t ->
  populate_admin db (admin_id t) =
    Some {| ref_id := admin_id t; ref_name := admin_name t;
            ref_email := admin_email t |}.
Proof.
  intros [_ Hf]. unfold AdminUser_findById, cast in Hf.
  destruct (isValid env (admin_id t)); simpl in Hf; [|discriminate].
  injection Hf as Hf. unfold populate_admin. now rewrite Hf.
Qed.

Lemma createAnnouncement_runs env db h (t : AdminUser) batchId (b : Batch) ttl cnt :
  teacherCalls env db h t -> batchAt env db batchId b ->
  teacher_id b = admin_id t -> truthy ttl = true -> truthy cnt = true ->
  createAnnouncement env db h batchId ttl cnt =
    (Batch_save env db
       (set_announcements b
          ({| ann_id := newObjectId env; title := orEmpty ttl;
              content := orEmpty cnt; ann_teacher_id := admin_id t;
              ann_createdAt := now env |} :: announcements b)),
     json 201 "Announcement created successfully").
Proof.
  intros Ht Hb Ho Ht1 Ht2. unfold createAnnouncement.
  rewrite (authTeacher_ok _ Ht). simpl.
  rewrite (batchAt_findBatch Hb). simpl.
  rewrite requireOwner_ok by exact Ho. simpl.
  now rewrite Ht1, Ht2.
Qed.

(** An announcement the owner of a batch posts is the first of the
    list that [GET /batches/:batchId/announcements] then sends to anybody:
    with the title and the content of the request, the clock's date and
    the poster as its teacher, followed by the announcements there were.
    A request without a title or without a content is answered 500 and
    stores nothing. *)
Theorem announcement_round_trip env env' db h h' (t : AdminUser) batchId
    (b : Batch) (ttl cnt : option string) :
  teacherCalls env db h t -> batchAt env db batchId b ->
  teacher_id b = admin_id t -> isValid env' batchId = true ->
  (truthy ttl = true -> truthy cnt = true ->
   let out := createAnnouncement env db h batchId ttl cnt in
   snd out = json 201 "Announcement created successfully" /\
   snd (getAnnouncements env' (fst out) h' batchId) =
     ok (AnnouncementsData
           ({| av_announcement :=
                 {| ann_id := newObjectId env; title := orEmpty ttl;
                    content := orEmpty cnt; ann_teacher_id := admin_id t;
                    ann_createdAt := now env |};
               av_teacher :=
                 Some {| ref_id := admin_id t; ref_name := admin_name t;
                         ref_email := admin_email t |} |}
            :: map (fun a => {| av_announcement := a;
                                av_teacher := populate_admin db (ann_teacher_id a) |})
                 (announcements b)))) /\
  (truthy ttl && truthy cnt = false ->
   createAnnouncement env db h batchId ttl cnt =
     (db, json 500 "Error creating announcement")).
Proof.
  intros Ht Hb Ho Hv. split.
  - intros Ht1 Ht2 out. unfold out.
    rewrite (@createAnnouncement_runs env db h t batchId b ttl cnt Ht Hb Ho Ht1 Ht2).
    simpl. split; [reflexivity|].
    unfold getAnnouncements.
    erewrite findBatch_saved; [|exact Hb|reflexivity|exact Hv].
    simpl. unfold ok. do 3 f_equal.
    change (populate_admin (Batch_save env db _) (admin_id t))
      with (populate_admin db (admin_id t)).
    now rewrite (populate_admin_teacher Ht).
  - intros Hf. unfold createAnnouncement.
    rewrite (authTeacher_ok _ Ht). simpl.
    rewrite (batchAt_findBatch Hb). simpl.
    rewrite requireOwner_ok by exact Ho. simpl.
    now rewrite Hf.
Qed.

(** Teacher 1 posts to the batch, and then posts without a content. *)
Lemma announcement_witness :
  snd (getAnnouncements env4
         (fst (createAnnouncement env3 db2 (bearer idT1) idB1 (Some "Holiday")
                 (Some "No class on Friday"))) None idB1) =
    ok (AnnouncementsData
          [{| av_announcement :=
                {| ann_id := idA1; title := "Holiday";
                   content := "No class on Friday"; ann_teacher_id := idT1;
                   ann_createdAt := 3000 |};
              av_teacher :=
                Some {| ref_id := idT1; ref_name := "Asha";
                        ref_email := "asha@school.test" |} |}]) /\
  createAnnouncement env3 db2 (bearer idT1) idB1 (Some "Holiday") None =
    (db2, json 500 "Error creating announcement").
Proof.
  assert (Ht : teacherCalls env3 db2 (bearer idT1) teacher1)
    by (split; [split|]; vm_compute; reflexivity).
  assert (Hb : batchAt env3 db2 idB1 (set_updatedAt (set_students batch1 [idS1]) 2000))
    by (vm_compute; reflexivity).
  split.
  - destruct (@announcement_round_trip env3 env4 db2 (bearer idT1) None teacher1
                idB1 _ (Some "Holiday") (Some "No class on Friday") Ht Hb eq_refl
                eq_refl) as [H _].
    exact (proj2 (H eq_refl eq_refl)).
  - destruct (@announcement_round_trip env3 env4 db2 (bearer idT1) None teacher1
                idB1 _ (Some "Holiday") None Ht Hb eq_refl eq_refl) as [_ H].
    exact (H eq_refl).
Defined.

Lemma findIndex_first {A} (p : A -> bool) (l1 : list A) (x : A) (l2 : list A) :
  (forall y, In y l1 -> p y = false) -> p x = true ->
  findIndex p (l1 ++ x :: l2) = Some (List.length l1).
Proof.
  induction l1 as [|a l1 IH]; simpl; intros H Hx.
  - now rewrite Hx.
  - rewrite (H a) by now left. rewrite IH; auto.
Qed.

Lemma findIndex_absent {A} (p : A -> bool) (l : list A) :
  (forall y, In y l -> p y = false) -> findIndex p l = None.
Proof.
  induction l as [|a l IH]; simpl; intros H; [reflexivity|].
  rewrite (H a) by now left. rewrite IH; auto.
Qed.

(** The owner's update of an announcement rewrites the first
    announcement of that identifier where it stands: a title or a content
    that the request gives (and that is not empty) replaces the old one,
    everything else — identifier, poster, date, the other announcements and
    their order — stays.  The owner's delete takes that announcement, and
    only it, out of the list.  An unknown identifier is answered 404 by both
    and changes nothing. *)
Theorem announcement_update_delete env env' db h (t : AdminUser) batchId
    (b : Batch) (aid : string) (ttl cnt : option string) :
  teacherCalls env db h t -> batchAt env db batchId b ->
  teacher_id b = admin_id t -> isValid env' batchId = true ->
  (forall l1 a l2,
     announcements b = l1 ++ a :: l2 -> ann_id a = aid ->
     (forall x, In x l1 -> ann_id x <> aid) ->
     (let out := updateAnnouncement env db h batchId aid ttl cnt in
      snd out = json 200 "Announcement updated successfully" /\
      exists b',
        batchAt env' (fst out) batchId b' /\
        announcements b' =
          l1 ++ {| ann_id := ann_id a;
                   title := if truthy ttl then orEmpty ttl else title a;
                   content := if truthy cnt then orEmpty cnt else content a;
                   ann_teacher_id := ann_teacher_id a;
                   ann_createdAt := ann_createdAt a |} :: l2) /\
     (let out := deleteAnnouncement env db h batchId aid in
      snd out = json 200 "Announcement deleted successfully" /\
      exists b',
        batchAt env' (fst out) batchId b' /\ announcements b' = l1 ++ l2)) /\
  ((forall x, In x (announcements b) -> ann_id x <> aid) ->
   updateAnnouncement env db h batchId aid ttl cnt =
     (db, json 404 "Announcement not found") /\
   deleteAnnouncement env db h batchId aid =
     (db, json 404 "Announcement not found")).
Proof.
  intros Ht Hb Ho Hv.
  pose proof (batchAt_In Hb) as (_ & Hid & _).
  split.
  - intros l1 a l2 El Ha Hl1.
    assert (Hi : findIndex (fun x => String.eqb (ann_id x) aid) (announcements b)
                 = Some (List.length l1)).
    { rewrite El. apply findIndex_first.
      - intros y Hy. now apply String.eqb_neq, Hl1.
      - now apply String.eqb_eq. }
    split.
    + intros out. unfold out, updateAnnouncement.
      rewrite (authTeacher_ok _ Ht). simpl.
      rewrite (batchAt_findBatch Hb). simpl.
      rewrite requireOwner_ok by exact Ho. simpl.
      rewrite Hi. simpl. split; [reflexivity|].
      eexists. split; [eapply batchAt_saved; [exact Hb|reflexivity|exact Hv]|].
      simpl. rewrite El, update_at_app.
      destruct (truthy ttl), (truthy cnt); destruct a; reflexivity.
    + intros out. unfold out, deleteAnnouncement.
      rewrite (authTeacher_ok _ Ht). simpl.
      rewrite (batchAt_findBatch Hb). simpl.
      rewrite requireOwner_ok by exact Ho. simpl.
      rewrite Hi. simpl. split; [reflexivity|].
      eexists. split; [eapply batchAt_saved; [exact Hb|reflexivity|exact Hv]|].
      simpl. now rewrite El, remove_at_app.
  - intros Hno.
    assert (Hi : findIndex (fun x => String.eqb (ann_id x) aid) (announcements b)
                 = None).
    { apply findIndex_absent. intros y Hy. now apply String.eqb_neq, Hno. }
    unfold updateAnnouncement, deleteAnnouncement.
    rewrite !(authTeacher_ok _ Ht). simpl.
    rewrite (batchAt_findBatch Hb). simpl.
    rewrite !requireOwner_ok by exact Ho. simpl.
    now rewrite Hi.
Qed.

(** The announcement of the example is rewritten with an empty title in
    the request, and an unknown one is deleted. *)
Lemma announcement_update_delete_witness :
  (exists b',
     batchAt env4
       (fst (updateAnnouncement env4 db9 (bearer idT1) idB1 idA1 (Some "")
               (Some "Class on Saturday"))) idB1 b' /\
     announcements b' = [set_content posted "Class on Saturday"]) /\
  deleteAnnouncement env4 db9 (bearer idT1) idB1 idA2 =
    (db9, json 404 "Announcement not found").
Proof.
  assert (Ht : teacherCalls env4 db9 (bearer idT1) teacher1)
    by (split; [split|]; vm_compute; reflexivity).
  assert (Hb : batchAt env4 db9 idB1 (hd batch1 (batches db9)))
    by (vm_compute; reflexivity).
  split.
  - destruct (@announcement_update_delete env4 env4 db9 (bearer idT1) teacher1
                idB1 _ idA1 (Some "") (Some "Class on Saturday") Ht Hb eq_refl
                eq_refl) as [H _].
    destruct (H [] posted [] eq_refl eq_refl) as [Hu _].
    + intros x [].
    + destruct Hu as (_ & b' & Hb' & Ea). exists b'. split; [exact Hb'|exact Ea].
  - destruct (@announcement_update_delete env4 env4 db9 (bearer idT1) teacher1
                idB1 _ idA2 None None Ht Hb eq_refl eq_refl) as [_ H].
    assert (Ea : announcements (hd batch1 (batches db9)) = [posted])
      by (vm_compute; reflexivity).
    apply H. rewrite Ea. intros x [<-|[]]. discriminate.
Defined.

(** ** Tests and marks *)

Lemma createTest_runs env db h batchId (b : Batch) name maxMarks subj :
  presents h (teacher_id b) -> batchAt env db batchId b ->
  truthy name = true -> isSome maxMarks = true -> truthy subj = true ->
  createTest env db h batchId name maxMarks subj =
    (Batch_save env db
       (set_testResults b
          (testResults b ++
           [{| test_id := newObjectId env; examName := orEmpty name;
               test_date := now env; maximumMarks := numOr0 maxMarks;
               test_subject := orEmpty subj; createdBy := teacher_id b;
               studentMarks := [] |}])),
     json 201 "Test created successfully").
Proof.
  intros Hp Hb H1 H2 H3. unfold createTest.
  rewrite (requireBearer_ok _ Hp). simpl.
  rewrite (batchAt_findBatch Hb). simpl.
  rewrite requireOwner_ok by reflexivity. simpl.
  now rewrite H1, H2, H3.
Qed.

Lemma find_app_None {A} (p : A -> bool) (l1 l2 : list A) :
  (forall y, In y l1 -> p y = false) -> find p (l1 ++ l2) = find p l2.
Proof.
  induction l1 as [|a l1 IH]; simpl; intros H; [reflexivity|].
  rewrite (H a) by now left. apply IH. auto.
Qed.

(** The tests of a batch are read and written by its owner only:
    what counts as the owner is a header whose token is the [teacher_id] of
    the batch, no account is looked up.  A test the owner creates is then
    the last of [GET /batches/:batchId/tests], without marks, and is what
    [GET /batches/:batchId/tests/:testId] sends for its identifier (a new
    identifier is one no test of the batch has).  Any other token is
    answered 403 by both reads, and a request without a bearer header
    401. *)
Theorem tests_round_trip env env' db h h' batchId (b : Batch) name maxMarks subj :
  batchAt env db batchId b -> isValid env' batchId = true ->
  (presents h (teacher_id b) -> presents h' (teacher_id b) ->
   truthy name = true -> isSome maxMarks = true -> truthy subj = true ->
   ~ In (newObjectId env) (map test_id (testResults b)) ->
   let newTest :=
     {| test_id := newObjectId env; examName := orEmpty name;
        test_date := now env; maximumMarks := numOr0 maxMarks;
        test_subject := orEmpty subj; createdBy := teacher_id b;
        studentMarks := [] |} in
   let out := createTest env db h batchId name maxMarks subj in
   snd out = json 201 "Test created successfully" /\
   getTests env' (fst out) h' batchId = Sent (testResults b ++ [newTest]) /\
   getTest env' (fst out) h' batchId (newObjectId env) = Sent newTest) /\
  (forall tok testId,
     presents h tok -> tok <> teacher_id b ->
     getTests env db h batchId =
       Refused (json 403 "Unauthorized to view tests for this batch") /\
     getTest env db h batchId testId =
       Refused (json 403 "Unauthorized to view this test")) /\
  (forall testId,
     noBearer h = true ->
     getTests env db h batchId =
       Refused (json 401 "Authorization header is required") /\
     getTest env db h batchId testId =
       Refused (json 401 "Authorization header is required")).
Proof.
  intros Hb Hv. split; [|split].
  - intros Hp Hp' H1 H2 H3 Hnew newTest out. unfold out.
    rewrite (@createTest_runs env db h batchId b name maxMarks subj Hp Hb H1 H2 H3).
    simpl. split; [reflexivity|].
    unfold getTests, getTest.
    rewrite !(requireBearer_ok _ Hp'). simpl.
    erewrite !findBatch_saved; [|exact Hb|reflexivity|exact Hv].
    simpl. rewrite !requireOwner_ok by reflexivity. simpl.
    split; [reflexivity|].
    rewrite find_app_None.
    + simpl. now rewrite String.eqb_refl.
    + intros y Hy. apply String.eqb_neq. intros E. apply Hnew.
      rewrite <- E. now apply in_map.
  - intros tok testId Hp Hne. unfold getTests, getTest.
    rewrite !(requireBearer_ok _ Hp). simpl.
    rewrite (batchAt_findBatch Hb). simpl.
    unfold requireOwner.
    replace (String.eqb (teacher_id b) tok) with false; [now split|].
    symmetry. apply String.eqb_neq. congruence.
  - intros testId Hn. unfold getTests, getTest, requireBearer.
    now rewrite Hn.
Qed.

Lemma numOr0_Some (x : option float) : isSome x = true -> Some (numOr0 x) = x.
Proof. now destruct x. Qed.

(** The marks shown for [s] after one turn of the loop, for an entry that
    names its student as the server prints it. *)
Lemma marksOf_recordMark (s : string) (rows : list StudentMark) (m : MarkInput) :
  printed (in_student m) ->
  marksOf s (recordMark rows m) =
  if String.eqb (in_student m) s then Some (numOr0 (in_marks m))
  else marksOf s rows.
Proof.
  intros Hpr. unfold marksOf, recordMark. rewrite Hpr.
  destruct (findIndex _ rows) as [i|] eqn:E.
  - apply findIndex_Some in E as (l1 & x & l2 & -> & <- & Hx & Hl1).
    rewrite update_at_app. apply String.eqb_eq in Hx.
    destruct (String.eqb_spec (in_student m) s) as [Es|Ns].
    + rewrite find_app_None.
      * simpl. rewrite Hx, Es, String.eqb_refl. reflexivity.
      * intros y Hy. rewrite <- Es. now apply Hl1.
    + assert (Hxs : String.eqb (mark_student x) s = false)
        by (apply String.eqb_neq; congruence).
      clear Hl1. induction l1 as [|a l1 IH]; simpl.
      * now rewrite Hxs.
      * destruct (String.eqb (mark_student a) s); [reflexivity|exact IH].
  - pose proof (findIndex_None _ _ E) as Hno.
    destruct (String.eqb_spec (in_student m) s) as [Es|Ns].
    + rewrite find_app_None.
      * simpl. rewrite Es, String.eqb_refl. reflexivity.
      * intros y Hy. rewrite <- Es. now apply Hno.
    + clear E Hno. induction rows as [|a rows IH]; simpl.
      * replace (String.eqb (in_student m) s) with false
          by (symmetry; now apply String.eqb_neq).
        reflexivity.
      * destruct (String.eqb (mark_student a) s); [reflexivity|exact IH].
Qed.

(** The marks shown for [s] after the loop: those of the last entry for
    [s], or the ones there were. *)
Lemma marksOf_recordMarks (s : string) (sm : list MarkInput)
    (rows : list StudentMark) :
  (forall m, In m sm -> printed (in_student m)) ->
  marksOf s (fold_left recordMark sm rows) =
  match lastEntry s sm with
  | Some m => Some (numOr0 (in_marks m))
  | None => marksOf s rows
  end.
Proof.
  unfold lastEntry. revert rows.
  induction sm as [|m sm IH]; intros rows Hpr; simpl; [reflexivity|].
  rewrite IH by (intros x Hx; apply Hpr; now right).
  rewrite marksOf_recordMark by (apply Hpr; now left).
  destruct (find _ (rev sm)) as [m'|] eqn:E.
  - assert (Hf : find (fun m0 => String.eqb (in_student m0) s) (rev sm ++ [m])
                 = Some m').
    { clear IH. induction (rev sm) as [|a l IHl]; simpl in *; [discriminate|].
      destruct (String.eqb (in_student a) s); [assumption|auto]. }
    now rewrite Hf.
  - rewrite find_app_None by (intros y Hy; exact (find_none _ _ E y Hy)).
    simpl. now destruct (String.eqb (in_student m) s).
Qed.

Lemma lastEntry_In (s : string) (sm : list MarkInput) (m : MarkInput) :
  lastEntry s sm = Some m -> In m sm /\ in_student m = s.
Proof.
  unfold lastEntry. intros H. apply find_In in H as [Hin E].
  apply in_rev in Hin. apply String.eqb_eq in E. auto.
Qed.

(** When the owner sends marks for a test, each entry naming its student
    as the server prints the identifier, the test shows for every student
    the marks of the last entry the request has for that student, and for
    a student the request does not name the marks it showed before; the
    test stays where it is among the tests of the batch, and the other
    tests are untouched.  Nothing ties the students of the request to the
    batch: marks are recorded for any well-formed identifier. *)
Theorem updateTest_records_marks env env' db h batchId (b : Batch) testId
    (l1 : list TestResult) (t0 : TestResult) (l2 : list TestResult)
    name maxMarks subj (sm : list MarkInput) :
  presents h (teacher_id b) -> batchAt env db batchId b ->
  isValid env' batchId = true ->
  testResults b = l1 ++ t0 :: l2 -> test_id t0 = testId ->
  (forall x, In x l1 -> test_id x <> testId) ->
  forallb (fun m => isValid env (in_student m) && isSome (in_marks m)) sm = true ->
  (forall m, In m sm -> printed (in_student m)) ->
  let out := updateTest env db h batchId testId name maxMarks subj (Some sm) in
  snd out = json 200 "Test updated successfully" /\
  exists b' t',
    batchAt env' (fst out) batchId b' /\
    testResults b' = l1 ++ t' :: l2 /\ test_id t' = testId /\
    forall s,
      marksOf s (studentMarks t') =
      match lastEntry s sm with
      | Some m => in_marks m
      | None => marksOf s (studentMarks t0)
      end.
Proof.
  intros Hp Hb Hv El Hid Hl1 Hsm Hpr out. unfold out, updateTest.
  rewrite (requireBearer_ok _ Hp). simpl.
  rewrite (batchAt_findBatch Hb). simpl.
  rewrite requireOwner_ok by reflexivity. simpl.
  assert (Hi : findIndex (fun x => String.eqb (test_id x) testId) (testResults b)
               = Some (List.length l1)).
  { rewrite El. apply findIndex_first.
    - intros y Hy. now apply String.eqb_neq, Hl1.
    - now apply String.eqb_eq. }
  rewrite Hi. simpl. rewrite Hsm. simpl. split; [reflexivity|].
  eexists. eexists.
  split; [eapply batchAt_saved; [exact Hb|reflexivity|exact Hv]|].
  simpl. rewrite El, update_at_app.
  split; [reflexivity|]. split; [exact Hid|].
  intros s. simpl. rewrite marksOf_recordMarks by exact Hpr.
  destruct (lastEntry s sm) as [m|] eqn:E; [|reflexivity].
  apply lastEntry_In in E as [Hin _].
  rewrite forallb_forall in Hsm. specialize (Hsm m Hin).
  apply andb_prop in Hsm as [_ Hm]. now apply numOr0_Some.
Qed.

(** The owner creates the test of the example; teacher 2 asks for the
    tests. *)
Lemma tests_round_trip_witness :
  getTests env4 db7 (bearer idT1) idB1 = Sent [test1] /\
  getTest env4 db7 (bearer idT1) idB1 idX1 = Sent test1 /\
  getTests env4 db7 (bearer idT2) idB1 =
    Refused (json 403 "Unauthorized to view tests for this batch").
Proof.
  assert (Hb6 : batchAt (envAt 6000 idX1) db6 idB1 (hd batch1 (batches db6)))
    by (vm_compute; reflexivity).
  assert (Hb7 : batchAt env4 db7 idB1 (hd batch1 (batches db7)))
    by (vm_compute; reflexivity).
  assert (Hp : presents (bearer idT1) (teacher_id (hd batch1 (batches db6))))
    by (split; vm_compute; reflexivity).
  destruct (@tests_round_trip (envAt 6000 idX1) env4 db6 (bearer idT1)
              (bearer idT1) idB1 _ (Some "Unit test 1") (Some 50%float)
              (Some "Algebra") Hb6 eq_refl) as (H1 & _ & _).
  destruct (@tests_round_trip env4 env4 db7 (bearer idT2) None idB1 _
              None None None Hb7 eq_refl) as (_ & H2 & _).
  assert (Hnew : ~ In (newObjectId (envAt 6000 idX1))
                   (map test_id (testResults (hd batch1 (batches db6)))))
    by (vm_compute; intros []).
  assert (Hne : idT2 <> teacher_id (hd batch1 (batches db7)))
    by (vm_compute; discriminate).
  destruct (H1 Hp Hp eq_refl eq_refl eq_refl Hnew) as (_ & Hl & Hg).
  split; [exact Hl|]. split; [exact Hg|].
  refine (proj1 (H2 idT2 idX1 _ Hne)).
  split; vm_compute; reflexivity.
Defined.

(** Marks for the test of the example: the second entry for student 1
    wins, and student 2 gets marks without being in the batch. *)
Lemma updateTest_records_marks_witness :
  exists b' t',
    batchAt env4 (fst (route (envAt 7000 idX1) db7 (bearer idT1) reqMarks3))
      idB1 b' /\
    testResults b' = [t'] /\
    marksOf idS1 (studentMarks t') = Some 41%float /\
    marksOf idS2 (studentMarks t') = Some 12%float /\
    ~ In idS2 (students b').
Proof.
  assert (Hb7 : batchAt (envAt 7000 idX1) db7 idB1 (hd batch1 (batches db7)))
    by (vm_compute; reflexivity).
  assert (Hp : presents (bearer idT1) (teacher_id (hd batch1 (batches db7))))
    by (split; vm_compute; reflexivity).
  assert (Hpr : forall m,
            In m [markIn idS1 30%float; markIn idS2 12%float; markIn idS1 41%float] ->
            printed (in_student m))
    by (intros m [<-|[<-|[<-|[]]]]; reflexivity).
  destruct (@updateTest_records_marks (envAt 7000 idX1) env4 db7 (bearer idT1)
              idB1 _ idX1 [] test1 [] None None None
              [markIn idS1 30%float; markIn idS2 12%float; markIn idS1 41%float]
              Hp Hb7 eq_refl eq_refl eq_refl (fun x (H : In x []) => match H with end)
              eq_refl Hpr)
    as (_ & b' & t' & Hb' & Et & _ & Hm).
  exists b', t'. split; [exact Hb'|]. split; [exact Et|].
  split; [rewrite (Hm idS1); reflexivity|].
  split; [rewrite (Hm idS2); reflexivity|].
  unfold batchAt in Hb'. vm_compute in Hb'. injection Hb' as <-.
  simpl. intros [E|[]]. discriminate.
Defined.

(** ** The attendance of a batch *)

Lemma insertByDateDesc_perm (a : Attendance) (l : list Attendance) :
  Permutation (a :: l) (insertByDateDesc a l).
Proof.
  induction l as [|x l IH]; simpl; [reflexivity|].
  destruct (date x <=? date a)%Z; [reflexivity|].
  rewrite perm_swap. now constructor.
Qed.

Lemma sortByDateDesc_perm (l : list Attendance) : Permutation l (sortByDateDesc l).
Proof.
  unfold sortByDateDesc. induction l as [|a l IH]; simpl; [constructor|].
  rewrite <- insertByDateDesc_perm. now constructor.
Qed.

Lemma insertByDateDesc_sorted (a : Attendance) (l : list Attendance) :
  newestFirst l -> newestFirst (insertByDateDesc a l).
Proof.
  unfold newestFirst.
  induction 1 as [|x l Hl IH Hx]; simpl; [repeat constructor|].
  destruct (Z.leb_spec (date x) (date a)) as [Hle|Hgt].
  - constructor; [now constructor|].
    constructor; [assumption|].
    revert Hx. apply Forall_impl. intros y Hy. lia.
  - constructor; [assumption|].
    apply (Permutation_Forall (insertByDateDesc_perm a l)).
    constructor; [lia|assumption].
Qed.

Lemma sortByDateDesc_sorted (l : list Attendance) : newestFirst (sortByDateDesc l).
Proof.
  unfold sortByDateDesc. induction l as [|a l IH]; simpl; [constructor|].
  now apply insertByDateDesc_sorted.
Qed.

Lemma listAttendance_sends env db h batchId (startDate endDate : option Z) :
  isValid env batchId = true ->
  exists l,
    listAttendance env db h batchId startDate endDate = Sent l /\
    Permutation l
      (filter (fun a => String.eqb (att_batch_id a) batchId &&
                        inRange startDate endDate a) (attendances db)) /\
    newestFirst l.
Proof.
  intros Hv. unfold listAttendance, Attendance_find, cast. rewrite Hv. simpl.
  eexists. split; [reflexivity|]. split.
  - rewrite <- sortByDateDesc_perm.
    erewrite filter_ext; [reflexivity|].
    intros a. simpl. now rewrite andb_true_r.
  - apply sortByDateDesc_sorted.
Qed.

(** [GET /batches/:batchId/attendance] reads no header and looks up no
    batch.  For a well-formed batch identifier it sends each attendance
    record of that identifier once (within the two dates, when both are
    given), latest date first; for any other identifier it answers 500. *)
Theorem listAttendance_lists env db h batchId (startDate endDate : option Z) :
  listAttendance env db h batchId startDate endDate =
    listAttendance env db None batchId startDate endDate /\
  (isValid env batchId = true ->
   exists l,
     listAttendance env db h batchId startDate endDate = Sent l /\
     Permutation l
       (filter (fun a => String.eqb (att_batch_id a) batchId &&
                         inRange startDate endDate a) (attendances db)) /\
     newestFirst l) /\
  (isValid env batchId = false ->
   listAttendance env db h batchId startDate endDate =
     Refused (json 500 "Error fetching attendance")).
Proof.
  split; [reflexivity|]. split.
  - apply listAttendance_sends.
  - intros Hv. unfold listAttendance, Attendance_find, cast. now rewrite Hv.
Qed.

(** The four days of the example, read without a header. *)
Lemma listAttendance_witness :
  exists l,
    listAttendance env4 db4 None idB1 None None = Sent l /\
    map date l = [345600000; 259200000; 172800000; 86400000]%Z.
Proof.
  destruct (@listAttendance_lists env4 db4 None idB1 None None) as (_ & H & _).
  destruct (H eq_refl) as (l & El & _ & _).
  exists l. split; [exact El|].
  vm_compute in El. injection El as <-. reflexivity.
Defined.

Lemma delete_first_app_new {A} (p : A -> bool) (l : list A) (x : A) :
  (forall y, In y l -> p y = false) -> p x = true ->
  delete_first p (l ++ [x]) = l.
Proof.
  induction l as [|a l IH]; simpl; intros H Hx.
  - now rewrite Hx.
  - rewrite (H a) by now left. rewrite IH; auto.
Qed.

(** Marking and deleting a day of attendance.  When a teacher marks
    a date that the batch has no record of, the listing of the batch then
    holds the new record — that batch, date, records and teacher — beside
    the ones it held; and when the owner of the batch deletes that record,
    the database is exactly what it was before the mark, so that the date
    can be marked again.  The identifier of the new record is one no
    record has. *)
Theorem attendance_mark_list_delete env env' db h h' (t : AdminUser) batchId
    (b : Batch) (d : Z) (recs : list AttendanceRecord) :
  teacherCalls env db h t -> teacherCalls env' db h t ->
  batchAt env' db batchId b -> teacher_id b = admin_id t ->
  isValid env batchId = true -> isValid env' (newObjectId env) = true ->
  Attendance_findOne db batchId d = None -> validRecords env recs = true ->
  ~ In (newObjectId env) (map att_id (attendances db)) ->
  let a := {| att_id := newObjectId env; att_batch_id := batchId; date := d;
              records := recs; marked_by := admin_id t |} in
  let marked := markAttendance env db h batchId d (Some recs) in
  snd marked = json 201 "Attendance marked successfully" /\
  (exists l0 l1,
     listAttendance env' db h' batchId None None = Sent l0 /\
     listAttendance env' (fst marked) h' batchId None None = Sent l1 /\
     Permutation l1 (a :: l0)) /\
  deleteAttendance env' (fst marked) h batchId (newObjectId env) =
    (db, json 200 "Attendance record deleted successfully").
Proof.
  intros Ht Ht' Hb Ho Hv Hv' Hnone Hrec Hnew a marked.
  unfold marked.
  rewrite (@markAttendance_first env db h t batchId d (Some recs) Ht Hv Hnone Hrec).
  simpl. fold a. split; [reflexivity|]. split.
  - pose proof (batchAt_In Hb) as (_ & _ & Hvb).
    destruct (@listAttendance_sends env' db h' batchId None None Hvb)
      as (l0 & E0 & P0 & _).
    destruct (@listAttendance_sends env'
                (set_attendances db (attendances db ++ [a])) h' batchId None None
                Hvb) as (l1 & E1 & P1 & _).
    exists l0, l1. split; [exact E0|]. split; [exact E1|].
    rewrite P1, P0. simpl. rewrite filter_app. simpl.
    rewrite String.eqb_refl. simpl.
    rewrite <- Permutation_cons_append. reflexivity.
  - unfold deleteAttendance.
    assert (Ht1 : teacherCalls env' (set_attendances db (attendances db ++ [a])) h t)
      by exact Ht'.
    rewrite (authTeacher_ok _ Ht1). simpl.
    assert (Hb1 : batchAt env' (set_attendances db (attendances db ++ [a])) batchId b)
      by exact Hb.
    rewrite (batchAt_findBatch Hb1). simpl.
    rewrite requireOwner_ok by exact Ho. simpl.
    unfold Attendance_findById, cast. rewrite Hv'. simpl.
    assert (Hold : forall y, In y (attendances db) ->
                   String.eqb (att_id y) (newObjectId env) = false).
    { intros y Hy. apply String.eqb_neq. intros E. apply Hnew. rewrite <- E.
      now apply in_map. }
    rewrite find_app_None by exact Hold. simpl.
    rewrite !String.eqb_refl. simpl.
    unfold Attendance_findByIdAndDelete. simpl.
    rewrite delete_first_app_new; [|exact Hold|apply String.eqb_refl].
    rewrite String.eqb_refl. simpl.
    unfold set_attendances. simpl. now destruct db.
Qed.

(** Teacher 1 marks a day for the batch and deletes the record. *)
Lemma attendance_mark_list_delete_witness :
  deleteAttendance env4
    (fst (markAttendance env3 db2 (bearer idT1) idB1 86400000
            (Some [presentRecord idS1])))
    (bearer idT1) idB1 idA1 =
    (db2, json 200 "Attendance record deleted successfully").
Proof.
  assert (Ht : teacherCalls env3 db2 (bearer idT1) teacher1)
    by (split; [split|]; vm_compute; reflexivity).
  assert (Ht' : teacherCalls env4 db2 (bearer idT1) teacher1)
    by (split; [split|]; vm_compute; reflexivity).
  assert (Hb : batchAt env4 db2 idB1 (set_updatedAt (set_students batch1 [idS1]) 2000))
    by (vm_compute; reflexivity).
  assert (Hnew : ~ In (newObjectId env3) (map att_id (attendances db2)))
    by (simpl; intros []).
  exact (proj2 (proj2
    (@attendance_mark_list_delete env3 env4 db2 (bearer idT1) None teacher1 idB1 _
       86400000 [presentRecord idS1] Ht Ht' Hb eq_refl eq_refl eq_refl eq_refl
       eq_refl Hnew))).
Defined.

(** ** Removing a batch *)

Lemma find_delete_first_unique {A} (g : A -> string) (id : string) (l : list A) :
  NoDup (map g l) ->
  find (fun x => String.eqb (g x) id)
    (delete_first (fun x => String.eqb (g x) id) l) = None.
Proof.
  induction l as [|a l IH]; simpl; [reflexivity|].
  intros Hnd. inversion Hnd as [|? ? Hn Hl]; subst.
  destruct (String.eqb (g a) id) eqn:E; simpl.
  - apply String.eqb_eq in E. subst id.
    destruct (find _ l) as [x|] eqn:Ef; [|reflexivity].
    apply find_In in Ef as [Hin Hx]. apply String.eqb_eq in Hx.
    exfalso. apply Hn. rewrite <- Hx. now apply in_map.
  - rewrite E. now apply IH.
Qed.

(** Removing a batch removes the batch document and nothing else.
    After the owner's delete the batch is no longer found (its identifier
    being one no other batch has), but its attendance records are all
    there: the listing of the batch sends what it sent before, and a
    teacher can still mark a new date for the identifier of the batch that
    is gone. *)
Theorem deleteBatch_leaves_attendance env env' db h h' batchId (b : Batch) :
  presents h (teacher_id b) -> batchAt env db batchId b ->
  isValid env' batchId = true -> NoDup (map batch_id (batches db)) ->
  let out := deleteBatch env db h batchId in
  snd out = json 200 "Batch deleted successfully" /\
  snd (getBatch env' (fst out) h' batchId) = json 404 "Batch not found" /\
  attendances (fst out) = attendances db /\
  (forall startDate endDate,
     listAttendance env' (fst out) h' batchId startDate endDate =
     listAttendance env' db h' batchId startDate endDate) /\
  (forall h2 (t : AdminUser) d recs,
     teacherCalls env' db h2 t -> Attendance_findOne db batchId d = None ->
     validRecords env' recs = true ->
     snd (markAttendance env' (fst out) h2 batchId d (Some recs)) =
       json 201 "Attendance marked successfully").
Proof.
  intros Hp Hb Hv Hnd out. unfold out, deleteBatch.
  rewrite (requireBearer_ok _ Hp). simpl.
  rewrite (batchAt_findBatch Hb). simpl.
  rewrite requireOwner_ok by reflexivity. simpl.
  split; [reflexivity|]. split; [|split; [reflexivity|split]].
  - unfold getBatch, findBatch, Batch_findById, cast. rewrite Hv. simpl.
    now rewrite find_delete_first_unique.
  - reflexivity.
  - intros h2 t d recs Ht Hnone Hrec.
    assert (Ht2 : teacherCalls env' (Batch_findByIdAndDelete db batchId) h2 t)
      by exact Ht.
    now rewrite (@markAttendance_first env' _ h2 t batchId d (Some recs) Ht2 Hv
                   Hnone Hrec).
Qed.

(** Teacher 1 removes the batch of the example with its four days of
    attendance. *)
Lemma deleteBatch_witness :
  snd (getBatch env4 (fst (deleteBatch env4 db4 (bearer idT1) idB1)) None idB1) =
    json 404 "Batch not found" /\
  List.length (attendances (fst (deleteBatch env4 db4 (bearer idT1) idB1))) = 4.
Proof.
  assert (Hb : batchAt env4 db4 idB1 (hd batch1 (batches db4)))
    by (vm_compute; reflexivity).
  assert (Hp : presents (bearer idT1) (teacher_id (hd batch1 (batches db4))))
    by (split; vm_compute; reflexivity).
  assert (Hnd : NoDup (map batch_id (batches db4)))
    by (vm_compute; repeat constructor; intros []).
  destruct (@deleteBatch_leaves_attendance env4 env4 db4 (bearer idT1) None idB1 _
              Hp Hb eq_refl Hnd) as (_ & Hg & Ha & _).
  split; [exact Hg|]. rewrite Ha. reflexivity.
Defined.

(** ** Deleting a slot and clearing a day *)

Lemma getDay_setDayList_other (t : Timetable) (d d' : Day) (l : list TimetableEntry) :
  d' <> d -> getDay (setDayList t d l) d' = getDay t d'.
Proof. destruct d, d'; simpl; congruence. Qed.

(** The owner's delete of a slot takes the first entry of that hour
    out of the day's list and leaves the rest of the day, and every other
    day, as it was; for an hour from 1 to 8 that the day has no entry of it
    is answered 404 and changes nothing.  The owner's clearing of a day
    empties that day and leaves every other day as it was. *)
Theorem timetable_delete_clear env env' db h (t : AdminUser) batchId (b : Batch)
    (day : string) (d : Day) :
  teacherCalls env db h t -> batchAt env db batchId b ->
  teacher_id b = admin_id t -> dayOf day = Some d ->
  isValid env' batchId = true ->
  (forall k l1 e l2,
     (1 <= k <= 8)%Z -> getDay (timetable b) d = l1 ++ e :: l2 -> hour e = k ->
     (forall x, In x l1 -> hour x <> k) ->
     let out := deleteEntry env db h batchId day (Some k) in
     snd out = json 200 "Timetable entry deleted successfully" /\
     exists b',
       batchAt env' (fst out) batchId b' /\
       getDay (timetable b') d = l1 ++ l2 /\
       forall d', d' <> d -> getDay (timetable b') d' = getDay (timetable b) d') /\
  (forall k,
     (1 <= k <= 8)%Z ->
     (forall x, In x (getDay (timetable b) d) -> hour x <> k) ->
     deleteEntry env db h batchId day (Some k) =
       (db, json 404 "Timetable entry not found for this hour")) /\
  (let out := clearDay env db h batchId day in
   snd out =
     json 200 ("Timetable entries for " ++ day ++ " cleared successfully")%string /\
   exists b',
     batchAt env' (fst out) batchId b' /\
     getDay (timetable b') d = [] /\
     forall d', d' <> d -> getDay (timetable b') d' = getDay (timetable b) d').
Proof.
  intros Ht Hb Ho Hd Hv.
  assert (Hk : forall k, (1 <= k <= 8)%Z -> hourOutside (Some k) 1 (Some 8%Z) = false).
  { intros k Hk. simpl. apply orb_false_iff. split; apply Z.ltb_ge; lia. }
  split; [|split].
  - intros k l1 e l2 Hr El He Hl1 out. unfold out, deleteEntry.
    rewrite (authTeacher_ok _ Ht). cbn [bind].
    rewrite (requireDay_ok _ Hd). cbn [bind].
    rewrite (Hk k Hr). simpl.
    rewrite (batchAt_findBatch Hb). simpl.
    rewrite requireOwner_ok by exact Ho. simpl.
    rewrite El, findIndex_first;
      [|intros y Hy; now apply Z.eqb_neq, Hl1|now apply Z.eqb_eq].
    simpl. split; [reflexivity|].
    eexists. split; [eapply batchAt_saved; [exact Hb|reflexivity|exact Hv]|].
    simpl. rewrite getDay_setDayList, remove_at_app. split; [reflexivity|].
    intros d' Hne. now apply getDay_setDayList_other.
  - intros k Hr Hno. unfold deleteEntry.
    rewrite (authTeacher_ok _ Ht). cbn [bind].
    rewrite (requireDay_ok _ Hd). cbn [bind].
    rewrite (Hk k Hr). simpl.
    rewrite (batchAt_findBatch Hb). simpl.
    rewrite requireOwner_ok by exact Ho. simpl.
    rewrite findIndex_absent; [reflexivity|].
    intros y Hy. now apply Z.eqb_neq, Hno.
  - intros out. unfold out, clearDay.
    rewrite (authTeacher_ok _ Ht). simpl.
    rewrite (requireDay_ok _ Hd). simpl.
    rewrite (batchAt_findBatch Hb). simpl.
    rewrite requireOwner_ok by exact Ho. simpl.
    split; [reflexivity|].
    eexists. split; [eapply batchAt_saved; [exact Hb|reflexivity|exact Hv]|].
    simpl. rewrite getDay_setDayList. split; [reflexivity|].
    intros d' Hne. now apply getDay_setDayList_other.
Qed.

(** Monday of the example holds hour 3 twice: the owner's delete of hour 3
    leaves the second entry. *)
Lemma timetable_delete_clear_witness :
  exists b',
    batchAt env4 (fst (deleteEntry env4 db3 (bearer idT1) idB1 "Monday" (Some 3%Z)))
      idB1 b' /\
    getDay (timetable b') monday = [entry 3 "Geometry"].
Proof.
  assert (Ht : teacherCalls env4 db3 (bearer idT1) teacher1)
    by (split; [split|]; vm_compute; reflexivity).
  assert (Hb : batchAt env4 db3 idB1 (hd batch1 (batches db3)))
    by (vm_compute; reflexivity).
  destruct (@timetable_delete_clear env4 env4 db3 (bearer idT1) teacher1 idB1 _
              "Monday" monday Ht Hb eq_refl eq_refl eq_refl) as (H & _ & _).
  destruct (H 3%Z [] (entry 3 "Algebra") [entry 3 "Geometry"]) as (_ & b' & Hb' & E & _).
  - lia.
  - reflexivity.
  - reflexivity.
  - intros x [].
  - exists b'. split; [exact Hb'|exact E].
Defined.

(** An entry past hour 8 cannot be deleted by its hour.  The owner's
    upsert at an hour above 8 is answered 200 and the day then holds an
    entry of that hour; the delete of that slot is answered 400 and leaves
    the entry where it is. *)
Theorem late_hour_cannot_be_deleted env env' db h (t : AdminUser) batchId
    (b : Batch) (day : string) (d : Day) (k : Z) subj tch st en :
  teacherCalls env db h t -> teacherCalls env' db h t ->
  batchAt env db batchId b -> teacher_id b = admin_id t ->
  dayOf day = Some d -> truthy subj = true -> (8 < k)%Z ->
  isValid env' batchId = true ->
  let out := upsertEntry env db h batchId day (Some k) subj tch st en in
  snd out = json 200 "Timetable entry updated successfully" /\
  (exists b1,
     batchAt env' (fst out) batchId b1 /\
     atHour k (getDay (timetable b1) d) <> []) /\
  deleteEntry env' (fst out) h batchId day (Some k) =
    (fst out, json 400 "Hour must be a number between 1 and 8").
Proof.
  intros Ht Ht' Hb Ho Hd Hs Hk Hv out. unfold out.
  assert (H1 : (1 <= k)%Z) by lia.
  rewrite (@upsertEntry_accepts env db h t batchId b day d k subj tch st en
             Ht Hs Hd H1 Hb Ho).
  simpl. split; [reflexivity|]. split.
  - eexists. split; [eapply batchAt_saved; [exact Hb|reflexivity|exact Hv]|].
    simpl. rewrite getDay_setDayList. intros E.
    pose proof (upsertDay_atHour k (orEmpty subj) tch st en
                  (getDay (timetable b) d)) as Hl.
    rewrite E in Hl. cbn [List.length] in Hl. lia.
  - unfold deleteEntry.
    rewrite (authTeacher_ok _ (teacherCalls_save env _ Ht')). cbn [bind].
    rewrite (requireDay_ok _ Hd). cbn [bind].
    replace (hourOutside (Some k) 1 (Some 8%Z)) with true; [reflexivity|].
    symmetry. simpl. apply orb_true_iff. right. apply Z.ltb_lt. lia.
Qed.

(** Teacher 1 puts a ninth hour on Monday and tries to delete it. *)
Lemma late_hour_witness :
  let out := upsertEntry env4 db3 (bearer idT1) idB1 "Monday" (Some 9%Z)
               (Some "Revision") None None None in
  snd out = json 200 "Timetable entry updated successfully" /\
  deleteEntry env4 (fst out) (bearer idT1) idB1 "Monday" (Some 9%Z) =
    (fst out, json 400 "Hour must be a number between 1 and 8").
Proof.
  assert (Ht : teacherCalls env4 db3 (bearer idT1) teacher1)
    by (split; [split|]; vm_compute; reflexivity).
  assert (Hb : batchAt env4 db3 idB1 (hd batch1 (batches db3)))
    by (vm_compute; reflexivity).
  destruct (@late_hour_cannot_be_deleted env4 env4 db3 (bearer idT1) teacher1 idB1
              _ "Monday" monday 9%Z (Some "Revision") None None None Ht Ht Hb
              eq_refl eq_refl eq_refl eq_refl eq_refl) as (H1 & _ & H3).
  split; [exact H1|exact H3].
Defined.

(** ** The reads of the user router *)

Lemma reading_Sent {A} (msg : string) (body : M A) (a : A) :
  reading msg body = Sent a <-> body = Pure a.
Proof.
  destruct body; simpl; split; intros H; try discriminate; congruence.
Qed.

Lemma tryCatch_Pure {A} (body : M A) (code : N) (msg : string) (a : A) :
  tryCatch body code msg = Pure a <-> body = Pure a.
Proof.
  destruct body; simpl; split; intros H; try discriminate; congruence.
Qed.

Lemma requireBearer_Pure (h : option string) (msg tok : string) :
  requireBearer h msg = Pure tok <-> presents h tok.
Proof.
  unfold requireBearer, presents. destruct (noBearer h); simpl.
  - split; [discriminate|]. intros [H _]. discriminate.
  - destruct (bearerToken h); split; try discriminate.
    + intros [= ->]. auto.
    + intros [_ [= ->]]. reflexivity.
    + intros [_ H]. discriminate.
Qed.

Lemma verify_Pure (env : Env) (tok : string) (uid : ObjectId) :
  verify env (Some tok) = Pure uid <-> jwt_verify env tok = Some uid.
Proof.
  unfold verify. destruct (jwt_verify env tok); split; intros H;
    try discriminate; congruence.
Qed.

Lemma differs_false (decoded : ObjectId) (userId : option string) :
  differs decoded userId = false <-> userId = Some decoded.
Proof.
  unfold differs. destruct userId as [u|]; [|split; discriminate].
  rewrite negb_false_iff, String.eqb_eq. split; congruence.
Qed.

Lemma populate_user_Some (db : DB) (id : ObjectId) (r : Ref) :
  populate_user db id = Some r -> ref_id r = id /\ hasAccount db id.
Proof.
  unfold populate_user. destruct (find _ (users db)) as [u|] eqn:E; [|discriminate].
  intros [= <-]. apply find_In in E as [Hin Hid]. apply String.eqb_eq in Hid.
  split; [assumption|]. now exists u.
Qed.

Lemma populate_user_account (db : DB) (id : ObjectId) :
  hasAccount db id -> exists r, populate_user db id = Some r /\ ref_id r = id.
Proof.
  intros (u & Hin & Hid). unfold populate_user.
  destruct (find _ (users db)) as [x|] eqn:E.
  - eexists. split; [reflexivity|]. simpl.
    apply find_In in E as [_ E]. now apply String.eqb_eq.
  - exfalso. pose proof (find_none _ _ E u Hin) as Hn. simpl in Hn.
    now rewrite Hid, String.eqb_refl in Hn.
Qed.

(** A student is among the populated students of a batch when enrolled and
    still an account. *)
Lemma amongPopulated_iff (db : DB) (b : Batch) (id : string) :
  amongPopulated db b id = true <-> In id (students b) /\ hasAccount db id.
Proof.
  unfold amongPopulated. induction (students b) as [|i l IH]; simpl.
  - split; [discriminate|]. intros [[] _].
  - destruct (populate_user db i) as [r|] eqn:E; simpl.
    + apply populate_user_Some in E as [Hr Ha]. rewrite Hr.
      rewrite orb_true_iff, IH, String.eqb_eq. split.
      * intros [->|[Hin Hacc]]; auto.
      * intros [[->|Hin] Hacc]; auto.
    + rewrite IH. split.
      * intros [Hin Hacc]. auto.
      * intros [[->|Hin] Hacc]; auto.
        apply populate_user_account in Hacc as (r & Hr & _). congruence.
Qed.

Lemma User_findById_Pure (env : Env) (db : DB) (id : string) (u : User) :
  User_findById env db id = Pure (Some u) ->
  isValid env id = true /\ In u (users db) /\ user_id u = id.
Proof.
  unfold User_findById, cast. destruct (isValid env id); simpl; [|discriminate].
  intros [= H]. apply find_In in H as [Hin Hid]. apply String.eqb_eq in Hid. auto.
Qed.

Lemma User_findById_account (env : Env) (db : DB) (id : string) :
  isValid env id = true -> hasAccount db id ->
  exists u, User_findById env db id = Pure (Some u).
Proof.
  intros Hv (u & Hin & Hid). unfold User_findById, cast. rewrite Hv. simpl.
  destruct (find _ (users db)) as [x|] eqn:E; [now exists x|].
  exfalso. pose proof (find_none _ _ E u Hin) as Hn. simpl in Hn.
  now rewrite Hid, String.eqb_refl in Hn.
Qed.

(** What a student reads of a batch is read with the student's own
    token.  [GET /student/batches/:batchId] sends the batch exactly when
    the bearer token verifies as the [userId] of the query and that account
    is among the students of the batch; [GET /student/batches/:batchId/tests]
    sends the tests exactly when the token verifies as an account that is
    among the students of the batch. *)
Theorem student_reads_own_token env db h batchId :
  (forall userId v,
     studentBatch env db h batchId userId = Sent v <->
     exists tok uid b,
       presents h tok /\ jwt_verify env tok = Some uid /\ userId = Some uid /\
       batchAt env db batchId b /\ In uid (students b) /\ hasAccount db uid /\
       v = studentViewOf db b) /\
  (forall l,
     studentTests env db h batchId = Sent l <->
     exists tok uid b,
       presents h tok /\ jwt_verify env tok = Some uid /\
       isValid env uid = true /\ hasAccount db uid /\
       batchAt env db batchId b /\ In uid (students b) /\
       l = testResults b).
Proof.
  split.
  - intros userId v. unfold studentBatch. rewrite reading_Sent. split.
    + intros H. invM.
      match goal with H : requireBearer _ _ = Pure _ |- _ =>
        apply requireBearer_Pure in H end.
      match goal with H : tryCatch _ _ _ = Pure _ |- _ =>
        apply tryCatch_Pure in H end.
      invM.
      match goal with H : verify _ _ = Pure _ |- _ => apply verify_Pure in H end.
      match goal with H : differs _ _ = false |- _ =>
        apply differs_false in H; subst userId end.
      match goal with H : negb (amongPopulated _ _ _) = false |- _ =>
        apply negb_false_iff, amongPopulated_iff in H as [? ?] end.
      simpl in *.
      match goal with
      | Hp : presents _ ?tok, Hj : jwt_verify _ _ = Some ?uid,
        Hb : batchAt _ _ _ ?b |- _ =>
          exists tok, uid, b; destruct Hp; repeat split; assumption
      end.
    + intros (tok & uid & b & Hp & Hj & -> & Hb & Hin & Hacc & ->).
      apply requireBearer_Pure with (msg := "Authentication required") in Hp.
      rewrite Hp. cbn [bind]. apply verify_Pure in Hj. rewrite Hj. cbn [bind].
      unfold differs. rewrite String.eqb_refl. cbn [negb rejectIf bind].
      rewrite (batchAt_findBatch Hb). cbn [bind orEmpty].
      assert (Ha : amongPopulated db b uid = true)
        by (apply amongPopulated_iff; auto).
      rewrite Ha. reflexivity.
  - intros l. unfold studentTests. rewrite reading_Sent. split.
    + intros H. invM.
      match goal with H : requireBearer _ _ = Pure _ |- _ =>
        apply requireBearer_Pure in H end.
      match goal with H : tryCatch _ _ _ = Pure _ |- _ =>
        apply tryCatch_Pure in H end.
      invM.
      match goal with H : verify _ _ = Pure _ |- _ => apply verify_Pure in H end.
      match goal with H : User_findById _ _ _ = Pure (Some _) |- _ =>
        apply User_findById_Pure in H as (? & ? & ?) end.
      match goal with H : negb (isEnrolled _ _) = false |- _ =>
        apply negb_false_iff, isEnrolled_In in H end.
      simpl in *.
      match goal with
      | Hp : presents _ ?tok, Hj : jwt_verify _ _ = Some ?uid,
        Hb : batchAt _ _ _ ?b, Hu : In ?u (users db) |- _ =>
          exists tok, uid, b; destruct Hp; repeat split; try assumption;
          now exists u
      end.
    + intros (tok & uid & b & Hp & Hj & Hv & Hacc & Hb & Hin & ->).
      apply requireBearer_Pure with (msg := "Authentication required") in Hp.
      rewrite Hp. cbn [bind]. apply verify_Pure in Hj. rewrite Hj. cbn [bind].
      destruct (User_findById_account env Hv Hacc) as (u & Hu).
      rewrite Hu. cbn [bind orReject].
      rewrite (batchAt_findBatch Hb). cbn [bind].
      apply isEnrolled_In in Hin. now rewrite Hin.
Qed.

(** Student 1 reads the batch and its tests with their token. *)
Lemma student_reads_witness :
  studentBatch env4 db2 (bearer "jwt-student1") idB1 (Some idS1) =
    Sent (studentViewOf db2 (hd batch1 (batches db2))) /\
  studentTests env4 db7 (bearer "jwt-student1") idB1 = Sent [test1].
Proof.
  destruct (@student_reads_own_token env4 db2 (bearer "jwt-student1") idB1)
    as [H1 _].
  destruct (@student_reads_own_token env4 db7 (bearer "jwt-student1") idB1)
    as [_ H2].
  assert (Hp : presents (bearer "jwt-student1") "jwt-student1")
    by (split; vm_compute; reflexivity).
  split.
  - apply H1. exists "jwt-student1", idS1, (hd batch1 (batches db2)).
    split; [exact Hp|]. split; [reflexivity|]. split; [reflexivity|].
    split; [vm_compute; reflexivity|].
    split; [vm_compute; left; reflexivity|].
    split; [|reflexivity].
    exists student1. split; [vm_compute; left; reflexivity|reflexivity].
  - apply H2. exists "jwt-student1", idS1, (hd batch1 (batches db7)).
    split; [exact Hp|]. split; [reflexivity|].
    split; [vm_compute; reflexivity|].
    split; [exists student1; split; [vm_compute; left; reflexivity|reflexivity]|].
    split; [vm_compute; reflexivity|].
    split; [vm_compute; left; reflexivity|].
    vm_compute. reflexivity.
Defined.

Lemma requireParentOf_Pure (parent student : option User) (msg : string)
    (ps : User * User) :
  requireParentOf parent student msg = Pure ps <->
  parent = Some (fst ps) /\ role (fst ps) = "parent" /\
  student = Some (snd ps) /\ parentEmail (snd ps) = Some (user_email (fst ps)).
Proof.
  unfold requireParentOf. destruct ps as [p s]. simpl. split.
  - intros H. invM.
    destruct parent as [p'|]; [|discriminate].
    destruct (String.eqb_spec (role p') "parent") as [Hr|]; [|discriminate].
    match goal with H : Some _ = Some _ |- _ => injection H as <- end.
    destruct student as [s'|]; [|discriminate].
    destruct (notLinked s' p') eqn:El; [discriminate|].
    match goal with H : Some _ = Some _ |- _ => injection H as <- end.
    apply linked_iff in El. auto.
  - intros (-> & Hr & -> & Hl). rewrite Hr. simpl.
    apply linked_iff in Hl. now rewrite Hl.
Qed.

Lemma User_findByQueryId_Some (env : Env) (db : DB) (id : option string) (u : User) :
  User_findByQueryId env db id = Pure (Some u) <->
  exists i, id = Some i /\ User_findById env db i = Pure (Some u).
Proof.
  destruct id as [i|]; simpl; split.
  - intros H. now exists i.
  - now intros (j & [= <-] & H).
  - discriminate.
  - intros (j & H & _). discriminate.
Qed.

Lemma noBearer_bearer (tok : string) : noBearer (bearer tok) = false.
Proof. destruct tok; reflexivity. Qed.

(** [GET /parent/batches/:batchId] takes the parent from the query
    string.  Its answer is the same whatever follows [Bearer ] in the
    header, and it sends the batch exactly when the header starts with
    [Bearer ], the query names a parent account and a student account
    whose [parentEmail] is the email of that parent, and the student is
    among the students of the batch. *)
Theorem parentBatch_trusts_query env db batchId (parentId studentId : option string) :
  (forall tok tok',
     parentBatch env db (bearer tok) batchId parentId studentId =
     parentBatch env db (bearer tok') batchId parentId studentId) /\
  (forall h v,
     parentBatch env db h batchId parentId studentId = Sent v <->
     noBearer h = false /\
     exists pid sid p s b,
       parentId = Some pid /\ studentId = Some sid /\
       User_findById env db pid = Pure (Some p) /\ role p = "parent" /\
       User_findById env db sid = Pure (Some s) /\
       parentEmail s = Some (user_email p) /\
       batchAt env db batchId b /\ In sid (students b) /\
       v = parentViewOf db b s).
Proof.
  split; [intros tok tok'; unfold parentBatch; now rewrite !noBearer_bearer|].
  intros h v. unfold parentBatch. rewrite reading_Sent. split.
  - intros H. invM.
    match goal with H : requireParentOf _ _ _ = Pure ?ps |- _ =>
      apply requireParentOf_Pure in H as (-> & Hr & -> & Hl); destruct ps as [p s]
    end.
    simpl in *.
    repeat match goal with H : User_findByQueryId _ _ _ = Pure (Some _) |- _ =>
      apply User_findByQueryId_Some in H as (? & -> & H) end.
    match goal with H : negb (amongPopulated _ _ _) = false |- _ =>
      apply negb_false_iff, amongPopulated_iff in H as [Hen _] end.
    split; [assumption|].
    match goal with
    | Hp : User_findById _ _ ?pid = Pure (Some p),
      Hs : User_findById _ _ ?sid = Pure (Some s), Hb : batchAt _ _ _ ?b |- _ =>
        exists pid, sid, p, s, b; repeat split; assumption || reflexivity
    end.
  - intros (Hn & pid & sid & p & s & b & -> & -> & Hp & Hr & Hs & Hl & Hb & Hin & ->).
    rewrite Hn. simpl. rewrite Hp. cbn [bind]. rewrite Hs. cbn [bind].
    assert (Hps : requireParentOf (Some p) (Some s) "Invalid student access"
                  = Pure (p, s)) by (apply requireParentOf_Pure; auto).
    rewrite Hps. cbn [bind]. rewrite (batchAt_findBatch Hb). cbn [bind orEmpty].
    assert (Ha : amongPopulated db b sid = true).
    { apply amongPopulated_iff. split; [assumption|].
      apply User_findById_Pure in Hs as (_ & Hu & Hid). now exists s. }
    rewrite Ha. reflexivity.
Qed.

(** The batch of student 1 is sent for the identifiers of parent 1 and
    student 1, with a header that carries no token. *)
Lemma parentBatch_witness :
  parentBatch env4 db2 (bearer "") idB1 (Some idP1) (Some idS1) =
    Sent (parentViewOf db2 (hd batch1 (batches db2)) student1).
Proof.
  destruct (@parentBatch_trusts_query env4 db2 idB1 (Some idP1) (Some idS1))
    as [_ H].
  apply H. split; [reflexivity|].
  exists idP1, idS1, parent1, student1, (hd batch1 (batches db2)).
  repeat split; try reflexivity. simpl. auto.
Defined.

(** ** A fee record, written and read back *)

Lemma findPayment_first (db : DB) (sid : string) (l1 : list FeesPayment)
    (p : FeesPayment) (l2 : list FeesPayment) :
  Forall (fun q => hasAccount db (fee_student q) /\ fee_student q <> sid) l1 ->
  hasAccount db (fee_student p) -> fee_student p = sid ->
  findPayment db sid (l1 ++ p :: l2) = Pure (Some (viewPayment db p)).
Proof.
  intros Hl1 Hp Hs. induction Hl1 as [|q l1 [Hq Hne] _ IH]; simpl.
  - apply populate_user_account in Hp as (r & Hr & Hid).
    rewrite Hr, Hid, Hs. now rewrite String.eqb_refl.
  - apply populate_user_account in Hq as (r & Hr & Hid).
    rewrite Hr, Hid.
    replace (String.eqb (fee_student q) sid) with false; [exact IH|].
    symmetry. now apply String.eqb_neq.
Qed.

Lemma findPayment_upsert (db : DB) (p : FeesPayment) (l : list FeesPayment) :
  Forall (fun q => hasAccount db (fee_student q)) l ->
  hasAccount db (fee_student p) ->
  findPayment db (fee_student p) (upsertPayment p l) =
    Pure (Some (viewPayment db p)).
Proof.
  intros Hl Hp. unfold upsertPayment.
  destruct (findIndex _ l) as [i|] eqn:E.
  - apply findIndex_Some in E as (l1 & x & l2 & -> & <- & Hx & Hl1).
    rewrite update_at_app. apply findPayment_first; auto.
    apply Forall_app in Hl as [Hl _].
    rewrite Forall_forall in *. intros q Hq. split; [now apply Hl|].
    now apply String.eqb_neq, Hl1.
  - pose proof (findIndex_None _ _ E) as Hno.
    apply findPayment_first; auto.
    rewrite Forall_forall in *. intros q Hq. split; [now apply Hl|].
    now apply String.eqb_neq, Hno.
Qed.

Lemma isStudentId_account (db : DB) (id : string) :
  isStudentId db id -> hasAccount db id.
Proof. intros (u & Hin & Hid & _). now exists u. Qed.

(** A fee record is written and read back without a credential.  In
    a state the requests can reach, a fee request that passes the
    validation, for a student of the batch, is answered 200 whatever its
    header is, and [GET /student/batches/:batchId/fees] then sends, to a
    request with any header or none that names the student in its query,
    the record just written: the amount, method, status and remarks of the
    request, the date of the clock, and the student's account. *)
Theorem fees_round_trip env env' db h h' batchId (b : Batch) (sid : string)
    amt method stat remarks :
  reachable db -> batchAt env db batchId b ->
  feeRequestOk env batchId (Some sid) amt method stat = true ->
  In sid (students b) ->
  invalidId env' (Some batchId) = false -> invalidId env' (Some sid) = false ->
  let out := upsertFees env db h batchId (Some sid) amt method stat remarks in
  snd out = json 200 "Fees payment record updated successfully" /\
  studentFees env' (fst out) h' batchId (Some sid) =
    Sent (Some {| fv_payment := paymentData env sid amt method stat remarks;
                  fv_student := populate_user db sid |}) /\
  hasAccount db sid.
Proof.
  intros Hr Hb Hok Hin Hvb Hvs out. unfold out.
  rewrite (@upsertFees_enrolled env db h batchId b (Some sid) amt method stat
             remarks Hok Hb Hin).
  simpl. split; [reflexivity|].
  pose proof (batchAt_In Hb) as (Hinb & _ & _).
  destruct (@Refs_In db b (reachable_Refs Hr) Hinb) as [Hs Hf].
  assert (Hacc : hasAccount db sid).
  { rewrite Forall_forall in Hs. now apply isStudentId_account, Hs. }
  split; [|exact Hacc].
  unfold studentFees. rewrite Hvb, Hvs. cbn [rejectIf bind].
  apply invalidId_false in Hvb as (i & [= <-] & _ & Hvb').
  erewrite findBatch_saved; [|exact Hb|reflexivity|exact Hvb'].
  cbn [bind orEmpty].
  replace (isEnrolled _ sid) with true
    by (symmetry; now apply isEnrolled_In).
  cbn [negb rejectIf bind]. simpl feesPayments.
  match goal with |- context [findPayment ?db' sid (upsertPayment ?p ?l)] =>
    assert (E : findPayment db' (fee_student p) (upsertPayment p l)
                = Pure (Some (viewPayment db' p)))
  end.
  { apply findPayment_upsert; [|exact Hacc].
    revert Hf. apply Forall_impl. intros q. apply isStudentId_account. }
  change (fee_student (paymentData env sid amt method stat remarks)) with sid in E.
  rewrite E. reflexivity.
Qed.

(** The fee record of student 1 in the example, by requests without a
    header. *)
Lemma fees_round_trip_witness :
  studentFees env4 db6 None idB1 (Some idS1) =
    Sent (Some {| fv_payment :=
                    {| fee_student := idS1; amount := 1500%float;
                       paymentDate := 5000; paymentMethod := "online";
                       fee_status := "paid"; fee_remarks := "" |};
                  fv_student :=
                    Some {| ref_id := idS1; ref_name := "Meena";
                            ref_email := "meena@home.test" |} |}).
Proof.
  assert (Hb : batchAt (envAt 5000 idX1) db2 idB1
                 (set_updatedAt (set_students batch1 [idS1]) 2000))
    by (vm_compute; reflexivity).
  assert (Hin : In idS1 (students (set_updatedAt (set_students batch1 [idS1]) 2000)))
    by (simpl; auto).
  exact (proj1 (proj2
    (@fees_round_trip (envAt 5000 idX1) env4 db2 None None idB1 _ idS1
       (Some 1500%float) (Some "online") (Some "paid") None reachable_db2 Hb
       eq_refl Hin eq_refl eq_refl))).
Defined.

(** ** Lists of batches *)

Lemma insertByCreatedDesc_perm (b : Batch) (l : list Batch) :
  Permutation (b :: l) (insertByCreatedDesc b l).
Proof.
  induction l as [|x l IH]; simpl; [reflexivity|].
  destruct (createdAt x <=? createdAt b)%Z; [reflexivity|].
  rewrite perm_swap. now constructor.
Qed.

Lemma sortByCreatedDesc_perm (l : list Batch) : Permutation l (sortByCreatedDesc l).
Proof.
  unfold sortByCreatedDesc. induction l as [|a l IH]; simpl; [constructor|].
  rewrite <- insertByCreatedDesc_perm. now constructor.
Qed.

Lemma insertByCreatedDesc_sorted (b : Batch) (l : list Batch) :
  newestBatchFirst l -> newestBatchFirst (insertByCreatedDesc b l).
Proof.
  unfold newestBatchFirst.
  induction 1 as [|x l Hl IH Hx]; simpl; [repeat constructor|].
  destruct (Z.leb_spec (createdAt x) (createdAt b)) as [Hle|Hgt].
  - constructor; [now constructor|].
    constructor; [assumption|].
    revert Hx. apply Forall_impl. intros y Hy. lia.
  - constructor; [assumption|].
    apply (Permutation_Forall (insertByCreatedDesc_perm b l)).
    constructor; [lia|assumption].
Qed.

Lemma sortByCreatedDesc_sorted (l : list Batch) :
  newestBatchFirst (sortByCreatedDesc l).
Proof.
  unfold sortByCreatedDesc. induction l as [|a l IH]; simpl; [constructor|].
  now apply insertByCreatedDesc_sorted.
Qed.

Lemma myBatches_sends env db h (s : string) :
  s <> "" -> isValid env s = true ->
  exists bs,
    myBatches env db h (Some s) = Sent (map (summaryOf db) bs) /\
    Permutation bs (filter (fun b => includes s (students b)) (batches db)).
Proof.
  intros Hs Hv. unfold myBatches, cast.
  rewrite (truthy_nonempty Hs). simpl. rewrite Hv. simpl.
  eexists. split; [reflexivity|]. symmetry. apply sortByCreatedDesc_perm.
Qed.

(** The two lists of batches are sent to any caller, with or without
    a header.  [GET /batches] sends every batch once, latest creation
    first, each with its teacher and its students populated.
    [GET /my-batches] sends, for a well-formed identifier in [student_id],
    a summary of each batch that has the identifier among its students,
    once, latest creation first; without [student_id] it answers 400. *)
Theorem batch_listings env db h :
  (exists bs,
     getBatches env db h =
       Sent (map (fun b => {| doc := b;
                              doc_teacher := populate_admin db (teacher_id b);
                              doc_students := populate_users db (students b) |})
               bs) /\
     Permutation bs (batches db) /\ newestBatchFirst bs) /\
  (forall s,
     s <> "" -> isValid env s = true ->
     exists bs,
       myBatches env db h (Some s) = Sent (map (summaryOf db) bs) /\
       Permutation bs (filter (fun b => includes s (students b)) (batches db)) /\
       newestBatchFirst bs) /\
  (myBatches env db h None = Refused (json 400 "Student ID is required") /\
   myBatches env db h (Some "") = Refused (json 400 "Student ID is required")).
Proof.
  split; [|split].
  - eexists. split; [reflexivity|]. split.
    + symmetry. apply sortByCreatedDesc_perm.
    + apply sortByCreatedDesc_sorted.
  - intros s Hs Hv. unfold myBatches, cast.
    rewrite (truthy_nonempty Hs). simpl. rewrite Hv. simpl.
    eexists. split; [reflexivity|]. split.
    + symmetry. apply sortByCreatedDesc_perm.
    + apply sortByCreatedDesc_sorted.
  - split; reflexivity.
Qed.

(** The batches of student 1 in the example, without a header. *)
Lemma batch_listings_witness :
  exists ms,
    myBatches env4 db5 None (Some idS1) = Sent (map (summaryOf db5) ms) /\
    Permutation ms
      (filter (fun b => includes idS1 (students b)) (batches db5)) /\
    newestBatchFirst ms.
Proof.
  destruct (@batch_listings env4 db5 None) as (_ & H & _).
  apply (H idS1); [discriminate|reflexivity].
Defined.

Lemma joinBatch_joined env db h code :
  status (snd (joinBatch env db h code)) = 200%N ->
  exists u b,
    verify env (bearerToken h) = Pure (user_id u) /\
    In u (users db) /\ role u = "student" /\
    In b (batches db) /\ batch_code b = toUpperCase (orEmpty code) /\
    ~ In (user_id u) (students b) /\
    joinBatch env db h code =
      (Batch_save env db (set_students b (students b ++ [user_id u])),
       json 200 "Successfully joined batch").
Proof.
  unfold joinBatch.
  destruct (joinBatchBody env db h code) as [r|e|out] eqn:Hb.
  - intros Hs. exfalso.
    assert (Hp : plain (joinBatchBody env db h code))
      by (unfold joinBatchBody; plain_tac).
    destruct (Hp r Hb) as [Hf _]. simpl in Hs. rewrite Hs in Hf.
    now apply N.leb_le in Hf.
  - destruct e; discriminate.
  - intros _. unfold joinBatchBody in Hb. invM.
    match goal with
    | Hv : verify _ _ = Pure ?d,
      H : User_findById _ _ _ = Pure ?s,
      H1 : match ?s with _ => _ end = Some ?u,
      H2 : Batch_findByCode _ _ = Some ?b,
      H3 : includes (user_id ?u) _ = false |- _ =>
        exists u, b;
        destruct s as [x|]; [|discriminate H1];
        destruct (String.eqb (role x) "student") eqn:Er; [|discriminate H1];
        injection H1 as ->;
        apply User_findById_Pure in H as (_ & Hin & Hid);
        apply String.eqb_eq in Er;
        apply Batch_findByCode_In in H2 as [? ?];
        apply includes_not_In in H3;
        rewrite <- Hid in *; repeat split; auto
    end.
Qed.

Lemma In_replace_first {A} (p : A -> bool) (y x : A) (l : list A) :
  In x l -> p x = true -> In y (replace_first p y l).
Proof.
  induction l as [|a l IH]; simpl; [contradiction|].
  intros [->|Hin] Hx.
  - rewrite Hx. now left.
  - destruct (p a); [now left|right; auto].
Qed.

(** A batch joined is a batch listed.  When a request to join by
    code is answered 200, the caller being the account [uid] that the token
    verifies as, [GET /my-batches] for [uid] then holds a batch with that
    code, in upper case, whoever asks. *)
Theorem join_then_my_batches env env' db h h' (code : option string)
    (tok uid : string) :
  bearerToken h = Some tok -> jwt_verify env tok = Some uid ->
  status (snd (joinBatch env db h code)) = 200%N ->
  uid <> "" -> isValid env' uid = true ->
  exists l s,
    myBatches env' (fst (joinBatch env db h code)) h' (Some uid) = Sent l /\
    In s l /\ bs_batch_code s = toUpperCase (orEmpty code).
Proof.
  intros Ht Hj Hs Hne Hv.
  destruct (joinBatch_joined env db h code Hs)
    as (u & b & Hu & _ & _ & Hin & Hc & _ & E).
  rewrite Ht in Hu. apply verify_Pure in Hu. rewrite Hj in Hu.
  injection Hu as Hu. rewrite E. simpl fst.
  destruct (@myBatches_sends env' (Batch_save env db
              (set_students b (students b ++ [user_id u]))) h' uid Hne Hv)
    as (bs & El & Hp).
  eexists. eexists. split; [exact El|].
  set (b' := set_updatedAt (set_students b (students b ++ [user_id u])) (now env)).
  assert (Hb' : In b' bs).
  { apply (Permutation_in _ (Permutation_sym Hp)). apply filter_In. split.
    - simpl. apply In_replace_first with (x := b); [assumption|].
      simpl. apply String.eqb_refl.
    - apply includes_In. simpl. apply in_or_app. right. left. congruence. }
  split.
  - apply in_map with (f := summaryOf _). exact Hb'.
  - simpl. exact Hc.
Qed.

(** Student 1 joins the new batch by its code in lower case. *)
Lemma join_then_my_batches_witness :
  exists l s,
    myBatches env4
      (fst (joinBatch env2 db1 (bearer "jwt-student1") (Some "math-10a")))
      None (Some idS1) = Sent l /\
    In s l /\ bs_batch_code s = "MATH-10A".
Proof.
  assert (Hs : status (snd (joinBatch env2 db1 (bearer "jwt-student1")
                              (Some "math-10a"))) = 200%N)
    by (vm_compute; reflexivity).
  assert (Hne : idS1 <> "") by discriminate.
  exact (@join_then_my_batches env2 env4 db1 (bearer "jwt-student1") None
           (Some "math-10a") "jwt-student1" idS1 eq_refl eq_refl Hs Hne eq_refl).
Defined.

(** ** The timetable for a parent *)

(** [GET /parent/batches/:batchId/timetable] reads no header and looks up
    no parent: it sends the timetable of the batch exactly when the query
    names one of the students of the batch.  What it sends then is what
    [GET /batches/:batchId/timetable] sends to anybody. *)
Theorem parentTimetable_sent_iff env db h h' batchId (studentId : option string) :
  (forall t,
     parentTimetable env db h batchId studentId = Sent t <->
     exists sid b,
       studentId = Some sid /\ sid <> "" /\ batchAt env db batchId b /\
       In sid (students b) /\ t = timetable b) /\
  (forall t,
     parentTimetable env db h batchId studentId = Sent t ->
     snd (getTimetable env db h' batchId) = ok (TimetableData t)).
Proof.
  split.
  - intros t. unfold parentTimetable. rewrite reading_Sent. split.
    + intros H. invM.
      match goal with H : negb (truthy _) = false |- _ =>
        apply negb_false_iff, truthy_Some in H as (sid & -> & Hne) end.
      match goal with H : negb (isEnrolled _ _) = false |- _ =>
        apply negb_false_iff, isEnrolled_In in H end.
      simpl in *.
      match goal with Hb : batchAt _ _ _ ?b |- _ =>
        exists sid, b; repeat split; assumption end.
    + intros (sid & b & -> & Hne & Hb & Hin & ->).
      rewrite (truthy_nonempty Hne). cbn [negb rejectIf bind].
      rewrite (batchAt_findBatch Hb). cbn [bind orEmpty].
      apply isEnrolled_In in Hin. now rewrite Hin.
  - intros t. unfold parentTimetable, getTimetable. rewrite reading_Sent.
    intros H. invM.
    match goal with Hb : batchAt _ _ _ _ |- _ =>
      rewrite (batchAt_findBatch Hb) end.
    reflexivity.
Qed.

(** The timetable of the example, for the identifier of student 1. *)
Lemma parentTimetable_witness :
  parentTimetable env4 db3 None idB1 (Some idS1) =
    Sent (timetable (hd batch1 (batches db3))) /\
  snd (getTimetable env4 db3 None idB1) =
    ok (TimetableData (timetable (hd batch1 (batches db3)))).
Proof.
  destruct (@parentTimetable_sent_iff env4 db3 None None idB1 (Some idS1))
    as [H1 H2].
  assert (E : parentTimetable env4 db3 None idB1 (Some idS1) =
              Sent (timetable (hd batch1 (batches db3)))).
  { apply H1. exists idS1, (hd batch1 (batches db3)).
    split; [reflexivity|]. split; [discriminate|].
    split; [vm_compute; reflexivity|].
    split; [vm_compute; left; reflexivity|reflexivity]. }
  split; [exact E|exact (H2 _ E)].
Defined.

(** ** Attendance statistics (C9) *)












(** ** The fee view of a parent, and identifiers written in another case *)

Lemma findPayment_paymentOf (db : DB) (sid : string) (l : list FeesPayment) :
  Forall (fun q => hasAccount db (fee_student q)) l ->
  findPayment db sid l = Pure (option_map (viewPayment db) (paymentOf sid l)).
Proof.
  unfold paymentOf, paymentsOf.
  induction 1 as [|q l Hq _ IH]; simpl; [reflexivity|].
  apply populate_user_account in Hq as (r & Hr & Hid).
  rewrite Hr, Hid. destruct (String.eqb (fee_student q) sid); [reflexivity|exact IH].
Qed.

(** [GET /parent/batches/:batchId/fees] reads no header and takes the
    parent from the query string.  In a state the requests can reach, when
    [parentId] names an account with role [parent], [studentId] an account
    whose [parentEmail] is the email of that parent, and the student is in
    the batch, the request is answered 200 with the first fee record of
    the student (or none), whatever header it carries and whoever sends
    it. *)
Theorem parentFees_takes_parent_from_query env db h batchId (b : Batch)
    (parent student : User) :
  reachable db ->
  User_findById env db (user_id parent) = Pure (Some parent) ->
  User_findById env db (user_id student) = Pure (Some student) ->
  role parent = "parent" -> parentEmail student = Some (user_email parent) ->
  user_id student <> "" -> batchId <> "" ->
  batchAt env db batchId b -> In (user_id student) (students b) ->
  parentFees env db h batchId (Some (user_id parent)) (Some (user_id student)) =
    (db, ok (FeesPaymentData
               (option_map (viewPayment db)
                  (paymentOf (user_id student) (feesPayments b))))).
Proof.
  intros Hr Hp Hs Hrole Hl Hne Hnb Hb Hin.
  pose proof (batchAt_In Hb) as (Hinb & _ & Hvb).
  assert (Hvs : isValid env (user_id student) = true).
  { unfold User_findById, cast in Hs. now destruct (isValid env (user_id student)). }
  unfold parentFees, invalidId. cbn [orEmpty].
  rewrite Hvb, Hvs, (truthy_nonempty Hne), (truthy_nonempty Hnb).
  cbn [negb orb rejectIf bind User_findByQueryId].
  rewrite Hp. cbn [bind]. rewrite Hs. cbn [bind].
  unfold requireParentOf. rewrite Hrole.
  change (String.eqb "parent" "parent") with true. cbn [orReject bind].
  rewrite (proj2 (linked_iff student parent) Hl). cbn [orReject bind].
  rewrite (batchAt_findBatch Hb). cbn [bind].
  rewrite (proj2 (isEnrolled_In b (user_id student)) Hin). cbn [negb rejectIf bind].
  destruct (@Refs_In db b (reachable_Refs Hr) Hinb) as [_ Hf].
  rewrite findPayment_paymentOf; [reflexivity|].
  revert Hf. apply Forall_impl. intros q. apply isStudentId_account.
Qed.

(** With the token of parent 2, who is not the parent of student 1, and
    the identifier of parent 1 in the query, the fee record of student 1
    is sent. *)
Lemma parentFees_witness :
  parentEmail student1 <> Some (user_email parent2) /\
  exists v,
    parentFees env4 db6 (bearer "jwt-parent2") idB1 (Some idP1) (Some idS1) =
      (db6, ok (FeesPaymentData (Some v))) /\
    amount (fv_payment v) = 1500%float.
Proof.
  split; [discriminate|].
  assert (Hr : reachable db6) by (unfold db6; apply reach_step, reachable_db2).
  assert (Hb : batchAt env4 db6 idB1 (hd batch1 (batches db6)))
    by (vm_compute; reflexivity).
  assert (Hp : User_findById env4 db6 (user_id parent1) = Pure (Some parent1))
    by (vm_compute; reflexivity).
  assert (Hs : User_findById env4 db6 (user_id student1) = Pure (Some student1))
    by (vm_compute; reflexivity).
  assert (Hin : In (user_id student1) (students (hd batch1 (batches db6))))
    by (vm_compute; left; reflexivity).
  pose proof (@parentFees_takes_parent_from_query env4 db6
                (bearer "jwt-parent2") idB1 _ parent1 student1 Hr Hp Hs
                eq_refl eq_refl ltac:(discriminate) ltac:(discriminate) Hb Hin)
    as E.
  assert (Ev : option_map (viewPayment db6)
                 (paymentOf (user_id student1)
                    (feesPayments (hd batch1 (batches db6)))) =
               Some {| fv_payment :=
                         {| fee_student := idS1; amount := 1500%float;
                            paymentDate := 5000; paymentMethod := "online";
                            fee_status := "paid"; fee_remarks := "" |};
                       fv_student :=
                         Some {| ref_id := idS1; ref_name := "Meena";
                                 ref_email := "meena@home.test" |} |})
    by (vm_compute; reflexivity).
  rewrite Ev in E. eexists. split; [exact E|reflexivity].
Defined.

(** A bulk add that writes the identifier of an enrolled student in
    another case enrols the student again.  [includes] compares the
    identifier as written with the printed identifiers of the batch and
    finds none, while the query finds the account, and [push] stores the
    cast identifier: the answer is 200 and [batch.students] holds the
    student twice. *)
Theorem addStudents_other_spelling env db h batchId (b : Batch) (id : string) :
  reachable db -> batchAt env db batchId b ->
  isValid env id = true -> isStudentId db (castId id) ->
  In (castId id) (students b) -> ~ In id (students b) ->
  addStudents env db h batchId (Some [id]) =
    (Batch_save env db (set_students b (students b ++ [castId id])),
     json 200 "Students added successfully") /\
  ~ NoDup (students b ++ [castId id]).
Proof.
  intros Hr Hb Hv Hs Hin Hnot. split.
  - rewrite (@addStudents_accepts env db h batchId b [id]); auto.
    + simpl. apply includes_not_In in Hnot. now rewrite Hnot.
    + now apply reachable_users.
    + discriminate.
    + simpl. now rewrite Hv.
    + repeat constructor. intros [].
    + intros x [<-|[]]. exact Hs.
  - intros Hnd. apply NoDup_remove_2 with (l' := []) in Hnd.
    apply Hnd. now rewrite app_nil_r.
Qed.

(** Student 1, enrolled in the batch of the example, is added under the
    upper-case form of her identifier. *)
Lemma addStudents_other_spelling_witness :
  exists b',
    batchAt env4 (fst (addStudents env3 db2 None idB1 (Some [idS1_upper]))) idB1 b' /\
    students b' = [idS1; idS1] /\
    snd (addStudents env3 db2 None idB1 (Some [idS1_upper])) =
      json 200 "Students added successfully".
Proof.
  assert (Hb : batchAt env3 db2 idB1 (set_updatedAt (set_students batch1 [idS1]) 2000))
    by (vm_compute; reflexivity).
  assert (Hs : isStudentId db2 (castId idS1_upper))
    by (exists student1; repeat split; simpl; auto).
  destruct (@addStudents_other_spelling env3 db2 None idB1 _ idS1_upper
              reachable_db2 Hb eq_refl Hs)
    as [E _].
  - vm_compute. left. reflexivity.
  - simpl. intros [H|[]]. discriminate H.
  - rewrite E. eexists. split; [vm_compute; reflexivity|]. split; reflexivity.
Defined.

Lemma find_app_Some {A} (p : A -> bool) (l l' : list A) (x : A) :
  find p l = Some x -> find p (l ++ l') = Some x.
Proof.
  induction l as [|a l IH]; simpl; [discriminate|].
  destruct (p a); [trivial|exact IH].
Qed.

(** Marks sent under another spelling of the student's identifier make a
    second row.  When no row of the test has, as printed, the student the
    entry writes, a row is pushed with the identifier cast; if the test
    already showed marks for that student, it shows them still, and holds
    two rows for the student. *)
Theorem updateTest_other_spelling env env' db h batchId (b : Batch) testId
    (l1 : list TestResult) (t0 : TestResult) (l2 : list TestResult)
    (m : MarkInput) :
  presents h (teacher_id b) -> batchAt env db batchId b ->
  isValid env' batchId = true ->
  testResults b = l1 ++ t0 :: l2 -> test_id t0 = testId ->
  (forall x, In x l1 -> test_id x <> testId) ->
  isValid env (in_student m) = true -> isSome (in_marks m) = true ->
  (forall r, In r (studentMarks t0) -> mark_student r <> in_student m) ->
  let out := updateTest env db h batchId testId None None None (Some [m]) in
  let row := {| mark_student := castId (in_student m);
                marks := numOr0 (in_marks m);
                mark_remarks := orEmpty (in_remarks m) |} in
  snd out = json 200 "Test updated successfully" /\
  exists b' t',
    batchAt env' (fst out) batchId b' /\
    testResults b' = l1 ++ t' :: l2 /\
    studentMarks t' = studentMarks t0 ++ [row] /\
    forall old,
      marksOf (castId (in_student m)) (studentMarks t0) = Some old ->
      marksOf (castId (in_student m)) (studentMarks t') = Some old /\
      ~ NoDup (map mark_student (studentMarks t')).
Proof.
  intros Hp Hb Hv El Hid Hl1 Hvm Hmk Hrows out row. unfold out, updateTest.
  rewrite (requireBearer_ok _ Hp). simpl.
  rewrite (batchAt_findBatch Hb). simpl.
  rewrite requireOwner_ok by reflexivity. simpl.
  assert (Hi : findIndex (fun x => String.eqb (test_id x) testId) (testResults b)
               = Some (List.length l1)).
  { rewrite El. apply findIndex_first.
    - intros y Hy. now apply String.eqb_neq, Hl1.
    - now apply String.eqb_eq. }
  rewrite Hi. simpl. rewrite Hvm, Hmk. simpl. split; [reflexivity|].
  assert (Hnone : findIndex (fun sm => String.eqb (mark_student sm) (in_student m))
                    (studentMarks t0) = None).
  { destruct (findIndex _ (studentMarks t0)) as [i|] eqn:E; [|reflexivity].
    apply findIndex_Some in E as (r1 & x & r2 & Er & _ & Hx & _).
    exfalso. apply (Hrows x).
    - rewrite Er. apply in_or_app. right. now left.
    - now apply String.eqb_eq. }
  eexists. eexists.
  split; [eapply batchAt_saved; [exact Hb|reflexivity|exact Hv]|].
  simpl. rewrite El, update_at_app.
  split; [reflexivity|].
  unfold updateTestFields. simpl. unfold recordMark. rewrite Hnone.
  split; [reflexivity|].
  intros old Hold. split.
  - unfold marksOf in *.
    destruct (find _ (studentMarks t0)) as [x|] eqn:Ef; [|discriminate].
    erewrite find_app_Some; [exact Hold|exact Ef].
  - unfold marksOf in Hold.
    destruct (find _ (studentMarks t0)) as [x|] eqn:Ef; [|discriminate].
    apply find_In in Ef as [Hin Hx]. apply String.eqb_eq in Hx.
    rewrite map_app. simpl. intros Hnd.
    apply NoDup_remove_2 with (l' := []) in Hnd. apply Hnd.
    rewrite app_nil_r. rewrite <- Hx. now apply in_map.
Qed.

(** The test of the example holds 41 marks for student 1; marks sent for
    the upper-case form of her identifier leave them and add a row. *)
Lemma updateTest_other_spelling_witness :
  exists b' t',
    batchAt env4
      (fst (updateTest (envAt 8000 idX1) db8 (bearer idT1) idB1 idX1 None None None
              (Some [markIn idS1_upper 12%float]))) idB1 b' /\
    testResults b' = [t'] /\
    map mark_student (studentMarks t') = [idS1; idS1] /\
    marksOf idS1 (studentMarks t') = Some 41%float.
Proof.
  assert (Hb : batchAt (envAt 8000 idX1) db8 idB1 (hd batch1 (batches db8)))
    by (vm_compute; reflexivity).
  assert (Hp : presents (bearer idT1) (teacher_id (hd batch1 (batches db8))))
    by (split; vm_compute; reflexivity).
  assert (Et : testResults (hd batch1 (batches db8)) =
               [] ++ hd test1 (testResults (hd batch1 (batches db8))) :: [])
    by (vm_compute; reflexivity).
  assert (Hrows : forall r,
            In r (studentMarks (hd test1 (testResults (hd batch1 (batches db8))))) ->
            mark_student r <> in_student (markIn idS1_upper 12%float)).
  { intros r Hr. vm_compute in Hr. destruct Hr as [<-|[]]. discriminate. }
  destruct (@updateTest_other_spelling (envAt 8000 idX1) env4 db8 (bearer idT1)
              idB1 _ idX1 [] _ [] (markIn idS1_upper 12%float)
              Hp Hb eq_refl Et eq_refl (fun x (H : In x []) => match H with end)
              eq_refl eq_refl Hrows)
    as (_ & b' & t' & Hb' & Etr & Em & Hold).
  exists b', t'. split; [exact Hb'|]. split; [exact Etr|].
  assert (E0 : studentMarks (hd test1 (testResults (hd batch1 (batches db8)))) =
               [{| mark_student := idS1; marks := 41%float; mark_remarks := "" |}])
    by (vm_compute; reflexivity).
  rewrite E0 in Em, Hold. split.
  - rewrite Em. reflexivity.
  - apply (Hold 41%float). reflexivity.
Defined.
